(** * wmbusmeters: address selection, meter manager, framing and units

    A shallow embedding of the parts of wmbusmeters that the specification
    talks about.

    - [src/address.h] declares the address data model; the records below
      follow the struct declarations field by field.
    - [src/metermanager.cc] is embedded method by method in the module
      [MeterManager]; the classes it calls into (Meter, Telegram, the driver
      registry, the logger) are an interface, [Collaborators].  The analysis
      of a telegram ([analyzeEnabled], [findBestNewStyleDriver],
      [analyzeTelegram]) is in the module [Analysis].
    - [src/testinternals.cc] holds the vectors of the internal test program;
      its [main] and [test] are in the module [TestProgram].
      The functions those vectors exercise (address.cc, units.cc and the
      utility files) are not among the sources; the modules [Selection],
      [Slip], [Months] and [SIUnits] model them from the specification and
      replay the vectors against the models. *)

From Stdlib Require Import List ZArith QArith Bool Btauto String Ascii Lia.
From Stdlib Require Import Strings.Byte.
Import ListNotations.
Local Open Scope Z_scope.

(** C++ [uchar] and [uint16_t] values are carried as [Z]. *)
Definition uchar := Z.
Definition uint16_t := Z.

(** [vector<uchar>]: a frame as it arrives from a bus device. *)
Definition Frame := list byte.

(* ------------------------------------------------------------------ *)
(** ** Data model of [address.h] *)

(** [enum class IdentityMode]. *)
Inductive IdentityMode :=
| ID
| ID_MFCT
| FULL
| NONE
| INVALID.

Module Address.

(** [struct Address]. *)
Record t := mk {
  id : string;        (* p1 or 12345678 or non-compliant hex: 1234abcd *)
  mfct : uint16_t;
  type : uchar;
  version : uchar
}.

End Address.

Module AddressExpression.

(** [struct AddressExpression]; [default] holds the in-class initialisers. *)
Record t := mk {
  id : string;
  has_wildcard : bool;   (* The id contains a * *)
  mbus_primary : bool;   (* Signals that the id is 0-250 *)
  mfct : uint16_t;       (* If 0xffff then any mfct matches this address. *)
  version : uchar;       (* If 0xff then any version matches this address. *)
  type : uchar;          (* If 0xff then any type matches this address. *)
  filter_out : bool;     (* Telegrams matching this rule should be filtered out! *)
  required : bool        (* If true, then this address expression must be matched! *)
}.

Definition default : t :=
  mk EmptyString false false 0xffff 0xff 0xff false false.

(** [AddressExpression(Address &a)]: id, mfct, version and type are copied,
    the other members keep their initialisers. *)
Definition ofAddress (a : Address.t) : t :=
  mk (Address.id a) false false (Address.mfct a) (Address.version a) (Address.type a)
     false false.

End AddressExpression.

(* ------------------------------------------------------------------ *)
(** ** Selection of telegrams by address expressions *)

Module Selection.

(** A letter of [A..Z]. *)
Definition isUpperCase (c : ascii) : bool :=
  (65 <=? Z.of_nat (nat_of_ascii c)) && (Z.of_nat (nat_of_ascii c) <=? 90).

(** Modelled from the spec: [flagToManufacturer] is defined in address.cc,
    which is not among the sources.  Section 4.1: three upper-case letters
    map to [((c1-64)<<10) | ((c2-64)<<5) | (c3-64)]; any letter outside
    [A..Z] fails. *)
Definition flagToManufacturer (s : string) : option uint16_t :=
  match s with
  | String c1 (String c2 (String c3 EmptyString)) =>
      if isUpperCase c1 && isUpperCase c2 && isUpperCase c3
      then Some (Z.lor (Z.lor (Z.shiftl (Z.of_nat (nat_of_ascii c1) - 64) 10)
                              (Z.shiftl (Z.of_nat (nat_of_ascii c2) - 64) 5))
                       (Z.of_nat (nat_of_ascii c3) - 64))
      else None
  | _ => None
  end.

(** Modelled from the spec: the id test of [AddressExpression::match]
    (address.cc, not among the sources).  Section 4.1: the id matches as a
    prefix up to the [*] when the expression has a wildcard, else exactly. *)
Fixpoint matchUpToStar (pattern id : string) : bool :=
  match pattern with
  | EmptyString => match id with EmptyString => true | _ => false end
  | String c pattern' =>
      if Ascii.eqb c "*" then true
      else match id with
           | EmptyString => false
           | String d id' => Ascii.eqb c d && matchUpToStar pattern' id'
           end
  end.

(** Modelled from the spec: the id test, by the [has_wildcard] flag of the
    expression (section 4.1). *)
Definition doesIdMatchExpression (e : AddressExpression.t) (id : string) : bool :=
  if AddressExpression.has_wildcard e
  then matchUpToStar (AddressExpression.id e) id
  else String.eqb (AddressExpression.id e) id.

(** Modelled from the spec: [AddressExpression::match] (address.cc, not among
    the sources).  Section 4.1: an expression matches iff the id matches and
    mfct, version and type are each the wildcard value or equal.  The
    [filter_out] flag takes no part in the test ([test_addresses]: the filter
    out does not change the test). *)
Definition match_ (e : AddressExpression.t) (id : string) (m : uint16_t) (v t : uchar) : bool :=
  ((AddressExpression.mfct e =? 0xffff) || (AddressExpression.mfct e =? m)) &&
  ((AddressExpression.version e =? 0xff) || (AddressExpression.version e =? v)) &&
  ((AddressExpression.type e =? 0xff) || (AddressExpression.type e =? t)) &&
  doesIdMatchExpression e id.

(** [match] on the members of an address. *)
Definition matchAddress (e : AddressExpression.t) (a : Address.t) : bool :=
  match_ e (Address.id a) (Address.mfct a) (Address.version a) (Address.type a).

(** The locals of the loop over the expressions, for one address. *)
Record ExpressionLoop := mkExpressionLoop {
  found_match : bool;
  found_negative_match : bool;
  exact_match : bool
}.

(** What [doesTelegramMatchExpressions] carries from address to address: the
    out-parameter [*used_wildcard] and whether a filter-out matched. *)
Record Verdict := mkVerdict {
  used_wildcard : bool;
  filtered_out : bool
}.

(** Modelled from the spec: one expression against one address (the body of
    the loop over the expressions, section 4.1).  A match of a [filter_out]
    expression is a negative match; a match of a positive expression is a
    match, an exact one when the expression has no wildcard. *)
Definition expressionStep (a : Address.t) (ae : AddressExpression.t)
           (loop : ExpressionLoop) : ExpressionLoop :=
  let m := matchAddress ae a in
  if AddressExpression.filter_out ae
  then
    if m then mkExpressionLoop (found_match loop) true (exact_match loop) else loop
  else
    if m
    then mkExpressionLoop true (found_negative_match loop)
                          (if AddressExpression.has_wildcard ae then exact_match loop else true)
    else loop.

(** Modelled from the spec: the expressions in order (section 4.1). *)
Fixpoint expressionLoop (a : Address.t) (es : list AddressExpression.t)
         (loop : ExpressionLoop) : ExpressionLoop :=
  match es with
  | [] => loop
  | ae :: rest => expressionLoop a rest (expressionStep a ae loop)
  end.

(** Modelled from the spec: the per-address half of
    [doesTelegramMatchExpressions] (address.cc, not among the sources).
    Section 4.1: go through the expressions in order; the address passes when
    a positive expression matched and no [filter_out] expression matched.
    A [filter_out] match is recorded for the whole telegram (scenario 8.3).
    [*used_wildcard] is true iff acceptance relied on an expression with
    [has_wildcard]: it is raised when the address passes and no expression
    without wildcard matched it, and it is never lowered.  The vectors of
    [test_ids] and [test_addresses] agree, the last one included (reject,
    yet used_wildcard). *)
Definition doesAddressMatchExpressions (a : Address.t) (es : list AddressExpression.t)
           (out : Verdict) : bool * Verdict :=
  let loop := expressionLoop a es (mkExpressionLoop false false false) in
  if found_negative_match loop
  then (false, mkVerdict (used_wildcard out) true)
  else if found_match loop
  then (true, mkVerdict (if exact_match loop then used_wildcard out else true)
                        (filtered_out out))
  else (false, out).

(** Modelled from the spec: the addresses of the telegram in order; the
    telegram matches when one of them passes. *)
Fixpoint addressLoop (addresses : list Address.t) (es : list AddressExpression.t)
         (st : bool * Verdict) : bool * Verdict :=
  match addresses with
  | [] => st
  | a :: rest =>
      let (matched, out) := st in
      let (m, out') := doesAddressMatchExpressions a es out in
      addressLoop rest es (if m then true else matched, out')
  end.

(** Modelled from the spec: [doesTelegramMatchExpressions] is declared in
    address.h and defined in address.cc, which is not among the sources.
    Every address of the telegram is tried; a filter-out on any address
    rejects the telegram (section 4.1 and scenario 8.3).  The result is the
    return value and the final [*used_wildcard], which starts from the
    caller's value. *)
Definition doesTelegramMatchExpressions (addresses : list Address.t)
           (es : list AddressExpression.t) (used_wildcard0 : bool) : bool * bool :=
  let (matched, out) := addressLoop addresses es (false, mkVerdict used_wildcard0 false) in
  let matched := if filtered_out out then false else matched in
  (matched, used_wildcard out).

(* ---------------- vocabulary of the statements ---------------- *)






(* ---------------- the loops in closed form ---------------- *)






(* ---------------- the vectors of testinternals.cc ---------------- *)

Fixpoint containsStar (s : string) : bool :=
  match s with
  | EmptyString => false
  | String c rest => Ascii.eqb c "*" || containsStar rest
  end.

(** An expression as [AddressExpression::parse] leaves it for the text
    [id.M=flag.V=v.T=t]; an empty flag, 0xff and 0xff stand for the parts
    that are not written. *)
Definition expr (id flag : string) (v t : uchar) : AddressExpression.t :=
  AddressExpression.mk id (containsStar id) false
    (match flagToManufacturer flag with Some m => m | None => 0xffff end)
    v t false false.

Definition idExpr (id : string) : AddressExpression.t := expr id "" 0xff 0xff.

(** The leading [!]. *)
Definition negated (e : AddressExpression.t) : AddressExpression.t :=
  AddressExpression.mk (AddressExpression.id e) (AddressExpression.has_wildcard e)
    (AddressExpression.mbus_primary e) (AddressExpression.mfct e)
    (AddressExpression.version e) (AddressExpression.type e) true
    (AddressExpression.required e).

(** [tst_telegram_match] builds its addresses from parsed expressions. *)
Definition addressOf (e : AddressExpression.t) : Address.t :=
  Address.mk (AddressExpression.id e) (AddressExpression.mfct e)
             (AddressExpression.type e) (AddressExpression.version e).

(** [test_does_id_match_expression] sets the id only. *)
Definition bareAddress (id : string) : Address.t := Address.mk id 0 0 0.

Definition MANUFACTURER_ABB : uint16_t := 0x442.

Definition telegramVectorHolds
           (v : list Address.t * list AddressExpression.t * bool * bool) : bool :=
  let '(addresses, es, expected, expected_uw) := v in
  let (m, uw) := doesTelegramMatchExpressions addresses es false in
  Bool.eqb m expected && Bool.eqb uw expected_uw.

(** The calls of [test_does_id_match_expression] in [test_ids]. *)
Definition test_ids_vectors : list (list Address.t * list AddressExpression.t * bool * bool) :=
  let blocks := [idExpr "123*"; negated (idExpr "1234*"); negated (idExpr "1235*");
                 negated (idExpr "1236*")] in
  let prefixes := [idExpr "22*"; idExpr "33*"; idExpr "44*"; idExpr "55*"] in
  [ ([bareAddress "12345678"], [idExpr "12345678"], true, false);
    ([bareAddress "12345678"], [idExpr "*"], true, true);
    ([bareAddress "12345678"], [idExpr "2*"], false, false);
    ([bareAddress "12345678"], [idExpr "*"; negated (idExpr "2*")], true, true);
    ([bareAddress "22222222"], [idExpr "22*"; negated (idExpr "22222222")], false, false);
    ([bareAddress "22222223"], [idExpr "22*"; negated (idExpr "22222222")], true, true);
    ([bareAddress "22222223"], [idExpr "*"; negated (idExpr "22*")], false, false);
    ([bareAddress "12333333"], blocks, true, true);
    ([bareAddress "12366666"], blocks, false, false);
    ([bareAddress "11223344"], prefixes, false, false);
    ([bareAddress "55223344"], prefixes, true, true);
    ([bareAddress "78563413"], [idExpr "78563412"; idExpr "78563413"], true, false);
    ([bareAddress "78563413"],
     [idExpr "*"; negated (idExpr "00156327"); negated (idExpr "00048713")], true, true) ].

(** The calls of [tst_telegram_match] in [test_addresses]. *)
Definition test_addresses_vectors
  : list (list Address.t * list AddressExpression.t * bool * bool) :=
  let two := [addressOf (idExpr "11111111"); addressOf (idExpr "22222222")] in
  let kam := [addressOf (expr "11111111" "KAM" 0x1b 0x16)] in
  [ ([addressOf (idExpr "12345678")], [idExpr "12345678"], true, false);
    (two, [idExpr "12345678"; idExpr "22*"], true, true);
    (two, [idExpr "12345678"; idExpr "22222222"], true, false);
    ([addressOf (expr "11111111" "KAM" 0xff 0xff); addressOf (expr "22222222" "PII" 0xff 0xff)],
     [expr "11111111" "KAM" 0xff 0xff], true, false);
    ([addressOf (expr "11111111" "KAF" 0xff 0xff)], [expr "11111111" "KAM" 0xff 0xff],
     false, false);
    (kam, [expr "11111111" "KAM" 0xff 0xff], true, false);
    (kam, [expr "11111111" "KAF" 0xff 0xff], false, false);
    (kam, [idExpr "11111111"], true, false);
    (kam, [expr "11111111" "KAM" 0xff 0xff], true, false);
    (kam, [expr "11111111" "" 0x1b 0xff], true, false);
    (kam, [expr "11111111" "" 0xff 0x16], true, false);
    (kam, [expr "11111111" "KAM" 0xff 0x16], true, false);
    (kam, [expr "11111111" "KAM" 0x1b 0xff], true, false);
    (kam, [expr "11111111" "" 0x1b 0x16], true, false);
    (kam, [expr "11111111" "KAL" 0xff 0xff], false, false);
    (kam, [expr "11111111" "" 0x1c 0xff], false, false);
    (kam, [expr "11111111" "" 0xff 0x17], false, false);
    (kam, [expr "11111111" "KAM" 0xff 0x17], false, false);
    (kam, [expr "11111111" "KAL" 0x1b 0xff], false, false);
    (kam, [expr "11111111" "" 0x1b 0x17], false, false);
    ([addressOf (expr "11111111" "KAM" 0x1b 0x16); addressOf (expr "22222222" "XXX" 0xaa 0x99)],
     [idExpr "*"; negated (expr "1*" "" 0x1b 0xff)], false, true) ].

(** The calls of [tst_address_match] in [test_addresses]:
    expression, id, mfct, version, type, expected result of [match]. *)
Definition tst_address_match_vectors
  : list (AddressExpression.t * string * uint16_t * uchar * uchar * bool) :=
  let full := expr "12345678" "ABB" 0x67 0x06 in
  let nine := expr "9*" "" 0x06 0xff in
  [ (idExpr "12345678", "12345678"%string, 1, 1, 1, true);
    (expr "12345678" "ABB" 0x77 0xff, "12345678"%string, MANUFACTURER_ABB, 0x77, 88, true);
    (expr "1*" "" 0x77 0xff, "12345678"%string, MANUFACTURER_ABB, 0x77, 1, true);
    (full, "12345678"%string, MANUFACTURER_ABB, 0x67, 0x06, true);
    (full, "12345678"%string, MANUFACTURER_ABB, 0x68, 0x06, false);
    (full, "12345678"%string, MANUFACTURER_ABB, 0x67, 0x07, false);
    (full, "12345678"%string, MANUFACTURER_ABB + 1, 0x67, 0x06, false);
    (full, "12345677"%string, MANUFACTURER_ABB, 0x67, 0x06, false);
    (negated (idExpr "12345678"), "12345677"%string, 1, 1, 1, false);
    (negated (expr "*" "ABB" 0xff 0xff), "99999999"%string, MANUFACTURER_ABB, 1, 1, true);
    (expr "*" "ABB" 0xff 0xff, "99999999"%string, MANUFACTURER_ABB, 1, 1, true);
    (nine, "99999999"%string, MANUFACTURER_ABB, 0x06, 1, true);
    (nine, "89999999"%string, MANUFACTURER_ABB, 0x06, 1, false);
    (nine, "99999999"%string, MANUFACTURER_ABB, 0x07, 1, false);
    (nine, "89999999"%string, MANUFACTURER_ABB, 0x07, 1, false);
    (negated nine, "99999999"%string, MANUFACTURER_ABB, 0x06, 1, true);
    (negated nine, "89999999"%string, MANUFACTURER_ABB, 0x06, 1, false);
    (negated nine, "99999999"%string, MANUFACTURER_ABB, 0x07, 1, false);
    (negated nine, "89999999"%string, MANUFACTURER_ABB, 0x07, 1, false) ].

Example test_ids_replayed : forallb telegramVectorHolds test_ids_vectors = true.
Proof. vm_compute. reflexivity. Qed.

Example test_addresses_replayed : forallb telegramVectorHolds test_addresses_vectors = true.
Proof. vm_compute. reflexivity. Qed.

Example tst_address_match_replayed :
  forallb (fun '(e, id, m, v, t, expected) => Bool.eqb (match_ e id m v t) expected)
          tst_address_match_vectors = true.
Proof. vm_compute. reflexivity. Qed.

Example flagToManufacturer_ABB : flagToManufacturer "ABB" = Some MANUFACTURER_ABB.
Proof. reflexivity. Qed.

(* ---------------- the claims about selection ---------------- *)










End Selection.

(* ------------------------------------------------------------------ *)
(** ** The meter manager, [metermanager.cc] *)

Module MeterManager.

(** [struct MeterInfo] is declared in meters.h, which is not among the
    sources; the fields are the ones [metermanager.cc] reads and writes
    ([name], [driverName()], [driver_name], [address_expressions],
    [identity_mode]) together with the key and bus of the specification's
    data model. *)
Record MeterInfo := mkMeterInfo {
  name : string;
  driver_name : string;
  address_expressions : list AddressExpression.t;
  key : string;
  identity_mode : IdentityMode;
  bus : string
}.

Definition driverName (mi : MeterInfo) : string := driver_name mi.

Definition set_address_expressions (mi : MeterInfo) (es : list AddressExpression.t) : MeterInfo :=
  mkMeterInfo (name mi) (driver_name mi) es (key mi) (identity_mode mi) (bus mi).

Definition set_driver_name (mi : MeterInfo) (d : string) : MeterInfo :=
  mkMeterInfo (name mi) d (address_expressions mi) (key mi) (identity_mode mi) (bus mi).

(** What [metermanager.cc] calls but does not define: the [Meter] and
    [Telegram] classes, the driver registry, the meter factory, the identity
    policy of address.cc and the logger's level switches.  Out-parameters are
    passed in and returned: [meter_handleTelegram m about frame simulated
    addresses id_match] returns the meter as the call leaves it, the call's
    result [h], and the new contents of [*addresses] and [*id_match]. *)
Class Collaborators := {
  AboutTelegram : Type;
  Telegram : Type;
  Meter : Type;
  TelegramListener : Type;       (* function over AboutTelegram and a frame *)
  MeterAddedCallback : Type;     (* function over a shared Meter pointer *)
  MeterUpdatedCallback : Type;   (* function over a Telegram and a Meter pointer *)
  meter_handleTelegram :
    Meter -> AboutTelegram -> Frame -> bool -> list Address.t -> bool ->
    Meter * (bool * list Address.t * bool);
  numUpdates : Meter -> Z;
  setIndex : Meter -> Z -> Meter;
  onUpdate : Meter -> option MeterUpdatedCallback -> Meter;
  createMeter : MeterInfo -> Meter;
  parseHeader : AboutTelegram -> Frame -> bool * Telegram;
  markAsSimulated : Telegram -> Telegram;
  addresses : Telegram -> list Address.t;
  isTelegramForMeter : Telegram -> MeterInfo -> bool;
  pickMeterDriver : Telegram -> string;    (* di.name().str(), empty when none *)
  appendIdentity :
    IdentityMode -> list Address.t -> list AddressExpression.t ->
    AddressExpression.t * list AddressExpression.t;
  isDebugEnabled : bool;
  isVerboseEnabled : bool
}.

Section Manager.

Context `{C : Collaborators}.

(** The text of a log line is not modelled, its occasion and arguments are. *)
Inductive LogMessage :=
| NoMeterHandled (idsc : list Address.t) (n_templates : nat)
| CouldNotFindDriver (name : string) (t : Telegram)
| PleaseConsiderOpeningAnIssue
| ToAddSupport
| UsedMeterTemplate (mi : MeterInfo) (t : Telegram)
| StartedMeter (meter : Meter) (mi : MeterInfo) (identity_expression : AddressExpression.t)
| NewMeterDidNotMatch (meter : Meter)
| NewMeterDidNotHandle (meter : Meter)
| IgnoredByAll.

(** What the manager does to the outside: log calls and callbacks. *)
Inductive Event :=
| EvDebug (msg : LogMessage)
| EvVerbose (msg : LogMessage)
| EvNotice (msg : LogMessage)
| EvWarning (msg : LogMessage)
| EvMeterAdded (cb : MeterAddedCallback) (meter : Meter)
| EvListener (f : TelegramListener) (about : AboutTelegram) (input_frame : Frame)
| EvAnalyzeTelegram (about : AboutTelegram) (input_frame : Frame) (simulated : bool).

(** The members of [MeterManagerImplementation] that the methods below use;
    the remaining [analyze_*] and [should_profile_] members are read by
    [analyzeTelegram] only. *)
Record Manager := mkManager {
  is_daemon_ : bool;
  should_analyze_ : bool;
  meter_templates_ : list MeterInfo;
  meters_ : list Meter;
  telegram_listeners_ : list TelegramListener;
  on_meter_added_ : option MeterAddedCallback;
  on_meter_updated_ : option MeterUpdatedCallback
}.

Definition set_meters (mg : Manager) (ms : list Meter) : Manager :=
  mkManager (is_daemon_ mg) (should_analyze_ mg) (meter_templates_ mg) ms
            (telegram_listeners_ mg) (on_meter_added_ mg) (on_meter_updated_ mg).

(** The manager together with the trace of what it has done so far. *)
Record World := mkWorld {
  mgr : Manager;
  trace : list Event
}.

(** A state monad over [World]. *)
Definition M (A : Type) : Type := World -> A * World.

Definition ret {A} (a : A) : M A := fun w => (a, w).

Definition bind {A B} (c : M A) (k : A -> M B) : M B :=
  fun w => let (a, w') := c w in k a w'.

Definition get : M Manager := fun w => (mgr w, w).

Definition put (mg : Manager) : M unit := fun w => (tt, mkWorld mg (trace w)).

Definition emit (e : Event) : M unit := fun w => (tt, mkWorld (mgr w) (trace w ++ [e])).

Definition when (b : bool) (c : M unit) : M unit := if b then c else ret tt.

Notation "x <- c ;; k" := (bind c (fun x => k))
  (at level 61, c at next level, right associativity).
Notation "c ;;; k" := (bind c (fun _ => k))
  (at level 61, right associativity).

Fixpoint forEach {A} (xs : list A) (body : A -> M unit) : M unit :=
  match xs with
  | [] => ret tt
  | x :: rest => body x ;;; forEach rest body
  end.

(** [addMeterTemplate]. *)
Definition addMeterTemplate (mi : MeterInfo) : M unit :=
  mg <- get ;;
  put (mkManager (is_daemon_ mg) (should_analyze_ mg) (meter_templates_ mg ++ [mi]) (meters_ mg)
                 (telegram_listeners_ mg) (on_meter_added_ mg) (on_meter_updated_ mg)).

(** [triggerMeterAdded]. *)
Definition triggerMeterAdded (meter : Meter) : M unit :=
  mg <- get ;;
  match on_meter_added_ mg with
  | Some cb => emit (EvMeterAdded cb meter)
  | None => ret tt
  end.

(** [addMeter]: the meter is pushed, then given its index (the new size) and
    the update callback.  The vector holds a shared pointer, so the element
    pushed is the object those two calls change; the result is that object.
    The meter is an object that the vector does not hold yet, as the one
    that [handleTelegram] adds, fresh from [createMeter]. *)
Definition addMeter (meter : Meter) : M Meter :=
  mg <- get ;;
  let index := Z.of_nat (List.length (meters_ mg ++ [meter])) in
  let meter' := onUpdate (setIndex meter index) (on_meter_updated_ mg) in
  put (set_meters mg (meters_ mg ++ [meter'])) ;;;
  triggerMeterAdded meter' ;;;
  ret meter'.

(** A meter object that was just added is still reachable through the local
    shared pointer; a call on it changes the last element of [meters_]. *)
Definition storeLastAdded (meter : Meter) : M unit :=
  mg <- get ;;
  put (set_meters mg (removelast (meters_ mg) ++ [meter])).

(** [removeAllMeters]. *)
Definition removeAllMeters : M unit :=
  mg <- get ;;
  put (set_meters mg []).

(** The loop of [hasAllMetersReceivedATelegram]. *)
Fixpoint allMetersUpdated (ms : list Meter) : bool :=
  match ms with
  | [] => true
  | meter :: rest => if numUpdates meter =? 0 then false else allMetersUpdated rest
  end.

(** [hasAllMetersReceivedATelegram]. *)
Definition hasAllMetersReceivedATelegram (mg : Manager) : bool :=
  if (List.length (meters_ mg) <? List.length (meter_templates_ mg))%nat then false
  else allMetersUpdated (meters_ mg).

(** [hasMeters]. *)
Definition hasMeters (mg : Manager) : bool :=
  negb (List.length (meters_ mg) =? 0)%nat || negb (List.length (meter_templates_ mg) =? 0)%nat.

(** [warnForUnknownDriver]: three warnings. *)
Definition warnForUnknownDriver (name : string) (t : Telegram) : M unit :=
  emit (EvWarning (CouldNotFindDriver name t)) ;;;
  emit (EvWarning PleaseConsiderOpeningAnIssue) ;;;
  emit (EvWarning ToAddSupport).

(** The call of [analyzeTelegram], as the manager's state sees it: the call
    builds meters of its own and never touches [meters_], [meter_templates_]
    or the listeners, so it is one event here.  What the call prints, and
    the runs in which it reaches [error] and does not come back, are in
    module [Analysis]; the value that [handleTelegram] returns behind this
    event is the one of the runs that come back. *)
Definition analyzeTelegram (about : AboutTelegram) (input_frame : Frame) (simulated : bool) : M unit :=
  emit (EvAnalyzeTelegram about input_frame simulated).

(** The first loop of [handleTelegram]: every meter is offered the telegram.
    The accumulator is ([addresses], [exact_id_match], [handled]). *)
Fixpoint offerToMeters (ms : list Meter) (about : AboutTelegram) (input_frame : Frame)
         (simulated : bool) (acc : list Address.t * bool * bool)
  : list Meter * (list Address.t * bool * bool) :=
  match ms with
  | [] => ([], acc)
  | m :: rest =>
      let '(addrs, exact_id_match, handled) := acc in
      let '(m', (h, addrs', exact_id_match')) :=
        meter_handleTelegram m about input_frame simulated addrs exact_id_match in
      let '(rest', acc') :=
        offerToMeters rest about input_frame simulated
                      (addrs', exact_id_match', if h then true else handled) in
      (m' :: rest', acc')
  end.

(** The body of the template loop for one template [mi] that matched.  The
    accumulator is ([addresses], [handled]). *)
Definition instantiateTemplate (t : Telegram) (about : AboutTelegram) (input_frame : Frame)
           (simulated : bool) (mi : MeterInfo) (acc : list Address.t * bool)
  : M (list Address.t * bool) :=
  let '(addrs, handled) := acc in
  mg <- get ;;
  (* We found a match, make a copy of the meter info. *)
  let meter_info := mi in
  let '(identity_expression, es) :=
    appendIdentity (identity_mode mi) (addresses t) (address_expressions meter_info) in
  let meter_info := set_address_expressions meter_info es in
  meter_info <-
    (if String.eqb (driverName meter_info) "auto"
     then
       (* Look up the proper meter driver! *)
       let di := pickMeterDriver t in
       if String.eqb di ""
       then
         when (negb (should_analyze_ mg)) (warnForUnknownDriver (name mi) t) ;;;
         ret meter_info
       else ret (set_driver_name meter_info di)
     else ret meter_info) ;;
  (* Now build a meter object with for this exact id. *)
  meter <- addMeter (createMeter meter_info) ;;
  when isVerboseEnabled (emit (EvVerbose (UsedMeterTemplate mi t))) ;;;
  (if is_daemon_ mg
   then emit (EvNotice (StartedMeter meter mi identity_expression))
   else emit (EvVerbose (StartedMeter meter mi identity_expression))) ;;;
  let '(meter', (h, addrs', match_)) :=
    meter_handleTelegram meter about input_frame simulated addrs false in
  storeLastAdded meter' ;;;
  if negb match_
  then emit (EvWarning (NewMeterDidNotMatch meter')) ;;; ret (addrs', handled)
  else if negb h
  then emit (EvWarning (NewMeterDidNotHandle meter')) ;;; ret (addrs', handled)
  else ret (addrs', true).

(** The template loop: every template, in the order of [meter_templates_]. *)
Fixpoint tryTemplates (templates : list MeterInfo) (t : Telegram) (about : AboutTelegram)
         (input_frame : Frame) (simulated : bool) (acc : list Address.t * bool)
  : M (list Address.t * bool) :=
  match templates with
  | [] => ret acc
  | mi :: rest =>
      acc' <- (if isTelegramForMeter t mi
               then instantiateTemplate t about input_frame simulated mi acc
               else ret acc) ;;
      tryTemplates rest t about input_frame simulated acc'
  end.

(** [handleTelegram]. *)
Definition handleTelegram (about : AboutTelegram) (input_frame : Frame) (simulated : bool) : M bool :=
  mg <- get ;;
  if should_analyze_ mg
  then analyzeTelegram about input_frame simulated ;;; ret true
  else
    let '(ms, (addrs, exact_id_match, handled)) :=
      offerToMeters (meters_ mg) about input_frame simulated ([], false, false) in
    put (set_meters mg ms) ;;;
    (* If not properly handled, and there was no exact id match.
       then lets check if there is a template that can create a meter for it. *)
    handled <-
      (if negb handled && negb exact_id_match
       then
         when isDebugEnabled
              (emit (EvDebug (NoMeterHandled addrs (List.length (meter_templates_ mg))))) ;;;
         let (ok, t0) := parseHeader about input_frame in
         let t := if simulated then markAsSimulated t0 else t0 in
         if ok
         then
           r <- tryTemplates (meter_templates_ mg) t about input_frame simulated (addrs, handled) ;;
           ret (snd r)
         else ret handled
       else ret handled) ;;
    forEach (telegram_listeners_ mg) (fun f => emit (EvListener f about input_frame)) ;;;
    when (isVerboseEnabled && negb handled) (emit (EvVerbose IgnoredByAll)) ;;;
    ret handled.

(** [onTelegram]. *)
Definition onTelegram (cb : TelegramListener) : M unit :=
  mg <- get ;;
  put (mkManager (is_daemon_ mg) (should_analyze_ mg) (meter_templates_ mg) (meters_ mg)
                 (telegram_listeners_ mg ++ [cb]) (on_meter_added_ mg) (on_meter_updated_ mg)).

(* ---------------- vocabulary of the statements ---------------- *)

(** The copy of template [mi] that [handleTelegram] hands to [createMeter]
    for telegram [t]: the identity is appended, and driver [auto] is replaced
    by the registry's pick when there is one. *)
Definition instantiatedMeterInfo (t : Telegram) (mi : MeterInfo) : MeterInfo :=
  let meter_info :=
    set_address_expressions mi
      (snd (appendIdentity (identity_mode mi) (addresses t) (address_expressions mi))) in
  if String.eqb (driverName meter_info) "auto"
  then if String.eqb (pickMeterDriver t) "" then meter_info
       else set_driver_name meter_info (pickMeterDriver t)
  else meter_info.

(** [meter] is a meter made for template [mi] from telegram [t]: created from
    the instantiated copy, given index [index] and the update callback, and
    then offered the telegram once. *)
Definition SpawnedFrom (cb : option MeterUpdatedCallback) (t : Telegram) (about : AboutTelegram)
           (input_frame : Frame) (simulated : bool) (mi : MeterInfo) (meter : Meter) : Prop :=
  exists index addrs,
    meter = fst (meter_handleTelegram
                   (onUpdate (setIndex (createMeter (instantiatedMeterInfo t mi)) index) cb)
                   about input_frame simulated addrs false).

Definition isListenerCall (e : Event) : bool :=
  match e with
  | EvListener _ _ _ => true
  | _ => false
  end.

Definition listenerCalls (about : AboutTelegram) (input_frame : Frame)
           (fs : list TelegramListener) : list Event :=
  map (fun f => EvListener f about input_frame) fs.

(* ---------------- facts about the loops ---------------- *)

Lemma allMetersUpdated_Forall ms :
  allMetersUpdated ms = true <-> Forall (fun meter => numUpdates meter <> 0) ms.
Proof.
  induction ms as [|meter rest IH]; simpl.
  - split; auto.
  - destruct (Z.eqb_spec (numUpdates meter) 0) as [Hz|Hnz].
    + split; [discriminate|]. intros H; inversion H; subst; contradiction.
    + rewrite IH. split; intros H.
      * constructor; assumption.
      * inversion H; assumption.
Qed.

Lemma offerToMeters_length ms about input_frame simulated acc :
  List.length (fst (offerToMeters ms about input_frame simulated acc)) = List.length ms.
Proof.
  revert acc; induction ms as [|m rest IH]; intros acc; simpl; [reflexivity|].
  destruct acc as [[addrs exact] handled].
  destruct (meter_handleTelegram m about input_frame simulated addrs exact)
    as [m' [[h addrs'] exact']].
  specialize (IH (addrs', exact', if h then true else handled)).
  destruct (offerToMeters rest about input_frame simulated
                          (addrs', exact', if h then true else handled)) as [rest' acc'].
  simpl in *. now rewrite IH.
Qed.

Lemma forEach_listeners fs about input_frame w :
  forEach fs (fun f => emit (EvListener f about input_frame)) w
  = (tt, mkWorld (mgr w) (trace w ++ listenerCalls about input_frame fs)).
Proof.
  revert w; induction fs as [|f rest IH]; intros w; simpl.
  - unfold ret. rewrite app_nil_r. now destruct w.
  - unfold bind, emit. rewrite IH. simpl. now rewrite <- app_assoc.
Qed.

(** One matching template: exactly one meter is appended, nothing else of the
    manager changes, no listener is called; and the unknown-driver warning is
    raised when driver [auto] finds no driver. *)
Lemma instantiateTemplate_spec t about input_frame simulated mi acc w :
  exists meter evs acc',
    instantiateTemplate t about input_frame simulated mi acc w
    = (acc', mkWorld (set_meters (mgr w) (meters_ (mgr w) ++ [meter])) (trace w ++ evs)) /\
    SpawnedFrom (on_meter_updated_ (mgr w)) t about input_frame simulated mi meter /\
    Forall (fun e => isListenerCall e = false) evs /\
    (should_analyze_ (mgr w) = false -> driverName mi = "auto"%string ->
     pickMeterDriver t = ""%string ->
     In (EvWarning (CouldNotFindDriver (name mi) t)) evs /\
     driverName (instantiatedMeterInfo t mi) = "auto"%string).
Proof.
  destruct acc as [addrs handled]. destruct w as [mg tr].
  unfold instantiateTemplate, SpawnedFrom, instantiatedMeterInfo.
  destruct (appendIdentity (identity_mode mi) (addresses t) (address_expressions mi))
    as [identity_expression es] eqn:Hid.
  unfold bind, get. cbn [mgr trace snd].
  set (mi1 := set_address_expressions mi es).
  assert (Hdrv : driverName mi1 = driverName mi) by reflexivity.
  destruct (String.eqb_spec (driverName mi1) "auto") as [Hauto|Hauto];
    destruct (String.eqb_spec (pickMeterDriver t) "") as [Hpick|Hpick];
    destruct (should_analyze_ mg) eqn:Han;
    destruct isVerboseEnabled;
    destruct (is_daemon_ mg) eqn:Hdm;
    unfold when, warnForUnknownDriver, addMeter, triggerMeterAdded, storeLastAdded,
      bind, get, put, emit, ret;
    cbn [negb mgr trace meters_ set_meters on_meter_added_ on_meter_updated_];
    destruct (on_meter_added_ mg) eqn:Hcb;
    cbn [negb mgr trace meters_ set_meters on_meter_added_ on_meter_updated_];
    match goal with
    | |- context [meter_handleTelegram ?m ?a ?f ?s ?ad ?b] =>
        destruct (meter_handleTelegram m a f s ad b) as [meter' [[h addrs'] match_]] eqn:Hh
    end;
    destruct match_; destruct h;
    cbn [negb mgr trace meters_ set_meters on_meter_added_ on_meter_updated_];
    rewrite removelast_last;
    exists meter'; eexists; eexists;
    repeat rewrite <- app_assoc;
    (split; [reflexivity|]);
    (split; [eexists; eexists; rewrite Hh; reflexivity|]);
    (split; [repeat constructor|]);
    intros Hna Hd Hp;
    try discriminate; try congruence;
    (split; [simpl; auto | assumption]).
Qed.

(** The template loop: one meter per matching template, in template order. *)
Lemma tryTemplates_spec templates t about input_frame simulated :
  forall acc w,
  exists news evs acc',
    tryTemplates templates t about input_frame simulated acc w
    = (acc', mkWorld (set_meters (mgr w) (meters_ (mgr w) ++ news)) (trace w ++ evs)) /\
    Forall2 (SpawnedFrom (on_meter_updated_ (mgr w)) t about input_frame simulated)
            (filter (isTelegramForMeter t) templates) news /\
    Forall (fun e => isListenerCall e = false) evs /\
    (should_analyze_ (mgr w) = false ->
     forall mi, In mi templates -> isTelegramForMeter t mi = true ->
                driverName mi = "auto"%string -> pickMeterDriver t = ""%string ->
                In (EvWarning (CouldNotFindDriver (name mi) t)) evs /\
                driverName (instantiatedMeterInfo t mi) = "auto"%string).
Proof.
  induction templates as [|mi rest IH]; intros acc w.
  - exists [], [], acc. simpl. unfold ret. rewrite !app_nil_r.
    repeat split; try constructor.
    + destruct w as [[] ?]; reflexivity.
    + destruct H0.
    + destruct H0.
  - simpl. unfold bind.
    destruct (isTelegramForMeter t mi) eqn:Hm.
    + destruct (instantiateTemplate_spec t about input_frame simulated mi acc w)
        as (meter & evs1 & acc1 & Hrun & Hsp & Hnl & Hwarn).
      rewrite Hrun.
      destruct (IH acc1 (mkWorld (set_meters (mgr w) (meters_ (mgr w) ++ [meter]))
                                 (trace w ++ evs1)))
        as (news & evs2 & acc2 & Hrun2 & Hsp2 & Hnl2 & Hwarn2).
      rewrite Hrun2. cbn [mgr trace meters_ set_meters on_meter_updated_ should_analyze_] in *.
      exists (meter :: news), (evs1 ++ evs2), acc2.
      repeat rewrite <- app_assoc. split; [reflexivity|].
      split; [constructor; assumption|].
      split; [apply Forall_app; split; assumption|].
      intros Hna mi' [Heq|Hin] Hmatch Hd Hp.
      * subst mi'. destruct (Hwarn Hna Hd Hp) as [Hin1 Hdrv].
        split; [apply in_or_app; left; exact Hin1 | exact Hdrv].
      * destruct (Hwarn2 Hna mi' Hin Hmatch Hd Hp) as [Hin2 Hdrv].
        split; [apply in_or_app; right; exact Hin2 | exact Hdrv].
    + unfold ret.
      destruct (IH acc w) as (news & evs & acc' & Hrun & Hsp & Hnl & Hwarn).
      rewrite Hrun. exists news, evs, acc'.
      split; [reflexivity|]. split; [assumption|]. split; [assumption|].
      intros Hna mi' [Heq|Hin] Hmatch Hd Hp.
      * subst mi'. congruence.
      * exact (Hwarn Hna mi' Hin Hmatch Hd Hp).
Qed.

(** The telegram as the template loop sees it. *)
Definition headerOf (about : AboutTelegram) (input_frame : Frame) (simulated : bool) : Telegram :=
  let t0 := snd (parseHeader about input_frame) in
  if simulated then markAsSimulated t0 else t0.

(** Whether the template loop runs, given what the meters left behind. *)
Definition templatesConsulted (about : AboutTelegram) (input_frame : Frame)
           (handled exact_id_match : bool) : bool :=
  negb handled && negb exact_id_match && fst (parseHeader about input_frame).

(** [handleTelegram] outside analysis mode, in one equation. *)
Lemma handleTelegram_normal about input_frame simulated w :
  should_analyze_ (mgr w) = false ->
  forall ms addrs exact_id_match handled0,
  offerToMeters (meters_ (mgr w)) about input_frame simulated ([], false, false)
  = (ms, (addrs, exact_id_match, handled0)) ->
  let t := headerOf about input_frame simulated in
  let consulted := templatesConsulted about input_frame handled0 exact_id_match in
  exists news pre post handled,
    handleTelegram about input_frame simulated w
    = (handled,
       mkWorld (set_meters (mgr w) (ms ++ news))
               (trace w ++ pre ++
                listenerCalls about input_frame (telegram_listeners_ (mgr w)) ++ post)) /\
    Forall2 (SpawnedFrom (on_meter_updated_ (mgr w)) t about input_frame simulated)
            (if consulted then filter (isTelegramForMeter t) (meter_templates_ (mgr w)) else [])
            news /\
    Forall (fun e => isListenerCall e = false) pre /\
    Forall (fun e => isListenerCall e = false) post /\
    (consulted = false -> handled = handled0) /\
    (consulted = true ->
     forall mi, In mi (meter_templates_ (mgr w)) -> isTelegramForMeter t mi = true ->
                driverName mi = "auto"%string -> pickMeterDriver t = ""%string ->
                In (EvWarning (CouldNotFindDriver (name mi) t)) pre /\
                driverName (instantiatedMeterInfo t mi) = "auto"%string).
Proof.
  intros Hna ms addrs exact_id_match handled0 Hoffer t consulted.
  destruct w as [mg tr]. cbn [mgr trace] in *.
  unfold handleTelegram, bind, get. cbn [mgr trace]. rewrite Hna, Hoffer.
  unfold put at 1. cbn [mgr trace].
  subst consulted t. unfold templatesConsulted, headerOf.
  destruct (parseHeader about input_frame) as [ok t0]. cbn [fst snd].
  set (t := if simulated then markAsSimulated t0 else t0).
  destruct (negb handled0 && negb exact_id_match) eqn:Hcons; cbn [andb].
  - (* the meters left the telegram unhandled and unmatched *)
    destruct ok.
    + (* header parsed: the templates are tried *)
      set (w1 := snd (when isDebugEnabled
                        (emit (EvDebug (NoMeterHandled addrs (List.length (meter_templates_ mg)))))
                        (mkWorld (set_meters mg ms) tr))).
      destruct (tryTemplates_spec (meter_templates_ mg) t about input_frame simulated
                                  (addrs, handled0) w1)
        as (news & evs & acc' & Hrun & Hsp & Hnl & Hwarn).
      assert (Hw1 : exists dbg, w1 = mkWorld (set_meters mg ms) (tr ++ dbg) /\
                                Forall (fun e => isListenerCall e = false) dbg).
      { subst w1. unfold when. destruct isDebugEnabled.
        - eexists. split; [reflexivity|]. repeat constructor.
        - exists []. unfold ret. cbn [snd]. rewrite app_nil_r. split; constructor. }
      destruct Hw1 as (dbg & Hw1 & Hdbg).
      assert (Hstep : when isDebugEnabled
                        (emit (EvDebug (NoMeterHandled addrs (List.length (meter_templates_ mg)))))
                        (mkWorld (set_meters mg ms) tr) = (tt, w1)).
      { subst w1. unfold when. destruct isDebugEnabled; reflexivity. }
      rewrite Hstep, Hrun, Hw1. cbn [mgr trace meters_ set_meters].
      unfold ret at 1. rewrite forEach_listeners. cbn [mgr trace telegram_listeners_ set_meters].
      exists news, (dbg ++ evs).
      rewrite Hw1 in Hsp, Hwarn. cbn [mgr on_meter_updated_ should_analyze_ set_meters] in Hsp, Hwarn.
      unfold when. destruct (isVerboseEnabled && negb (snd acc')).
      * exists [EvVerbose IgnoredByAll], (snd acc').
        unfold emit, ret. cbn [mgr trace]. repeat rewrite <- app_assoc.
        split; [reflexivity|]. split; [exact Hsp|].
        split; [apply Forall_app; split; assumption|].
        split; [repeat constructor|]. split; [discriminate|].
        intros _ mi Hin Hmatch Hd Hp.
        destruct (Hwarn Hna mi Hin Hmatch Hd Hp) as [Hw Hdrv].
        split; [apply in_or_app; right; exact Hw | exact Hdrv].
      * exists [], (snd acc').
        unfold ret. repeat rewrite <- app_assoc. rewrite app_nil_r.
        split; [reflexivity|]. split; [exact Hsp|].
        split; [apply Forall_app; split; assumption|].
        split; [constructor|]. split; [discriminate|].
        intros _ mi Hin Hmatch Hd Hp.
        destruct (Hwarn Hna mi Hin Hmatch Hd Hp) as [Hw Hdrv].
        split; [apply in_or_app; right; exact Hw | exact Hdrv].
    + (* header did not parse: no template is tried *)
      unfold when at 1.
      assert (Hw1 : exists dbg,
                 (if isDebugEnabled
                  then emit (EvDebug (NoMeterHandled addrs (List.length (meter_templates_ mg))))
                  else ret tt) (mkWorld (set_meters mg ms) tr)
                 = (tt, mkWorld (set_meters mg ms) (tr ++ dbg)) /\
                 Forall (fun e => isListenerCall e = false) dbg).
      { destruct isDebugEnabled.
        - eexists. split; [reflexivity|]. repeat constructor.
        - exists []. unfold ret. rewrite app_nil_r. split; constructor. }
      destruct Hw1 as (dbg & Hw1 & Hdbg). rewrite Hw1.
      unfold ret at 1. rewrite forEach_listeners. cbn [mgr trace telegram_listeners_ set_meters].
      exists [], dbg. unfold when. destruct (isVerboseEnabled && negb handled0).
      * exists [EvVerbose IgnoredByAll], handled0.
        unfold emit, ret. cbn [mgr trace]. repeat rewrite <- app_assoc. rewrite app_nil_r.
        split; [reflexivity|]. split; [constructor|]. split; [assumption|].
        split; [repeat constructor|]. split; [reflexivity|discriminate].
      * exists [], handled0.
        unfold ret. repeat rewrite <- app_assoc. rewrite !app_nil_r.
        split; [reflexivity|]. split; [constructor|]. split; [assumption|].
        split; [constructor|]. split; [reflexivity|discriminate].
  - (* a meter handled the telegram or matched its id exactly *)
    unfold ret at 1. rewrite forEach_listeners. cbn [mgr trace telegram_listeners_ set_meters].
    exists [], []. unfold when. destruct (isVerboseEnabled && negb handled0).
    + exists [EvVerbose IgnoredByAll], handled0.
      unfold emit, ret. cbn [mgr trace]. repeat rewrite <- app_assoc. rewrite app_nil_r.
      split; [reflexivity|]. split; [constructor|]. split; [constructor|].
      split; [repeat constructor|]. split; [reflexivity|discriminate].
    + exists [], handled0.
      unfold ret. rewrite !app_nil_r.
      split; [reflexivity|]. split; [constructor|]. split; [constructor|].
      split; [constructor|]. split; [reflexivity|discriminate].
Qed.

(** In analysis mode [handleTelegram] reports and returns at once. *)
Lemma handleTelegram_analysis about input_frame simulated w :
  should_analyze_ (mgr w) = true ->
  handleTelegram about input_frame simulated w
  = (true, mkWorld (mgr w) (trace w ++ [EvAnalyzeTelegram about input_frame simulated])).
Proof.
  intros Ha. unfold handleTelegram, bind, get. rewrite Ha. reflexivity.
Qed.

Lemma Forall2_In_left {A B} (R : A -> B -> Prop) xs ys x :
  Forall2 R xs ys -> In x xs -> exists y, In y ys /\ R x y.
Proof.
  induction 1 as [|a b xs' ys' Hab _ IH]; intros Hin; [destruct Hin|].
  destruct Hin as [->|Hin].
  - exists b. split; [left; reflexivity | assumption].
  - destruct (IH Hin) as (y & Hy & HR). exists y. split; [right; assumption | assumption].
Qed.

(** No call of [handleTelegram] drops a registered meter. *)
Lemma handleTelegram_keeps_meters about input_frame simulated w :
  (List.length (meters_ (mgr w))
   <= List.length (meters_ (mgr (snd (handleTelegram about input_frame simulated w)))))%nat.
Proof.
  destruct (should_analyze_ (mgr w)) eqn:Ha.
  - rewrite handleTelegram_analysis by assumption. apply Nat.le_refl.
  - destruct (offerToMeters (meters_ (mgr w)) about input_frame simulated ([], false, false))
      as [ms [[addrs exact_id_match] handled0]] eqn:Hoffer.
    destruct (handleTelegram_normal about input_frame simulated w Ha _ _ _ _ Hoffer)
      as (news & pre & post & handled & Hrun & _).
    rewrite Hrun. cbn [snd mgr meters_ set_meters]. rewrite length_app.
    pose proof (offerToMeters_length (meters_ (mgr w)) about input_frame simulated
                                     ([], false, false)) as Hlen.
    rewrite Hoffer in Hlen. cbn [fst] in Hlen. rewrite Hlen. apply Nat.le_add_r.
Qed.

(* ---------------- the claims about the manager ---------------- *)

(** C4: a template with driver [auto] matches and the registry knows no
    driver.  The warning of [warnForUnknownDriver] is logged, a meter made
    from the template (its driver still [auto]) is in [meters_] afterwards,
    the manager stays in normal mode, and no later telegram drops a
    registered meter. *)
Theorem unknown_driver_warns_and_registers
        about input_frame simulated w ms addrs mi :
  should_analyze_ (mgr w) = false ->
  offerToMeters (meters_ (mgr w)) about input_frame simulated ([], false, false)
  = (ms, (addrs, false, false)) ->
  fst (parseHeader about input_frame) = true ->
  In mi (meter_templates_ (mgr w)) ->
  isTelegramForMeter (headerOf about input_frame simulated) mi = true ->
  driverName mi = "auto"%string ->
  pickMeterDriver (headerOf about input_frame simulated) = ""%string ->
  let t := headerOf about input_frame simulated in
  let w' := snd (handleTelegram about input_frame simulated w) in
  In (EvWarning (CouldNotFindDriver (name mi) t)) (trace w') /\
  (exists meter,
      In meter (meters_ (mgr w')) /\
      SpawnedFrom (on_meter_updated_ (mgr w)) t about input_frame simulated mi meter /\
      driverName (instantiatedMeterInfo t mi) = "auto"%string) /\
  should_analyze_ (mgr w') = false /\
  (forall about2 frame2 simulated2,
      (List.length (meters_ (mgr w'))
       <= List.length (meters_ (mgr (snd (handleTelegram about2 frame2 simulated2 w')))))%nat).
Proof.
  intros Hna Hoffer Hok Hin Hmatch Hauto Hpick t w'.
  destruct (handleTelegram_normal about input_frame simulated w Hna _ _ _ _ Hoffer)
    as (news & pre & post & handled & Hrun & Hsp & _ & _ & _ & Hwarn).
  assert (Hc : templatesConsulted about input_frame false false = true).
  { unfold templatesConsulted. now rewrite Hok. }
  rewrite Hc in Hsp. destruct (Hwarn Hc mi Hin Hmatch Hauto Hpick) as [Hw Hdrv].
  subst w'. rewrite Hrun. cbn [snd mgr trace meters_ set_meters should_analyze_].
  split.
  { apply in_or_app; right. apply in_or_app; left. exact Hw. }
  split.
  { assert (Hf : In mi (filter (isTelegramForMeter t) (meter_templates_ (mgr w)))).
    { apply filter_In. split; assumption. }
    destruct (Forall2_In_left _ _ _ _ Hsp Hf) as (meter & Hm & Hspawn).
    exists meter. split; [apply in_or_app; right; exact Hm|]. split; assumption. }
  split; [exact Hna|].
  intros about2 frame2 simulated2.
  exact (handleTelegram_keeps_meters about2 frame2 simulated2
           (mkWorld (set_meters (mgr w) (ms ++ news))
                    (trace w ++ pre ++
                     listenerCalls about input_frame (telegram_listeners_ (mgr w)) ++ post))).
Qed.

(** C10: [hasAllMetersReceivedATelegram] is true exactly when there are at
    least as many meters as templates and every meter has a non-zero update
    count; with no meters and no templates it is true. *)
Theorem hasAllMetersReceivedATelegram_iff :
  (forall mg,
      hasAllMetersReceivedATelegram mg = true <->
      (List.length (meter_templates_ mg) <= List.length (meters_ mg))%nat /\
      Forall (fun meter => numUpdates meter <> 0) (meters_ mg)) /\
  (forall daemon analyze listeners added updated,
      hasAllMetersReceivedATelegram
        (mkManager daemon analyze [] [] listeners added updated) = true).
Proof.
  split.
  - intros mg. unfold hasAllMetersReceivedATelegram.
    destruct (Nat.ltb_spec (List.length (meters_ mg)) (List.length (meter_templates_ mg)))
      as [Hlt|Hge].
    + split; [discriminate|]. intros [Hle _]. lia.
    + rewrite allMetersUpdated_Forall. split.
      * intros H; split; assumption.
      * intros [_ H]; exact H.
  - reflexivity.
Qed.

End Manager.

(* ---------------- a concrete installation ---------------- *)

(** A small implementation of [Collaborators], to run the manager on: a meter
    records its info, index and update count; every frame carries the single
    identity 12345678 of manufacturer KAM; a meter accepts a telegram when one
    of its expressions names the id of one of the telegram's addresses; the
    driver registry knows no driver. *)
Record SimpleMeter := mkSimpleMeter {
  sm_info : MeterInfo;
  sm_index : Z;
  sm_updates : Z
}.

Definition simpleAddresses (input_frame : Frame) : list Address.t :=
  [Address.mk "12345678" 0x2c2d 0x16 0x1b].

Definition simpleMatch (es : list AddressExpression.t) (addrs : list Address.t) : bool :=
  existsb (fun a => existsb (fun e => String.eqb (AddressExpression.id e) (Address.id a)) es)
          addrs.

Definition simpleIdentity (addrs : list Address.t) : AddressExpression.t :=
  AddressExpression.mk (Address.id (last addrs (Address.mk "" 0 0 0)))
                       false false 0xffff 0xff 0xff false true.

Definition simple : Collaborators := {|
  AboutTelegram := unit;
  Telegram := list Address.t;
  Meter := SimpleMeter;
  TelegramListener := nat;
  MeterAddedCallback := unit;
  MeterUpdatedCallback := unit;
  meter_handleTelegram := fun m _ input_frame _ addrs id_match =>
    if simpleMatch (address_expressions (sm_info m)) (simpleAddresses input_frame)
    then (mkSimpleMeter (sm_info m) (sm_index m) (sm_updates m + 1),
          (true, simpleAddresses input_frame, true))
    else (m, (false, simpleAddresses input_frame, id_match));
  numUpdates := sm_updates;
  setIndex := fun m i => mkSimpleMeter (sm_info m) i (sm_updates m);
  onUpdate := fun m _ => m;
  createMeter := fun mi => mkSimpleMeter mi 0 0;
  parseHeader := fun _ input_frame =>
    (match input_frame with [] => false | _ => true end, simpleAddresses input_frame);
  markAsSimulated := fun t => t;
  addresses := fun t => t;
  isTelegramForMeter := fun t mi => simpleMatch (address_expressions mi) t;
  pickMeterDriver := fun _ => ""%string;
  appendIdentity := fun _ addrs es => (simpleIdentity addrs, es ++ [simpleIdentity addrs]);
  isDebugEnabled := false;
  isVerboseEnabled := false
|}.

Definition expr12345678 : AddressExpression.t :=
  AddressExpression.mk "12345678" false false 0xffff 0xff 0xff false false.

Definition waterTemplate : MeterInfo :=
  mkMeterInfo "water" "auto" [expr12345678] "" ID "".

Definition heatTemplate : MeterInfo :=
  mkMeterInfo "heat" "auto" [expr12345678] "" ID "".

Definition someFrame : Frame := [x2a; x44; x2d; x2c].

(** Two templates, no meter yet, one listener. *)
Definition freshWorld : @World simple :=
  @mkWorld simple (@mkManager simple false false [waterTemplate; heatTemplate] [] [7%nat] None None) [].

(** The same manager switched to analysis mode, without templates. *)
Definition analysingWorld : @World simple :=
  @mkWorld simple (@mkManager simple false true [] [] [7%nat] None None) [].

(** C4 at [freshWorld]: the registry knows no driver for the water template. *)
Lemma unknown_driver_warns_and_registers_witness :
  @should_analyze_ simple (mgr freshWorld) = false /\
  In waterTemplate (@meter_templates_ simple (mgr freshWorld)) /\
  @pickMeterDriver simple (@headerOf simple tt someFrame false) = ""%string /\
  In (@EvWarning simple
        (@CouldNotFindDriver simple "water" (@headerOf simple tt someFrame false)))
     (trace (snd (@handleTelegram simple tt someFrame false freshWorld))).
Proof.
  split; [reflexivity|]. split; [left; reflexivity|]. split; [reflexivity|].
  exact (proj1 (@unknown_driver_warns_and_registers simple tt someFrame false freshWorld
                  [] [] waterTemplate
                  eq_refl eq_refl eq_refl (or_introl eq_refl) eq_refl eq_refl eq_refl)).
Defined.

(* ---------------- the template loop in closed form ---------------- *)

Section TemplateLoop.

Context `{C : Collaborators}.

(** What one matching template leaves behind: the template, the meter as
    [addMeter] registered it (index and update callback set; this is what the
    meter-added callback is given), the meter after it was offered the
    telegram, and the two results of that call. *)
Record Spawn := mkSpawn {
  spawn_template : MeterInfo;
  spawn_added : Meter;
  spawn_meter : Meter;
  spawn_handled : bool;
  spawn_match : bool
}.

(** The meter made for template [mi] when [n] meters are registered, and the
    addresses its [handleTelegram] leaves. *)
Definition spawnOne (mg : Manager) (t : Telegram) (about : AboutTelegram) (input_frame : Frame)
           (simulated : bool) (n : nat) (addrs : list Address.t) (mi : MeterInfo)
  : Spawn * list Address.t :=
  let added := onUpdate (setIndex (createMeter (instantiatedMeterInfo t mi)) (Z.of_nat (S n)))
                        (on_meter_updated_ mg) in
  let '(meter', (h, addrs', match_)) :=
    meter_handleTelegram added about input_frame simulated addrs false in
  (mkSpawn mi added meter' h match_, addrs').

(** The meters made by one pass over the templates, in template order. *)
Fixpoint spawns (mg : Manager) (t : Telegram) (about : AboutTelegram) (input_frame : Frame)
         (simulated : bool) (n : nat) (addrs : list Address.t) (templates : list MeterInfo)
  : list Spawn * list Address.t :=
  match templates with
  | [] => ([], addrs)
  | mi :: rest =>
      if isTelegramForMeter t mi
      then
        let (sp, addrs') := spawnOne mg t about input_frame simulated n addrs mi in
        let (sps, addrs'') := spawns mg t about input_frame simulated (S n) addrs' rest in
        (sp :: sps, addrs'')
      else spawns mg t about input_frame simulated n addrs rest
  end.

(** What the manager logs and calls back for one spawned meter. *)
Definition spawnEvents (mg : Manager) (t : Telegram) (sp : Spawn) : list Event :=
  let mi := spawn_template sp in
  (if String.eqb (driverName mi) "auto" && String.eqb (pickMeterDriver t) ""
      && negb (should_analyze_ mg)
   then [EvWarning (CouldNotFindDriver (name mi) t);
         EvWarning PleaseConsiderOpeningAnIssue;
         EvWarning ToAddSupport]
   else []) ++
  (match on_meter_added_ mg with
   | Some cb => [EvMeterAdded cb (spawn_added sp)]
   | None => []
   end) ++
  (if isVerboseEnabled then [EvVerbose (UsedMeterTemplate mi t)] else []) ++
  [let identity_expression :=
     fst (appendIdentity (identity_mode mi) (addresses t) (address_expressions mi)) in
   if is_daemon_ mg
   then EvNotice (StartedMeter (spawn_added sp) mi identity_expression)
   else EvVerbose (StartedMeter (spawn_added sp) mi identity_expression)] ++
  (if negb (spawn_match sp) then [EvWarning (NewMeterDidNotMatch (spawn_meter sp))]
   else if negb (spawn_handled sp) then [EvWarning (NewMeterDidNotHandle (spawn_meter sp))]
   else []).

Definition spawnSucceeded (sp : Spawn) : bool := spawn_match sp && spawn_handled sp.

Lemma instantiateTemplate_closed t about input_frame simulated mi addrs handled w :
  let r := spawnOne (mgr w) t about input_frame simulated
                    (List.length (meters_ (mgr w))) addrs mi in
  instantiateTemplate t about input_frame simulated mi (addrs, handled) w
  = ((snd r, handled || spawnSucceeded (fst r)),
     mkWorld (set_meters (mgr w) (meters_ (mgr w) ++ [spawn_meter (fst r)]))
             (trace w ++ spawnEvents (mgr w) t (fst r))).
Proof.
  destruct w as [mg tr]. cbn [mgr trace].
  unfold instantiateTemplate, spawnOne, spawnEvents, spawnSucceeded, instantiatedMeterInfo.
  destruct (appendIdentity (identity_mode mi) (addresses t) (address_expressions mi))
    as [identity_expression es] eqn:Hid.
  unfold bind, get. cbn [mgr trace snd fst].
  set (mi1 := set_address_expressions mi es).
  change (driverName mi1) with (driverName mi).
  destruct (String.eqb (driverName mi) "auto") eqn:Hauto;
    destruct (String.eqb (pickMeterDriver t) "") eqn:Hpick;
    destruct (should_analyze_ mg) eqn:Han;
    destruct isVerboseEnabled;
    destruct (is_daemon_ mg) eqn:Hdm;
    unfold when, warnForUnknownDriver, addMeter, triggerMeterAdded, storeLastAdded,
      bind, get, put, emit, ret;
    cbn [negb andb mgr trace meters_ set_meters on_meter_added_ on_meter_updated_];
    destruct (on_meter_added_ mg) eqn:Hcb;
    cbn [negb andb mgr trace meters_ set_meters on_meter_added_ on_meter_updated_];
    rewrite length_app, Nat.add_1_r;
    match goal with
    | |- context [meter_handleTelegram ?m ?a ?f ?s ?ad ?b] =>
        destruct (meter_handleTelegram m a f s ad b) as [meter' [[h addrs'] match_]]
    end;
    destruct match_, h;
    cbn [negb andb orb mgr trace meters_ set_meters fst snd
         spawn_template spawn_added spawn_meter spawn_handled spawn_match app];
    rewrite removelast_last, ?orb_true_r, ?orb_false_r, ?Hauto, ?Hid;
    cbn [negb andb orb fst snd app];
    repeat rewrite <- app_assoc; reflexivity.
Qed.

Lemma spawns_set_meters mg ms t about input_frame simulated templates :
  forall n addrs,
    spawns (set_meters mg ms) t about input_frame simulated n addrs templates
    = spawns mg t about input_frame simulated n addrs templates.
Proof.
  induction templates as [|mi rest IH]; intros n addrs; cbn [spawns]; [reflexivity|].
  destruct (isTelegramForMeter t mi); [|apply IH].
  change (spawnOne (set_meters mg ms)) with (spawnOne mg).
  destruct (spawnOne mg t about input_frame simulated n addrs mi) as [sp addrs'].
  now rewrite IH.
Qed.

Lemma tryTemplates_closed templates t about input_frame simulated :
  forall addrs handled w,
    let r := spawns (mgr w) t about input_frame simulated
                    (List.length (meters_ (mgr w))) addrs templates in
    tryTemplates templates t about input_frame simulated (addrs, handled) w
    = ((snd r, handled || existsb spawnSucceeded (fst r)),
       mkWorld (set_meters (mgr w) (meters_ (mgr w) ++ map spawn_meter (fst r)))
               (trace w ++ flat_map (spawnEvents (mgr w) t) (fst r))).
Proof.
  induction templates as [|mi rest IH]; intros addrs handled w; cbn [tryTemplates spawns].
  - cbn. unfold ret. rewrite !app_nil_r, orb_false_r. now destruct w as [[] ?].
  - unfold bind. destruct (isTelegramForMeter t mi).
    + rewrite instantiateTemplate_closed. cbv zeta.
      destruct (spawnOne (mgr w) t about input_frame simulated
                         (List.length (meters_ (mgr w))) addrs mi) as [sp addrs'] eqn:Hone.
      cbn [fst snd]. rewrite IH. cbv zeta.
      cbn [mgr trace meters_ set_meters]. rewrite length_app, Nat.add_1_r.
      rewrite spawns_set_meters.
      destruct (spawns (mgr w) t about input_frame simulated
                       (S (List.length (meters_ (mgr w)))) addrs' rest) as [sps addrs''].
      cbn [fst snd existsb map flat_map]. rewrite <- !app_assoc, orb_assoc. reflexivity.
    + unfold ret. rewrite IH. reflexivity.
Qed.

(** The meters that one telegram spawns from the templates: none when an
    instantiated meter handled it, an exact id match was reported, or the
    header does not parse. *)
Definition telegramSpawns (about : AboutTelegram) (input_frame : Frame) (simulated : bool)
           (w : World) : list Spawn :=
  let '(ms, (addrs, exact_id_match, handled)) :=
    offerToMeters (meters_ (mgr w)) about input_frame simulated ([], false, false) in
  if templatesConsulted about input_frame handled exact_id_match
  then fst (spawns (mgr w) (headerOf about input_frame simulated) about input_frame simulated
                   (List.length (meters_ (mgr w))) addrs (meter_templates_ (mgr w)))
  else [].

(** What [handleTelegram] appends to the trace outside analysis mode. *)
Definition telegramEvents (about : AboutTelegram) (input_frame : Frame) (simulated : bool)
           (w : World) : list Event :=
  let '(ms, (addrs, exact_id_match, handled)) :=
    offerToMeters (meters_ (mgr w)) about input_frame simulated ([], false, false) in
  let sps := telegramSpawns about input_frame simulated w in
  (if negb handled && negb exact_id_match && isDebugEnabled
   then [EvDebug (NoMeterHandled addrs (List.length (meter_templates_ (mgr w))))]
   else []) ++
  flat_map (spawnEvents (mgr w) (headerOf about input_frame simulated)) sps ++
  listenerCalls about input_frame (telegram_listeners_ (mgr w)) ++
  (if isVerboseEnabled && negb (handled || existsb spawnSucceeded sps)
   then [EvVerbose IgnoredByAll]
   else []).

(** [handleTelegram] outside analysis mode, as one equation. *)
Lemma handleTelegram_closed about input_frame simulated w :
  should_analyze_ (mgr w) = false ->
  handleTelegram about input_frame simulated w
  = (snd (snd (offerToMeters (meters_ (mgr w)) about input_frame simulated ([], false, false)))
     || existsb spawnSucceeded (telegramSpawns about input_frame simulated w),
     mkWorld (set_meters (mgr w)
                (fst (offerToMeters (meters_ (mgr w)) about input_frame simulated
                                    ([], false, false))
                 ++ map spawn_meter (telegramSpawns about input_frame simulated w)))
             (trace w ++ telegramEvents about input_frame simulated w)).
Proof.
  intros Hna. unfold telegramEvents, telegramSpawns.
  pose proof (offerToMeters_length (meters_ (mgr w)) about input_frame simulated
                                   ([], false, false)) as Hlen.
  destruct (offerToMeters (meters_ (mgr w)) about input_frame simulated ([], false, false))
    as [ms [[addrs exact_id_match] handled0]] eqn:Hoffer.
  cbn [fst snd] in *.
  destruct w as [mg tr]. cbn [mgr trace] in *.
  unfold handleTelegram, bind, get. cbn [mgr trace]. rewrite Hna, Hoffer.
  unfold put at 1. cbn [mgr trace].
  unfold templatesConsulted, headerOf.
  destruct (parseHeader about input_frame) as [ok t0]. cbn [fst snd].
  set (t := if simulated then markAsSimulated t0 else t0).
  destruct (negb handled0 && negb exact_id_match) eqn:Hcons; cbn [andb].
  - destruct ok.
    + unfold when at 1.
      assert (Hdbg : (if isDebugEnabled
                      then emit (EvDebug (NoMeterHandled addrs (List.length (meter_templates_ mg))))
                      else ret tt) (mkWorld (set_meters mg ms) tr)
                     = (tt, mkWorld (set_meters mg ms)
                                    (tr ++ if isDebugEnabled
                                           then [EvDebug (NoMeterHandled addrs
                                                            (List.length (meter_templates_ mg)))]
                                           else []))).
      { destruct isDebugEnabled; [reflexivity|]. unfold ret. now rewrite app_nil_r. }
      rewrite Hdbg, tryTemplates_closed. cbv zeta.
      cbn [mgr trace meters_ set_meters]. rewrite spawns_set_meters, Hlen.
      destruct (spawns mg t about input_frame simulated (List.length (meters_ mg)) addrs
                       (meter_templates_ mg)) as [sps addrs'].
      cbn [fst snd]. unfold ret at 1. rewrite forEach_listeners.
      cbn [mgr trace telegram_listeners_ set_meters].
      unfold when. destruct (isVerboseEnabled && negb (handled0 || existsb spawnSucceeded sps));
        unfold emit, ret; cbn [mgr trace]; repeat rewrite <- app_assoc;
        rewrite ?app_nil_r; reflexivity.
    + unfold when at 1.
      assert (Hdbg : (if isDebugEnabled
                      then emit (EvDebug (NoMeterHandled addrs (List.length (meter_templates_ mg))))
                      else ret tt) (mkWorld (set_meters mg ms) tr)
                     = (tt, mkWorld (set_meters mg ms)
                                    (tr ++ if isDebugEnabled
                                           then [EvDebug (NoMeterHandled addrs
                                                            (List.length (meter_templates_ mg)))]
                                           else []))).
      { destruct isDebugEnabled; [reflexivity|]. unfold ret. now rewrite app_nil_r. }
      rewrite Hdbg. unfold ret at 1. rewrite forEach_listeners.
      cbn [mgr trace telegram_listeners_ set_meters existsb map flat_map app].
      rewrite orb_false_r, app_nil_r.
      unfold when. destruct (isVerboseEnabled && negb handled0);
        unfold emit, ret; cbn [mgr trace]; repeat rewrite <- app_assoc;
        rewrite ?app_nil_r; reflexivity.
  - unfold ret at 1. rewrite forEach_listeners.
    cbn [mgr trace telegram_listeners_ set_meters existsb map flat_map app].
    rewrite orb_false_r, app_nil_r.
    unfold when. destruct (isVerboseEnabled && negb handled0);
      unfold emit, ret; cbn [mgr trace]; repeat rewrite <- app_assoc;
      rewrite ?app_nil_r; reflexivity.
Qed.

(* ---------------- facts about the spawned meters ---------------- *)

Lemma spawns_templates mg t about input_frame simulated templates :
  forall n addrs,
    map spawn_template (fst (spawns mg t about input_frame simulated n addrs templates))
    = filter (isTelegramForMeter t) templates.
Proof.
  induction templates as [|mi rest IH]; intros n addrs; cbn [spawns filter]; [reflexivity|].
  destruct (isTelegramForMeter t mi); [|apply IH].
  unfold spawnOne.
  destruct (meter_handleTelegram _ about input_frame simulated addrs false)
    as [meter' [[h addrs'] match_]].
  specialize (IH (S n) addrs').
  destruct (spawns mg t about input_frame simulated (S n) addrs' rest) as [sps addrs''].
  cbn [fst map spawn_template] in *. now rewrite IH.
Qed.

(** The [k]-th spawned meter was created from its template's copy, given the
    index [n + k + 1], and offered the telegram once. *)
Lemma spawns_nth mg t about input_frame simulated templates :
  forall n addrs k sp,
    nth_error (fst (spawns mg t about input_frame simulated n addrs templates)) k = Some sp ->
    spawn_added sp
    = onUpdate (setIndex (createMeter (instantiatedMeterInfo t (spawn_template sp)))
                         (Z.of_nat (n + k + 1)))
               (on_meter_updated_ mg) /\
    exists addrs_k,
      let r := meter_handleTelegram (spawn_added sp) about input_frame simulated addrs_k false in
      spawn_meter sp = fst r /\
      spawn_handled sp = fst (fst (snd r)) /\
      spawn_match sp = snd (snd r).
Proof.
  induction templates as [|mi rest IH]; intros n addrs k sp; cbn [spawns].
  - destruct k; discriminate.
  - destruct (isTelegramForMeter t mi); [|apply IH].
    unfold spawnOne.
    destruct (meter_handleTelegram
                (onUpdate (setIndex (createMeter (instantiatedMeterInfo t mi)) (Z.of_nat (S n)))
                          (on_meter_updated_ mg))
                about input_frame simulated addrs false)
      as [meter' [[h addrs'] match_]] eqn:Hcall.
    specialize (IH (S n) addrs').
    destruct (spawns mg t about input_frame simulated (S n) addrs' rest) as [sps addrs''].
    cbn [fst] in *. destruct k as [|k]; cbn [nth_error].
    + intros Hsp. injection Hsp as <-.
      cbn [spawn_template spawn_added spawn_meter spawn_handled spawn_match].
      replace (Z.of_nat (n + 0 + 1)) with (Z.of_nat (S n)) by (f_equal; lia).
      split; [reflexivity|].
      exists addrs. cbv zeta.
      change (Z.pos (Pos.of_succ_nat n)) with (Z.of_nat (S n)).
      rewrite Hcall. repeat split.
    + intros Hsp. destruct (IH k sp Hsp) as [Hadded Hcalls]. split; [|exact Hcalls].
      rewrite Hadded. do 3 f_equal. lia.
Qed.

Definition isMeterAddedCall (e : Event) : bool :=
  match e with
  | EvMeterAdded _ _ => true
  | _ => false
  end.

Lemma filter_listenerCalls_self about input_frame fs :
  filter isListenerCall (listenerCalls about input_frame fs) = listenerCalls about input_frame fs.
Proof.
  unfold listenerCalls. induction fs as [|g fs IH]; cbn; [reflexivity|now f_equal].
Qed.

Lemma filter_spawnEvents_listener mg t sps :
  filter isListenerCall (flat_map (spawnEvents mg t) sps) = [].
Proof.
  induction sps as [|sp sps IH]; cbn [flat_map]; [reflexivity|].
  rewrite filter_app, IH, app_nil_r. unfold spawnEvents.
  rewrite !filter_app.
  destruct (_ && _ && _), (on_meter_added_ mg), isVerboseEnabled, (is_daemon_ mg),
           (negb (spawn_match sp)), (negb (spawn_handled sp)); reflexivity.
Qed.

Lemma filter_telegramEvents_listener about input_frame simulated w :
  filter isListenerCall (telegramEvents about input_frame simulated w)
  = listenerCalls about input_frame (telegram_listeners_ (mgr w)).
Proof.
  unfold telegramEvents.
  destruct (offerToMeters (meters_ (mgr w)) about input_frame simulated ([], false, false))
    as [ms [[addrs exact_id_match] handled0]].
  rewrite !filter_app, filter_spawnEvents_listener, filter_listenerCalls_self.
  destruct (negb handled0 && negb exact_id_match && isDebugEnabled);
    destruct (isVerboseEnabled && _); cbn; now rewrite ?app_nil_r.
Qed.

Lemma filter_listenerCalls_added about input_frame fs :
  filter isMeterAddedCall (listenerCalls about input_frame fs) = [].
Proof. unfold listenerCalls. induction fs as [|g fs IH]; cbn; [reflexivity|exact IH]. Qed.

Lemma filter_spawnEvents_added mg t sps :
  filter isMeterAddedCall (flat_map (spawnEvents mg t) sps)
  = match on_meter_added_ mg with
    | Some cb => map (fun sp => EvMeterAdded cb (spawn_added sp)) sps
    | None => []
    end.
Proof.
  induction sps as [|sp sps IH]; cbn [flat_map map].
  - now destruct (on_meter_added_ mg).
  - rewrite filter_app, IH. unfold spawnEvents. rewrite !filter_app.
    destruct (_ && _ && _), (on_meter_added_ mg), isVerboseEnabled, (is_daemon_ mg),
             (negb (spawn_match sp)), (negb (spawn_handled sp)); reflexivity.
Qed.

Lemma spawns_In mg t about input_frame simulated templates n addrs sp :
  In sp (fst (spawns mg t about input_frame simulated n addrs templates)) ->
  exists addrs_k,
    spawn_meter sp
    = fst (meter_handleTelegram (spawn_added sp) about input_frame simulated addrs_k false) /\
    spawn_handled sp
    = fst (fst (snd (meter_handleTelegram (spawn_added sp) about input_frame simulated
                                          addrs_k false))) /\
    spawn_match sp
    = snd (snd (meter_handleTelegram (spawn_added sp) about input_frame simulated
                                     addrs_k false)).
Proof.
  intros Hin. apply In_nth_error in Hin. destruct Hin as [k Hk].
  destruct (spawns_nth _ _ _ _ _ _ _ _ _ _ Hk) as [_ Hcall]. exact Hcall.
Qed.

(** Every registered meter is offered the telegram once, in place. *)
Lemma offerToMeters_pointwise ms about input_frame simulated :
  forall acc,
    Forall2 (fun m m' => exists addrs id_match,
                 m' = fst (meter_handleTelegram m about input_frame simulated addrs id_match))
            ms (fst (offerToMeters ms about input_frame simulated acc)).
Proof.
  induction ms as [|m rest IH]; intros acc; cbn [offerToMeters].
  - constructor.
  - destruct acc as [[addrs exact] handled].
    destruct (meter_handleTelegram m about input_frame simulated addrs exact)
      as [m' [[h addrs'] exact']] eqn:Hcall.
    specialize (IH (addrs', exact', if h then true else handled)).
    destruct (offerToMeters rest about input_frame simulated
                            (addrs', exact', if h then true else handled)) as [rest' acc'].
    cbn [fst] in *. constructor; [|exact IH].
    exists addrs, exact. now rewrite Hcall.
Qed.

Lemma telegramSpawns_templates about input_frame simulated w :
  map spawn_template (telegramSpawns about input_frame simulated w)
  = if templatesConsulted about input_frame
         (snd (snd (offerToMeters (meters_ (mgr w)) about input_frame simulated
                                  ([], false, false))))
         (snd (fst (snd (offerToMeters (meters_ (mgr w)) about input_frame simulated
                                       ([], false, false)))))
    then filter (isTelegramForMeter (headerOf about input_frame simulated))
                (meter_templates_ (mgr w))
    else [].
Proof.
  unfold telegramSpawns.
  destruct (offerToMeters (meters_ (mgr w)) about input_frame simulated ([], false, false))
    as [ms [[addrs exact_id_match] handled0]].
  cbn [fst snd]. destruct (templatesConsulted _ _ _ _); [apply spawns_templates|reflexivity].
Qed.

Lemma telegramSpawns_nth about input_frame simulated w k sp :
  nth_error (telegramSpawns about input_frame simulated w) k = Some sp ->
  spawn_added sp
  = onUpdate (setIndex (createMeter (instantiatedMeterInfo (headerOf about input_frame simulated)
                                                           (spawn_template sp)))
                       (Z.of_nat (List.length (meters_ (mgr w)) + k + 1)))
             (on_meter_updated_ (mgr w)) /\
  exists addrs_k,
    spawn_meter sp
    = fst (meter_handleTelegram (spawn_added sp) about input_frame simulated addrs_k false).
Proof.
  unfold telegramSpawns.
  destruct (offerToMeters (meters_ (mgr w)) about input_frame simulated ([], false, false))
    as [ms [[addrs exact_id_match] handled0]].
  destruct (templatesConsulted _ _ _ _).
  - intros Hk. destruct (spawns_nth _ _ _ _ _ _ _ _ _ _ Hk) as [Hadded [addrs_k [Hm _]]].
    split; [exact Hadded|]. exists addrs_k. exact Hm.
  - destruct k; discriminate.
Qed.

Lemma filter_nil_Forall {A} (p : A -> bool) xs :
  filter p xs = [] -> Forall (fun x => p x = false) xs.
Proof.
  induction xs as [|x xs IH]; cbn [filter]; intros H; [constructor|].
  destruct (p x) eqn:Hp; [discriminate H|]. constructor; [exact Hp|exact (IH H)].
Qed.

Lemma Forall2_map_same {A B D} (R : B -> D -> Prop) (f : A -> B) (g : A -> D) xs :
  (forall x, In x xs -> R (f x) (g x)) -> Forall2 R (map f xs) (map g xs).
Proof.
  induction xs as [|x xs IH]; intros H; cbn [map]; constructor.
  - apply H. left; reflexivity.
  - apply IH. intros y Hy. apply H. right; exact Hy.
Qed.

(* ---------------- the claim about the order of the work ---------------- *)

(** C3, as amended: outside analysis mode, [handleTelegram] first offers the
    telegram to every instantiated meter ([offerToMeters]).  It adds no meter
    when one of them handled the telegram or an exact id match was reported.
    When the templates are consulted (nothing handled, no exact match, header
    parsed) it appends one fresh meter per template accepted by
    [isTelegramForMeter], in template order, so several templates can each
    spawn a meter from the same telegram.  The listeners come afterwards:
    each registered listener is called once, in registration order, behind
    everything that the instantiation logs or calls back (for every matching
    template the line that its meter was started stands before the first
    listener call), and behind the listener calls there is nothing but, at
    most, the closing verbose line.  In analysis mode no listener is
    called. *)
Theorem handleTelegram_templates_then_listeners
        about input_frame simulated w ms addrs exact_id_match handled0 :
  should_analyze_ (mgr w) = false ->
  offerToMeters (meters_ (mgr w)) about input_frame simulated ([], false, false)
  = (ms, (addrs, exact_id_match, handled0)) ->
  let t := headerOf about input_frame simulated in
  let w' := snd (handleTelegram about input_frame simulated w) in
  let matching := filter (isTelegramForMeter t) (meter_templates_ (mgr w)) in
  (exists news pre post,
      meters_ (mgr w') = ms ++ news /\
      (handled0 = true \/ exact_id_match = true -> news = []) /\
      (templatesConsulted about input_frame handled0 exact_id_match = false -> news = []) /\
      (templatesConsulted about input_frame handled0 exact_id_match = true ->
       Forall2 (SpawnedFrom (on_meter_updated_ (mgr w)) t about input_frame simulated)
               matching news) /\
      trace w' = trace w ++ pre ++
                 listenerCalls about input_frame (telegram_listeners_ (mgr w)) ++ post /\
      Forall (fun e => isListenerCall e = false) pre /\
      Forall (fun e => isListenerCall e = false) post /\
      (templatesConsulted about input_frame handled0 exact_id_match = true ->
       forall mi, In mi matching ->
                  exists added identity_expression,
                    In (if is_daemon_ (mgr w)
                        then EvNotice (StartedMeter added mi identity_expression)
                        else EvVerbose (StartedMeter added mi identity_expression)) pre) /\
      (post = [] \/ post = [EvVerbose IgnoredByAll])) /\
  (forall w0,
      should_analyze_ (mgr w0) = true ->
      filter isListenerCall (trace (snd (handleTelegram about input_frame simulated w0)))
      = filter isListenerCall (trace w0)).
Proof.
  intros Hna Hoffer t w' matching. split.
  2:{ intros w0 Ha. rewrite handleTelegram_analysis by exact Ha.
      cbn [snd trace]. rewrite filter_app. cbn. now rewrite app_nil_r. }
  subst w'. rewrite handleTelegram_closed by exact Hna.
  cbn [snd mgr trace meters_ set_meters].
  pose proof (telegramSpawns_templates about input_frame simulated w) as Htpl.
  assert (Hnth : forall sp, In sp (telegramSpawns about input_frame simulated w) ->
                   SpawnedFrom (on_meter_updated_ (mgr w)) t about input_frame simulated
                               (spawn_template sp) (spawn_meter sp)).
  { intros sp Hin. apply In_nth_error in Hin. destruct Hin as [k Hk].
    destruct (telegramSpawns_nth _ _ _ _ _ _ Hk) as [Hadded [addrs_k Hcall]].
    unfold SpawnedFrom. eexists. exists addrs_k. rewrite Hcall, Hadded. reflexivity. }
  unfold telegramEvents. rewrite Hoffer in *. cbn [fst snd] in *.
  set (sps := telegramSpawns about input_frame simulated w) in *.
  fold t in Htpl. fold matching in Htpl.
  assert (Hnone : templatesConsulted about input_frame handled0 exact_id_match = false ->
                  map spawn_meter sps = []).
  { intros Hc. rewrite Hc in Htpl. apply map_eq_nil in Htpl. now rewrite Htpl. }
  exists (map spawn_meter sps),
         ((if negb handled0 && negb exact_id_match && isDebugEnabled
           then [EvDebug (NoMeterHandled addrs (List.length (meter_templates_ (mgr w))))]
           else []) ++ flat_map (spawnEvents (mgr w) t) sps),
         (if isVerboseEnabled && negb (handled0 || existsb spawnSucceeded sps)
          then [EvVerbose IgnoredByAll] else []).
  split; [reflexivity|]. split.
  { intros Hor. apply Hnone. unfold templatesConsulted.
    destruct Hor as [-> | ->]; [reflexivity|]. now rewrite andb_false_r. }
  split; [exact Hnone|]. split.
  { intros Hc. rewrite Hc in Htpl. rewrite <- Htpl. apply Forall2_map_same. exact Hnth. }
  split; [now rewrite <- !app_assoc|]. split.
  { apply Forall_app. split.
    - destruct (_ && _ && _); repeat constructor.
    - apply filter_nil_Forall. apply filter_spawnEvents_listener. }
  split; [destruct (_ && _); repeat constructor|]. split.
  { intros Hc mi Hin. rewrite Hc in Htpl. rewrite <- Htpl in Hin.
    apply in_map_iff in Hin. destruct Hin as (sp & <- & Hsp).
    exists (spawn_added sp),
           (fst (appendIdentity (identity_mode (spawn_template sp)) (addresses t)
                                (address_expressions (spawn_template sp)))).
    apply in_or_app. right. apply in_flat_map. exists sp. split; [exact Hsp|].
    unfold spawnEvents. do 3 (apply in_or_app; right). apply in_or_app. left.
    destruct (is_daemon_ (mgr w)); left; reflexivity. }
  destruct (_ && _); [right|left]; reflexivity.
Qed.

(* ---------------- further properties of [handleTelegram] ---------------- *)

(** X1: in either mode [handleTelegram] leaves the configuration of the
    manager alone: the daemon flag, the analysis switch, the templates, the
    listeners and both callbacks are what they were.  The trace is only
    extended, and the registered meters keep their number and places: the
    vector afterwards starts with as many meters as there were. *)
Theorem handleTelegram_keeps_configuration about input_frame simulated w :
  let w' := snd (handleTelegram about input_frame simulated w) in
  is_daemon_ (mgr w') = is_daemon_ (mgr w) /\
  should_analyze_ (mgr w') = should_analyze_ (mgr w) /\
  meter_templates_ (mgr w') = meter_templates_ (mgr w) /\
  telegram_listeners_ (mgr w') = telegram_listeners_ (mgr w) /\
  on_meter_added_ (mgr w') = on_meter_added_ (mgr w) /\
  on_meter_updated_ (mgr w') = on_meter_updated_ (mgr w) /\
  (exists evs, trace w' = trace w ++ evs) /\
  (exists olds news, meters_ (mgr w') = olds ++ news /\
                     List.length olds = List.length (meters_ (mgr w))).
Proof.
  cbv zeta. destruct (should_analyze_ (mgr w)) eqn:Ha.
  - rewrite handleTelegram_analysis by assumption. cbn [snd mgr trace].
    repeat (split; [first [reflexivity | exact Ha]|]). split.
    + eexists; reflexivity.
    + exists (meters_ (mgr w)), []. now rewrite app_nil_r.
  - rewrite handleTelegram_closed by assumption.
    cbn [snd mgr trace is_daemon_ should_analyze_ meter_templates_ telegram_listeners_
         on_meter_added_ on_meter_updated_ meters_ set_meters].
    repeat (split; [first [reflexivity | exact Ha]|]). split.
    + eexists; reflexivity.
    + eexists; eexists. split; [reflexivity|]. apply offerToMeters_length.
Qed.

(** X2: outside analysis mode [handleTelegram] returns true exactly when a
    registered meter handled the telegram, or one of the meters spawned for
    it both matched and handled it.  A spawned meter that handles without
    matching, or matches without handling, does not count. *)
Theorem handleTelegram_returns_true_iff about input_frame simulated w :
  should_analyze_ (mgr w) = false ->
  fst (handleTelegram about input_frame simulated w) = true <->
  snd (snd (offerToMeters (meters_ (mgr w)) about input_frame simulated ([], false, false)))
  = true \/
  exists sp, In sp (telegramSpawns about input_frame simulated w) /\
             spawn_match sp = true /\ spawn_handled sp = true.
Proof.
  intros Hna. rewrite handleTelegram_closed by assumption. cbn [fst].
  rewrite orb_true_iff, existsb_exists. unfold spawnSucceeded.
  split; (intros [Hh|(sp & Hin & Hs)]; [left; exact Hh|right; exists sp]).
  - apply andb_prop in Hs. tauto.
  - destruct Hs as [-> ->]. tauto.
Qed.

(** X3: outside analysis mode the verbose line telling that the telegram
    was ignored by all configured meters is logged exactly when verbose
    logging is on and [handleTelegram] returns false. *)
Theorem ignored_line_iff_unhandled about input_frame simulated w :
  should_analyze_ (mgr w) = false ->
  exists evs,
    trace (snd (handleTelegram about input_frame simulated w)) = trace w ++ evs /\
    (In (EvVerbose IgnoredByAll) evs <->
     isVerboseEnabled = true /\ fst (handleTelegram about input_frame simulated w) = false).
Proof.
  intros Hna. rewrite handleTelegram_closed by assumption. cbn [fst snd trace].
  exists (telegramEvents about input_frame simulated w). split; [reflexivity|].
  unfold telegramEvents.
  destruct (offerToMeters (meters_ (mgr w)) about input_frame simulated ([], false, false))
    as [ms [[addrs exact_id_match] handled0]].
  cbn [fst snd].
  set (sps := telegramSpawns about input_frame simulated w).
  assert (Hsp : ~ In (EvVerbose IgnoredByAll)
                     (flat_map (spawnEvents (mgr w) (headerOf about input_frame simulated)) sps)).
  { rewrite in_flat_map. intros (sp & _ & Hin). unfold spawnEvents in Hin.
    repeat (apply in_app_or in Hin; destruct Hin as [Hin|Hin]);
      repeat match type of Hin with
             | In _ (if ?c then _ else _) => destruct c
             | In _ (match ?c with Some _ => _ | None => _ end) => destruct c
             | In _ (_ :: _) => destruct Hin as [Hin|Hin]
             | In _ [] => destruct Hin
             | (if ?c then _ else _) = _ => destruct c
             | _ = _ => discriminate Hin
             end. }
  assert (Hls : ~ In (EvVerbose IgnoredByAll)
                     (listenerCalls about input_frame (telegram_listeners_ (mgr w)))).
  { unfold listenerCalls. rewrite in_map_iff. intros (f & Hf & _). discriminate Hf. }
  rewrite !in_app_iff. split.
  - intros [Hin|[Hin|[Hin|Hin]]]; try contradiction.
    + destruct (negb handled0 && negb exact_id_match && isDebugEnabled);
        [destruct Hin as [Hin|[]]; discriminate Hin | destruct Hin].
    + destruct isVerboseEnabled; [|destruct Hin]. cbn [andb] in Hin.
      destruct (handled0 || existsb spawnSucceeded sps); [destruct Hin|]. split; reflexivity.
  - intros [-> ->]. right; right; right. left; reflexivity.
Qed.

(** X4: outside analysis mode, the meter found [k] places behind the
    previously registered ones was made from the [k]-th matching template
    and was given the index [n + k + 1], where [n] meters were registered
    before: indexes count from one and continue the numbering of the
    vector. *)
Theorem spawned_meter_index about input_frame simulated w k meter :
  should_analyze_ (mgr w) = false ->
  nth_error (meters_ (mgr (snd (handleTelegram about input_frame simulated w))))
            (List.length (meters_ (mgr w)) + k) = Some meter ->
  exists mi addrs,
    nth_error (filter (isTelegramForMeter (headerOf about input_frame simulated))
                      (meter_templates_ (mgr w))) k = Some mi /\
    meter = fst (meter_handleTelegram
                   (onUpdate (setIndex (createMeter
                                          (instantiatedMeterInfo
                                             (headerOf about input_frame simulated) mi))
                                       (Z.of_nat (List.length (meters_ (mgr w)) + k + 1)))
                             (on_meter_updated_ (mgr w)))
                   about input_frame simulated addrs false).
Proof.
  intros Hna. rewrite handleTelegram_closed by assumption. cbn [snd mgr meters_ set_meters].
  rewrite nth_error_app2 by (rewrite offerToMeters_length; lia).
  rewrite offerToMeters_length.
  replace (List.length (meters_ (mgr w)) + k - List.length (meters_ (mgr w)))%nat with k by lia.
  rewrite nth_error_map.
  destruct (nth_error (telegramSpawns about input_frame simulated w) k) as [sp|] eqn:Hk;
    [|discriminate].
  cbn [option_map]. intros Hm. injection Hm as <-.
  destruct (telegramSpawns_nth _ _ _ _ _ _ Hk) as [Hadded [addrs_k Hcall]].
  exists (spawn_template sp), addrs_k. split.
  - pose proof (telegramSpawns_templates about input_frame simulated w) as Ht.
    apply (f_equal (fun l => nth_error l k)) in Ht.
    rewrite nth_error_map, Hk in Ht. cbn [option_map] in Ht.
    destruct (templatesConsulted _ _ _ _); [now symmetry|].
    destruct k; discriminate Ht.
  - rewrite Hcall, Hadded. reflexivity.
Qed.

(** X5: outside analysis mode the callback registered with
    [whenMeterAdded] is called exactly once for every meter that the
    telegram spawns, in the order of creation, and with the meter as it is
    before the telegram is offered to it; it is called for no other meter,
    and nothing is called when no callback is registered. *)
Theorem meter_added_called_once_per_spawn about input_frame simulated w :
  should_analyze_ (mgr w) = false ->
  exists added news evs,
    meters_ (mgr (snd (handleTelegram about input_frame simulated w)))
    = fst (offerToMeters (meters_ (mgr w)) about input_frame simulated ([], false, false))
      ++ news /\
    trace (snd (handleTelegram about input_frame simulated w)) = trace w ++ evs /\
    Forall2 (fun a m => exists addrs,
                 m = fst (meter_handleTelegram a about input_frame simulated addrs false))
            added news /\
    filter isMeterAddedCall evs
    = match on_meter_added_ (mgr w) with
      | Some cb => map (EvMeterAdded cb) added
      | None => []
      end.
Proof.
  intros Hna. rewrite handleTelegram_closed by assumption. cbn [snd mgr trace meters_ set_meters].
  exists (map spawn_added (telegramSpawns about input_frame simulated w)),
         (map spawn_meter (telegramSpawns about input_frame simulated w)),
         (telegramEvents about input_frame simulated w).
  split; [reflexivity|]. split; [reflexivity|]. split.
  - assert (Hall : forall sp, In sp (telegramSpawns about input_frame simulated w) ->
                     exists addrs, spawn_meter sp
                                   = fst (meter_handleTelegram (spawn_added sp) about input_frame
                                                               simulated addrs false)).
    { intros sp Hin. apply In_nth_error in Hin. destruct Hin as [k Hk].
      exact (proj2 (telegramSpawns_nth _ _ _ _ _ _ Hk)). }
    induction (telegramSpawns about input_frame simulated w) as [|sp sps IH]; cbn [map].
    + constructor.
    + constructor; [apply Hall; left; reflexivity|].
      apply IH. intros sp' Hin. apply Hall. right. exact Hin.
  - unfold telegramEvents.
    destruct (offerToMeters (meters_ (mgr w)) about input_frame simulated ([], false, false))
      as [ms [[addrs exact_id_match] handled0]].
    rewrite !filter_app, filter_spawnEvents_added, filter_listenerCalls_added.
    destruct (negb handled0 && negb exact_id_match && isDebugEnabled);
      destruct (isVerboseEnabled && _); destruct (on_meter_added_ (mgr w));
      cbn [filter isMeterAddedCall app]; now rewrite ?map_map, ?app_nil_r.
Qed.

Lemma In_spawnEvents_warning mg t sp nm t' :
  In (EvWarning (CouldNotFindDriver nm t')) (spawnEvents mg t sp) <->
  String.eqb (driverName (spawn_template sp)) "auto" && String.eqb (pickMeterDriver t) ""
  && negb (should_analyze_ mg) = true /\
  name (spawn_template sp) = nm /\ t = t'.
Proof.
  unfold spawnEvents. split.
  - intros Hin.
    apply in_app_or in Hin. destruct Hin as [Hin|Hin].
    + destruct (_ && _ && _); [|destruct Hin].
      destruct Hin as [Hin|[Hin|[Hin|[]]]]; try discriminate Hin.
      injection Hin as <- <-. repeat split.
    + exfalso.
      repeat (apply in_app_or in Hin; destruct Hin as [Hin|Hin]);
        repeat match type of Hin with
               | In _ (if ?c then _ else _) => destruct c
               | In _ (match ?c with Some _ => _ | None => _ end) => destruct c
               | In _ (_ :: _) => destruct Hin as [Hin|Hin]
               | In _ [] => destruct Hin
               | (if ?c then _ else _) = _ => destruct c
               | _ = _ => discriminate Hin
               end.
  - intros (Hc & <- & <-). rewrite Hc. apply in_or_app. left. left. reflexivity.
Qed.

(** X6: outside analysis mode the warning of [warnForUnknownDriver] is
    logged for a name and a telegram only when it is due: the telegram is
    the one just received, the templates were consulted for it, the
    registry has no driver for it, and a template of that name with driver
    [auto] matches it; and in that case it is logged. *)
Theorem unknown_driver_warning_iff about input_frame simulated w :
  should_analyze_ (mgr w) = false ->
  exists evs,
    trace (snd (handleTelegram about input_frame simulated w)) = trace w ++ evs /\
    forall nm t',
      In (EvWarning (CouldNotFindDriver nm t')) evs <->
      t' = headerOf about input_frame simulated /\
      templatesConsulted about input_frame
        (snd (snd (offerToMeters (meters_ (mgr w)) about input_frame simulated
                                 ([], false, false))))
        (snd (fst (snd (offerToMeters (meters_ (mgr w)) about input_frame simulated
                                      ([], false, false))))) = true /\
      pickMeterDriver t' = ""%string /\
      exists mi, In mi (meter_templates_ (mgr w)) /\ isTelegramForMeter t' mi = true /\
                 driverName mi = "auto"%string /\ name mi = nm.
Proof.
  intros Hna. rewrite handleTelegram_closed by assumption. cbn [fst snd trace].
  exists (telegramEvents about input_frame simulated w). split; [reflexivity|].
  intros nm t'.
  pose proof (telegramSpawns_templates about input_frame simulated w) as Htpl.
  unfold telegramEvents.
  destruct (offerToMeters (meters_ (mgr w)) about input_frame simulated ([], false, false))
    as [ms [[addrs exact_id_match] handled0]].
  cbn [fst snd] in *.
  set (sps := telegramSpawns about input_frame simulated w) in *.
  set (t := headerOf about input_frame simulated) in *.
  assert (Hmid : In (EvWarning (CouldNotFindDriver nm t'))
                    ((if negb handled0 && negb exact_id_match && isDebugEnabled
                      then [EvDebug (NoMeterHandled addrs (List.length (meter_templates_ (mgr w))))]
                      else []) ++
                     flat_map (spawnEvents (mgr w) t) sps ++
                     listenerCalls about input_frame (telegram_listeners_ (mgr w)) ++
                     (if isVerboseEnabled && negb (handled0 || existsb spawnSucceeded sps)
                      then [EvVerbose IgnoredByAll] else []))
                 <-> In (EvWarning (CouldNotFindDriver nm t')) (flat_map (spawnEvents (mgr w) t) sps)).
  { rewrite !in_app_iff. split; [|tauto].
    intros [Hin|[Hin|[Hin|Hin]]]; [|exact Hin| |].
    - destruct (_ && _ && _); [destruct Hin as [Hin|[]]; discriminate Hin|destruct Hin].
    - unfold listenerCalls in Hin. apply in_map_iff in Hin.
      destruct Hin as (f & Hf & _). discriminate Hf.
    - destruct (_ && _); [destruct Hin as [Hin|[]]; discriminate Hin|destruct Hin]. }
  rewrite Hmid, in_flat_map. clear Hmid. split.
  - intros (sp & Hsp & Hin). apply In_spawnEvents_warning in Hin.
    destruct Hin as (Hc & Hname & Ht). subst t'. rewrite Hna in Hc. cbn [negb] in Hc.
    rewrite andb_true_r in Hc. apply andb_prop in Hc. destruct Hc as [Hauto Hpick].
    apply String.eqb_eq in Hauto. apply String.eqb_eq in Hpick.
    assert (Hmi : In (spawn_template sp) (map spawn_template sps)) by (apply in_map; exact Hsp).
    rewrite Htpl in Hmi.
    destruct (templatesConsulted about input_frame handled0 exact_id_match); [|destruct Hmi].
    apply filter_In in Hmi. destruct Hmi as [Hin Hmatch].
    split; [reflexivity|]. split; [reflexivity|]. split; [exact Hpick|].
    exists (spawn_template sp). repeat split; assumption.
  - intros (-> & Hcons & Hpick & mi & Hin & Hmatch & Hauto & Hname).
    rewrite Hcons in Htpl.
    assert (Hmi : In mi (map spawn_template sps)).
    { rewrite Htpl. apply filter_In. split; assumption. }
    apply in_map_iff in Hmi. destruct Hmi as (sp & Hsp & Hin').
    exists sp. split; [exact Hin'|]. apply In_spawnEvents_warning.
    rewrite Hsp, Hauto, Hpick, Hna. repeat split. exact Hname.
Qed.

(** X7: with no meter and no template ([hasMeters] is false) and outside
    analysis mode, every telegram is ignored: [handleTelegram] returns
    false and creates nothing, whatever the frame; the listeners are called
    all the same, between the optional debug line and the optional verbose
    line. *)
Theorem handleTelegram_without_meters about input_frame simulated w :
  should_analyze_ (mgr w) = false ->
  hasMeters (mgr w) = false ->
  handleTelegram about input_frame simulated w
  = (false,
     mkWorld (mgr w)
             (trace w
              ++ (if isDebugEnabled then [EvDebug (NoMeterHandled [] 0)] else [])
              ++ listenerCalls about input_frame (telegram_listeners_ (mgr w))
              ++ (if isVerboseEnabled then [EvVerbose IgnoredByAll] else []))).
Proof.
  intros Hna Hnone. rewrite handleTelegram_closed by assumption.
  unfold hasMeters in Hnone. apply orb_false_elim in Hnone. destruct Hnone as [Hm Ht].
  apply negb_false_iff in Hm. apply negb_false_iff in Ht.
  apply Nat.eqb_eq in Hm. apply Nat.eqb_eq in Ht.
  apply length_zero_iff_nil in Hm. apply length_zero_iff_nil in Ht.
  unfold telegramEvents, telegramSpawns. rewrite Hm, Ht. cbn [offerToMeters fst snd spawns].
  destruct (templatesConsulted about input_frame false false);
    cbn [existsb map flat_map app fst snd negb andb orb List.length];
    rewrite ?andb_true_r; (f_equal; destruct w as [[] tr]; cbn in *; subst; reflexivity).
Qed.

(* ---------------- telegram after telegram ---------------- *)

(** The calls that a bus makes on the manager, one telegram after the
    other; the results of [handleTelegram] are collected. *)
Fixpoint handleTelegrams (ts : list (AboutTelegram * Frame * bool)) : M (list bool) :=
  match ts with
  | [] => ret []
  | (about, input_frame, simulated) :: rest =>
      bind (handleTelegram about input_frame simulated) (fun h =>
      bind (handleTelegrams rest) (fun hs => ret (h :: hs)))
  end.

(** X8: over any run of telegrams, every registered listener is called
    exactly once per telegram, in the order of arrival and, within a
    telegram, in the order of registration, with the frame as it arrived;
    unless the manager is in analysis mode, where no listener is ever
    called. *)
Theorem listeners_see_every_telegram ts :
  forall w,
    filter isListenerCall (trace (snd (handleTelegrams ts w)))
    = filter isListenerCall (trace w)
      ++ (if should_analyze_ (mgr w) then []
          else flat_map (fun '(about, input_frame, _) =>
                           listenerCalls about input_frame (telegram_listeners_ (mgr w)))
                        ts).
Proof.
  induction ts as [|[[about input_frame] simulated] rest IH]; intros w; cbn [handleTelegrams].
  - unfold ret. cbn [snd flat_map]. destruct (should_analyze_ (mgr w)); now rewrite app_nil_r.
  - unfold bind at 1.
    destruct (handleTelegram about input_frame simulated w) as [h w1] eqn:Hrun.
    unfold bind. specialize (IH w1).
    destruct (handleTelegrams rest w1) as [hs w2]. unfold ret. cbn [snd] in *.
    rewrite IH. clear IH.
    destruct (should_analyze_ (mgr w)) eqn:Ha.
    + rewrite handleTelegram_analysis in Hrun by assumption.
      injection Hrun as _ <-. cbn [mgr trace]. rewrite Ha, filter_app. cbn.
      now rewrite !app_nil_r.
    + rewrite handleTelegram_closed in Hrun by assumption.
      injection Hrun as _ <-.
      cbn [mgr trace should_analyze_ telegram_listeners_ set_meters flat_map].
      rewrite Ha, filter_app, filter_telegramEvents_listener, app_assoc. reflexivity.
Qed.

(** X9: a listener registered with [onTelegram] is added behind the
    listeners already there: at the next telegram (outside analysis mode)
    the older listeners are called first, in their order, then the new
    one; nothing is logged or called by the registration itself. *)
Theorem onTelegram_registers_last f about input_frame simulated w :
  should_analyze_ (mgr w) = false ->
  trace (snd (onTelegram f w)) = trace w /\
  filter isListenerCall
         (trace (snd (handleTelegram about input_frame simulated (snd (onTelegram f w)))))
  = filter isListenerCall (trace w)
    ++ listenerCalls about input_frame (telegram_listeners_ (mgr w))
    ++ [EvListener f about input_frame].
Proof.
  intros Hna. split; [reflexivity|].
  rewrite handleTelegram_closed by exact Hna.
  cbn [snd trace]. rewrite filter_app, filter_telegramEvents_listener.
  unfold onTelegram, bind, get, put. cbn [snd mgr trace telegram_listeners_].
  unfold listenerCalls. now rewrite map_app.
Qed.

Lemma Forall2_nth_error_right {A B} (R : A -> B -> Prop) xs ys :
  Forall2 R xs ys ->
  forall i y, nth_error ys i = Some y -> exists x, nth_error xs i = Some x /\ R x y.
Proof.
  induction 1 as [|a b xs' ys' Hab _ IH]; intros i y Hi.
  - destruct i; discriminate.
  - destruct i as [|i]; cbn [nth_error] in *.
    + injection Hi as <-. exists a. split; [reflexivity|assumption].
    + exact (IH i y Hi).
Qed.

(* ---------------- the indexes of the meters ---------------- *)

Section Indexes.

(** [Meter::index()], with what the manager relies on: [setIndex] sets
    it, and neither [onUpdate] nor [handleTelegram] changes it. *)
Variable index : Meter -> Z.

Hypothesis index_setIndex : forall m i, index (setIndex m i) = i.
Hypothesis index_onUpdate : forall m cb, index (onUpdate m cb) = index m.
Hypothesis index_handleTelegram :
  forall m about input_frame simulated addrs id_match,
    index (fst (meter_handleTelegram m about input_frame simulated addrs id_match)) = index m.

(** Every meter carries its place in [meters_], counted from one. *)
Definition indexedFromOne (ms : list Meter) : Prop :=
  forall i m, nth_error ms i = Some m -> index m = Z.of_nat (i + 1).

(** X10: for a meter class whose index is set by [setIndex] and left
    alone by [onUpdate] and [handleTelegram], the manager keeps every
    meter's index equal to its place in [meters_], counted from one:
    [removeAllMeters] and [handleTelegram], which adds the meters that
    [createMeter] just made, preserve it, so the meter numbers in the log
    are 1, 2, 3 and so on in the order of creation. *)
Theorem meters_indexed_from_one w :
  indexedFromOne (meters_ (mgr w)) ->
  indexedFromOne (meters_ (mgr (snd (removeAllMeters w)))) /\
  (forall about input_frame simulated,
      indexedFromOne (meters_ (mgr (snd (handleTelegram about input_frame simulated w))))).
Proof.
  intros Hinv. split.
  - intros i m. unfold removeAllMeters, bind, get, put. cbn [snd mgr meters_ set_meters].
    destruct i; discriminate.
  - intros about input_frame simulated i m.
    destruct (should_analyze_ (mgr w)) eqn:Ha.
    + rewrite handleTelegram_analysis by assumption. cbn [snd mgr]. apply Hinv.
    + rewrite handleTelegram_closed by assumption. cbn [snd mgr meters_ set_meters].
      pose proof (offerToMeters_length (meters_ (mgr w)) about input_frame simulated
                                       ([], false, false)) as Hlen.
      destruct (Nat.lt_ge_cases i (List.length (meters_ (mgr w)))) as [Hlt|Hge].
      * rewrite nth_error_app1 by (rewrite Hlen; exact Hlt). intros Hm.
        destruct (Forall2_nth_error_right _ _ _
                    (offerToMeters_pointwise (meters_ (mgr w)) about input_frame simulated
                                             ([], false, false)) i m Hm)
          as (m0 & Hm0 & addrs & id_match & ->).
        rewrite index_handleTelegram. exact (Hinv i m0 Hm0).
      * rewrite nth_error_app2 by (rewrite Hlen; exact Hge). rewrite Hlen, nth_error_map.
        destruct (nth_error (telegramSpawns about input_frame simulated w)
                            (i - List.length (meters_ (mgr w)))) as [sp|] eqn:Hk;
          [|discriminate].
        cbn [option_map]. intros Hm. injection Hm as <-.
        destruct (telegramSpawns_nth _ _ _ _ _ _ Hk) as [Hadded [addrs_k Hcall]].
        rewrite Hcall, index_handleTelegram, Hadded, index_onUpdate, index_setIndex.
        f_equal. lia.
Qed.

End Indexes.

End TemplateLoop.

(* ---------------- the properties at the concrete installation ---------------- *)

(** C3 at [freshWorld]: both templates spawn a meter, then the listener
    runs, and nothing follows it. *)
Lemma handleTelegram_templates_then_listeners_witness :
  @should_analyze_ simple (mgr freshWorld) = false /\
  @offerToMeters simple (@meters_ simple (mgr freshWorld)) tt someFrame false ([], false, false)
  = ([], ([], false, false)) /\
  List.length (@meters_ simple (mgr (snd (@handleTelegram simple tt someFrame false freshWorld))))
  = 2%nat /\
  exists news pre post,
    @meters_ simple (mgr (snd (@handleTelegram simple tt someFrame false freshWorld)))
    = [] ++ news /\
    Forall2 (@SpawnedFrom simple None (@headerOf simple tt someFrame false) tt someFrame false)
            [waterTemplate; heatTemplate] news /\
    trace (snd (@handleTelegram simple tt someFrame false freshWorld))
    = [] ++ pre ++ @listenerCalls simple tt someFrame [7%nat] ++ post /\
    Forall (fun e => @isListenerCall simple e = false) pre /\
    (post = [] \/ post = [@EvVerbose simple (@IgnoredByAll simple)]).
Proof.
  split; [reflexivity|]. split; [reflexivity|]. split; [reflexivity|].
  destruct (proj1 (@handleTelegram_templates_then_listeners simple tt someFrame false freshWorld
                     [] [] false false eq_refl eq_refl))
    as (news & pre & post & Hm & _ & _ & Hsp & Htr & Hpre & _ & _ & Hpost).
  exists news, pre, post.
  split; [exact Hm|]. split; [exact (Hsp eq_refl)|]. split; [exact Htr|].
  split; [exact Hpre|exact Hpost].
Defined.

(** C3 as stated fails in analysis mode: the telegram is reported, the call
    returns true, and the registered listener is never called. *)
Lemma listeners_skipped_in_analysis_mode :
  @telegram_listeners_ simple (mgr analysingWorld) = [7%nat] /\
  @handleTelegram simple tt someFrame false analysingWorld
  = (true, @mkWorld simple (mgr analysingWorld) [@EvAnalyzeTelegram simple tt someFrame false]) /\
  ~ In (@EvListener simple 7%nat tt someFrame)
       (trace (snd (@handleTelegram simple tt someFrame false analysingWorld))).
Proof.
  split; [reflexivity|]. split; [reflexivity|].
  simpl. intros [H|[]]. discriminate H.
Qed.


(** [freshWorld] with a callback registered by [whenMeterAdded]. *)
Definition notifyingWorld : @World simple :=
  @mkWorld simple
           (@mkManager simple false false [waterTemplate; heatTemplate] [] [7%nat] (Some tt) None)
           [].

(** Nothing configured: no template, no meter, one listener. *)
Definition idleWorld : @World simple :=
  @mkWorld simple (@mkManager simple false false [] [] [7%nat] None None) [].

(** The meter that [heatTemplate] spawns at [freshWorld]. *)
Definition heatMeter : SimpleMeter :=
  mkSimpleMeter (@instantiatedMeterInfo simple (@headerOf simple tt someFrame false) heatTemplate)
                2 1.

(** X2 at [freshWorld]: both spawned meters match and handle. *)
Lemma handleTelegram_returns_true_iff_witness :
  @should_analyze_ simple (mgr freshWorld) = false /\
  fst (@handleTelegram simple tt someFrame false freshWorld) = true /\
  (fst (@handleTelegram simple tt someFrame false freshWorld) = true <->
   snd (snd (@offerToMeters simple (@meters_ simple (mgr freshWorld)) tt someFrame false
                            ([], false, false))) = true \/
   exists sp, In sp (@telegramSpawns simple tt someFrame false freshWorld) /\
              @spawn_match simple sp = true /\ @spawn_handled simple sp = true).
Proof.
  split; [reflexivity|]. split; [reflexivity|].
  exact (@handleTelegram_returns_true_iff simple tt someFrame false freshWorld eq_refl).
Defined.

(** X3 at [freshWorld]. *)
Lemma ignored_line_iff_unhandled_witness :
  @should_analyze_ simple (mgr freshWorld) = false /\
  exists evs,
    trace (snd (@handleTelegram simple tt someFrame false freshWorld))
    = trace freshWorld ++ evs /\
    (In (@EvVerbose simple (@IgnoredByAll simple)) evs <->
     @isVerboseEnabled simple = true /\
     fst (@handleTelegram simple tt someFrame false freshWorld) = false).
Proof.
  split; [reflexivity|].
  exact (@ignored_line_iff_unhandled simple tt someFrame false freshWorld eq_refl).
Defined.

(** X4 at [freshWorld]: the heat template is the second to match, its
    meter gets index 2. *)
Lemma spawned_meter_index_witness :
  @should_analyze_ simple (mgr freshWorld) = false /\
  nth_error (@meters_ simple (mgr (snd (@handleTelegram simple tt someFrame false freshWorld))))
            (List.length (@meters_ simple (mgr freshWorld)) + 1) = Some heatMeter /\
  exists mi addrs,
    nth_error (filter (@isTelegramForMeter simple (@headerOf simple tt someFrame false))
                      (@meter_templates_ simple (mgr freshWorld))) 1 = Some mi /\
    heatMeter
    = fst (@meter_handleTelegram simple
             (@onUpdate simple
                (@setIndex simple
                   (@createMeter simple
                      (@instantiatedMeterInfo simple (@headerOf simple tt someFrame false) mi))
                   (Z.of_nat (List.length (@meters_ simple (mgr freshWorld)) + 1 + 1)))
                (@on_meter_updated_ simple (mgr freshWorld)))
             tt someFrame false addrs false).
Proof.
  split; [reflexivity|]. split; [reflexivity|].
  exact (@spawned_meter_index simple tt someFrame false freshWorld 1%nat heatMeter
           eq_refl eq_refl).
Defined.

(** X5 at [notifyingWorld]: the callback runs for both spawned meters. *)
Lemma meter_added_called_once_per_spawn_witness :
  @should_analyze_ simple (mgr notifyingWorld) = false /\
  exists added news evs,
    @meters_ simple (mgr (snd (@handleTelegram simple tt someFrame false notifyingWorld)))
    = fst (@offerToMeters simple (@meters_ simple (mgr notifyingWorld)) tt someFrame false
                          ([], false, false)) ++ news /\
    trace (snd (@handleTelegram simple tt someFrame false notifyingWorld))
    = trace notifyingWorld ++ evs /\
    Forall2 (fun a m => exists addrs,
                 m = fst (@meter_handleTelegram simple a tt someFrame false addrs false))
            added news /\
    filter (@isMeterAddedCall simple) evs
    = match @on_meter_added_ simple (mgr notifyingWorld) with
      | Some cb => map (@EvMeterAdded simple cb) added
      | None => []
      end.
Proof.
  split; [reflexivity|].
  exact (@meter_added_called_once_per_spawn simple tt someFrame false notifyingWorld eq_refl).
Defined.

(** X6 at [freshWorld]. *)
Lemma unknown_driver_warning_iff_witness :
  @should_analyze_ simple (mgr freshWorld) = false /\
  exists evs,
    trace (snd (@handleTelegram simple tt someFrame false freshWorld))
    = trace freshWorld ++ evs /\
    forall nm t',
      In (@EvWarning simple (@CouldNotFindDriver simple nm t')) evs <->
      t' = @headerOf simple tt someFrame false /\
      @templatesConsulted simple tt someFrame
        (snd (snd (@offerToMeters simple (@meters_ simple (mgr freshWorld)) tt someFrame false
                                  ([], false, false))))
        (snd (fst (snd (@offerToMeters simple (@meters_ simple (mgr freshWorld)) tt someFrame
                                       false ([], false, false))))) = true /\
      @pickMeterDriver simple t' = ""%string /\
      exists mi, In mi (@meter_templates_ simple (mgr freshWorld)) /\
                 @isTelegramForMeter simple t' mi = true /\
                 driverName mi = "auto"%string /\ name mi = nm.
Proof.
  split; [reflexivity|].
  exact (@unknown_driver_warning_iff simple tt someFrame false freshWorld eq_refl).
Defined.

(** X7 at [idleWorld]. *)
Lemma handleTelegram_without_meters_witness :
  @should_analyze_ simple (mgr idleWorld) = false /\
  @hasMeters simple (mgr idleWorld) = false /\
  @handleTelegram simple tt someFrame false idleWorld
  = (false,
     @mkWorld simple (mgr idleWorld)
              (trace idleWorld
               ++ (if @isDebugEnabled simple
                   then [@EvDebug simple (@NoMeterHandled simple [] 0)] else [])
               ++ @listenerCalls simple tt someFrame (@telegram_listeners_ simple (mgr idleWorld))
               ++ (if @isVerboseEnabled simple
                   then [@EvVerbose simple (@IgnoredByAll simple)] else []))).
Proof.
  split; [reflexivity|]. split; [reflexivity|].
  exact (@handleTelegram_without_meters simple tt someFrame false idleWorld eq_refl eq_refl).
Defined.

(** X9 at [freshWorld]: listener 9 is called behind listener 7. *)
Lemma onTelegram_registers_last_witness :
  @should_analyze_ simple (mgr freshWorld) = false /\
  trace (snd (@onTelegram simple 9%nat freshWorld)) = trace freshWorld /\
  filter (@isListenerCall simple)
         (trace (snd (@handleTelegram simple tt someFrame false
                        (snd (@onTelegram simple 9%nat freshWorld)))))
  = filter (@isListenerCall simple) (trace freshWorld)
    ++ @listenerCalls simple tt someFrame (@telegram_listeners_ simple (mgr freshWorld))
    ++ [@EvListener simple 9%nat tt someFrame].
Proof.
  split; [reflexivity|].
  exact (@onTelegram_registers_last simple 9%nat tt someFrame false freshWorld eq_refl).
Defined.

Lemma simple_index_handleTelegram
      (m : SimpleMeter) (about : unit) (input_frame : Frame) (simulated : bool)
      (addrs : list Address.t) (id_match : bool) :
  sm_index (fst (@meter_handleTelegram simple m about input_frame simulated addrs id_match))
  = sm_index m.
Proof.
  unfold meter_handleTelegram, simple.
  destruct (simpleMatch (address_expressions (sm_info m)) (simpleAddresses input_frame));
    reflexivity.
Defined.

Lemma simple_indexed_nil : @indexedFromOne simple sm_index [].
Proof. intros i m Hi. destruct i; discriminate Hi. Defined.

(** X10 at [freshWorld], for the index of [SimpleMeter]: the two meters
    spawned by a telegram are numbered 1 and 2. *)
Lemma meters_indexed_from_one_witness :
  @indexedFromOne simple sm_index (@meters_ simple (mgr freshWorld)) /\
  @indexedFromOne simple sm_index
    (@meters_ simple (mgr (snd (@handleTelegram simple tt someFrame false freshWorld)))).
Proof.
  split; [exact simple_indexed_nil|].
  exact (proj2 (@meters_indexed_from_one simple sm_index
                  (fun m i => eq_refl) (fun m cb => eq_refl)
                  simple_index_handleTelegram freshWorld simple_indexed_nil)
               tt someFrame false).
Defined.

End MeterManager.

(* ------------------------------------------------------------------ *)
(** ** Analysis of one telegram, [metermanager.cc] *)

Module Analysis.

Import MeterManager.

(** What the analysis calls besides [Collaborators]: the driver registry as
    it is after [loadAllBuiltinDrivers], the media test, the members of
    [Telegram] that are read, the [handleTelegram] overload that writes the
    analysed telegram through [out_analyzed], [Telegram::analyzeParse] with
    its two counters passed in and returned, and [Meter::printMeter], of
    which the json text is used.  [emptyMeterInfo] is a default-constructed
    [MeterInfo]. *)
Class Registry (C : Collaborators) := {
  DriverInfo : Type;
  OutputFormat : Type;
  OutputFormat_NONE : OutputFormat;
  allDrivers : list DriverInfo;
  toString : DriverInfo -> string;          (* toString(DriverInfo&) *)
  driverInfoName : DriverInfo -> string;    (* di.name().str() *)
  lookupDriverInfo : string -> option DriverInfo;
  isMeterDriverReasonableForMedia : string -> Z -> bool;
  dll_type : Telegram -> Z;
  tpl_type : Telegram -> Z;
  markAsBeingAnalyzed : Telegram -> Telegram;
  handleTelegramAnalyzed :
    Meter -> AboutTelegram -> Frame -> bool -> list Address.t -> bool -> Telegram ->
    Meter * (bool * list Address.t * bool) * Telegram;
  analyzeParse : Telegram -> OutputFormat -> Z -> Z -> Telegram * (string * Z * Z);
  printMeter : Meter -> Telegram -> Meter * Telegram * string;
  emptyMeterInfo : MeterInfo
}.

(** The calls of [error] (util.cc, not among the sources).  A call of
    [error] is where the embedding of a function stops: the function does
    not go on behind it. *)
Inductive ErrorMessage :=
| NoSuchDriver (only : string)
| CannotSpecifyQuadruple.

(** How a call ends: it returns, it calls [error], or it reads the last
    element of an empty vector. *)
Inductive Outcome (A : Type) :=
| Done (a : A)
| Fatal (msg : ErrorMessage)
| Undefined.

Arguments Done {A} a.
Arguments Fatal {A} msg.
Arguments Undefined {A}.

Section Analyzer.

Context {C : Collaborators} {G : Registry C}.

Definition set_key (mi : MeterInfo) (k : string) : MeterInfo :=
  mkMeterInfo (name mi) (driver_name mi) (address_expressions mi) k (identity_mode mi) (bus mi).

(** The members of [MeterManagerImplementation] that only the analysis
    uses. *)
Record Settings := mkSettings {
  should_profile_ : Z;
  analyze_format_ : OutputFormat;
  analyze_driver_ : string;
  analyze_key_ : string;
  analyze_verbose_ : bool
}.

(** [analyzeEnabled]: the switch is a member of [Manager], the rest is in
    [Settings]. *)
Definition analyzeEnabled (b : bool) (f : OutputFormat) (force_driver key : string)
           (verbose : bool) (profile : Z) (st : Manager * Settings) : Manager * Settings :=
  let (mg, an) := st in
  (mkManager (is_daemon_ mg) b (meter_templates_ mg) (meters_ mg) (telegram_listeners_ mg)
             (on_meter_added_ mg) (on_meter_updated_ mg),
   mkSettings profile f
              (if negb (String.eqb force_driver "auto") then force_driver else analyze_driver_ an)
              key verbose).

(** What the analysis prints and logs; the text of a line is not modelled,
    its occasion and arguments are.  The memory and time figures of the
    profiling notices come from the system and are left out. *)
Inductive Report :=
| DebugTestingDriver (driver_name : string)
| DebugNoMatch
| DebugDidNotHandle (meter : Meter)
| PrintNew (u l : Z) (driver_name : string)
| PrintNewBest (best_driver : string) (u l : Z)
| PrintGivingUp
| NoticeProfiling (rounds : Z)
| PrintDot
| NoticeDoneProfiling (rounds : Z)
| PrintAutoDriver (auto_driver : string)
| PrintBestDriver (best_driver : string) (best_understood best_length : Z)
| PrintUsingDriver (using_driver : string) (using_understood using_length : Z)
| PrintText (s : string).

(** A call yields what it reported and how it ended. *)
Definition R (A : Type) : Type := list Report * Outcome A.

Definition retR {A} (a : A) : R A := ([], Done a).

Definition bindR {A B} (c : R A) (k : A -> R B) : R B :=
  match c with
  | (evs, Done a) => let (evs', r) := k a in (evs ++ evs', r)
  | (evs, Fatal msg) => (evs, Fatal msg)
  | (evs, Undefined) => (evs, Undefined)
  end.

Definition say (evs : list Report) : R unit := (evs, Done tt).

(** What [findBestNewStyleDriver] reads and writes through its reference
    and pointer parameters, with the local [best_driver]. *)
Record Search := mkSearch {
  mi : MeterInfo;
  best_length : Z;
  best_understood : Z;
  t : Telegram;
  best_driver : string
}.

(** The body of the loop of [findBestNewStyleDriver] behind the test of
    [only]: the driver is skipped when it is not reasonable for the media,
    else a meter is built for it and offered the telegram. *)
Definition testDriver (verbose : bool) (only : string) (ndr : DriverInfo)
           (about : AboutTelegram) (input_frame : Frame) (simulated : bool) (s : Search)
  : list Report * Search :=
  let driver_name := toString ndr in
  if String.eqb only "" &&
     negb (isMeterDriverReasonableForMedia driver_name (dll_type (t s))) &&
     negb (isMeterDriverReasonableForMedia driver_name (tpl_type (t s)))
  then
    (* Sanity check, skip this driver since it is not relevant for this media. *)
    ([], s)
  else
    let mi1 := set_driver_name (mi s) driver_name in
    let meter := createMeter mi1 in
    let '(meter', (h, _, match_), t1) :=
      handleTelegramAnalyzed meter about input_frame simulated [] false (t s) in
    if negb match_
    then ([DebugTestingDriver driver_name; DebugNoMatch],
          mkSearch mi1 (best_length s) (best_understood s) t1 (best_driver s))
    else if negb h
    then ([DebugTestingDriver driver_name; DebugDidNotHandle meter'],
          mkSearch mi1 (best_length s) (best_understood s) t1 (best_driver s))
    else
      let '(t2, (_, l, u)) := analyzeParse t1 OutputFormat_NONE 0 0 in
      let shown := verbose && String.eqb only "" in
      if u >? best_understood s
      then ([DebugTestingDriver driver_name]
            ++ (if shown then [PrintNew u l driver_name] else [])
            ++ (if shown then [PrintNewBest (driverInfoName ndr) u l] else []),
            mkSearch mi1 l u t2 (driverInfoName ndr))
      else ([DebugTestingDriver driver_name]
            ++ (if shown then [PrintNew u l driver_name] else []),
            mkSearch mi1 (best_length s) (best_understood s) t2 (best_driver s)).

(** The loop of [findBestNewStyleDriver] over the drivers: the driver
    returned, and the state as the loop leaves it. *)
Fixpoint driverLoop (verbose : bool) (drivers : list DriverInfo) (only : string)
         (about : AboutTelegram) (input_frame : Frame) (simulated : bool) (s : Search)
  : list Report * (string * Search) :=
  match drivers with
  | [] => ([], (best_driver s, s))
  | ndr :: rest =>
      let driver_name := toString ndr in
      if negb (String.eqb only "")
      then
        if negb (String.eqb driver_name only)
        then driverLoop verbose rest only about input_frame simulated s
        else ([], (driver_name, s))
      else
        let (evs, s1) := testDriver verbose only ndr about input_frame simulated s in
        let (evs', r) := driverLoop verbose rest only about input_frame simulated s1 in
        (evs ++ evs', r)
  end.

(** [findBestNewStyleDriver]: the result is the driver returned together
    with [mi], [*best_length], [*best_understood] and [t] as the call
    leaves them. *)
Definition findBestNewStyleDriver (an : Settings) (mi0 : MeterInfo)
           (best_length0 best_understood0 : Z) (t0 : Telegram)
           (about : AboutTelegram) (input_frame : Frame) (simulated : bool) (only : string)
  : R (string * Search) :=
  bindR (if negb (String.eqb only "")
         then match lookupDriverInfo only with
              | None => ([], Fatal (NoSuchDriver only))
              | Some di => retR (driverInfoName di)
              end
         else retR only)
        (fun only =>
           let (evs, r) :=
             driverLoop (analyze_verbose_ an) allDrivers only about input_frame simulated
                        (mkSearch mi0 best_length0 best_understood0 t0 "") in
           (evs, Done r)).

(** The profiling loop of [analyzeTelegram]: round [k] of [k + n]. *)
Fixpoint profileRounds (n : nat) (k : Z) (meter : Meter) (about : AboutTelegram)
         (input_frame : Frame) (simulated : bool) (match_ : bool) (t0 : Telegram)
  : list Report * (Meter * bool * Telegram) :=
  match n with
  | O => ([], (meter, match_, t0))
  | S n' =>
      let '(meter1, (_, _, match1), t1) :=
        handleTelegramAnalyzed meter about input_frame simulated [] match_ t0 in
      let '(meter2, t2, _) := printMeter meter1 t1 in
      let (evs, r) := profileRounds n' (k + 1) meter2 about input_frame simulated match1 t2 in
      ((if Z.rem k 100 =? 0 then [PrintDot] else []) ++ evs, r)
  end.

(** [analyzeTelegram], for a manager with templates [meter_templates_ mg]
    and settings [an]. *)
Definition analyzeTelegram (mg : Manager) (an : Settings)
           (about : AboutTelegram) (input_frame : Frame) (simulated : bool) : R unit :=
  let (ok, t0) := parseHeader about input_frame in
  let t1 := if simulated then markAsSimulated t0 else t0 in
  let t2 := markAsBeingAnalyzed t1 in
  if negb ok
  then say [PrintGivingUp]
  else if (0 <? List.length (meter_templates_ mg))%nat
  then ([], Fatal CannotSpecifyQuadruple)
  else
    match rev (addresses t2) with
    | [] => ([], Undefined)
    | back :: _ =>
        (* Overwrite the id with the id from the telegram to be analyzed. *)
        let mi1 := set_address_expressions (set_key emptyMeterInfo (analyze_key_ an))
                                           [AddressExpression.ofAddress back] in
        (* Driver that understands most of the telegram content. *)
        bindR (findBestNewStyleDriver an mi1 0 0 t2 about input_frame simulated "")
        (fun found =>
           let (best_driver1, s1) := found in
           let best_driver2 :=
             if String.eqb best_driver1 "" then "unknown"%string else best_driver1 in
           let mi2 := set_driver_name (mi s1) best_driver2 in
           (* Unless the existing mapping from mfct/media/version to driver overrides best. *)
           let auto_driver := pickMeterDriver (t s1) in
           (* Will be non-empty if an explicit driver has been selected. *)
           let force_driver :=
             if String.eqb (analyze_driver_ an) "" && negb (String.eqb auto_driver "")
             then auto_driver else analyze_driver_ an in
           bindR (if negb (String.eqb force_driver "")
                  then bindR (findBestNewStyleDriver an mi2 0 0 (t s1) about input_frame
                                                     simulated force_driver)
                             (fun forced =>
                                let (using_driver, s2) := forced in
                                retR (using_driver, best_length s2, best_understood s2,
                                      mi s2, t s2))
                  else retR (best_driver2, best_length s1, best_understood s1, mi2, t s1))
           (fun chosen =>
              let '(using_driver, using_length, using_understood, mi3, t3) := chosen in
              let meter := createMeter (set_driver_name mi3 using_driver) in
              if should_profile_ an >? 0
              then
                let (evs, _) :=
                  profileRounds (Z.to_nat (should_profile_ an)) 0 meter about input_frame
                                simulated false t3 in
                say ([NoticeProfiling (should_profile_ an)] ++ evs
                     ++ [NoticeDoneProfiling (should_profile_ an)])
              else
                let '(meter1, _, t4) :=
                  handleTelegramAnalyzed meter about input_frame simulated [] false t3 in
                let '(t5, (output, _, _)) := analyzeParse t4 (analyze_format_ an) 0 0 in
                let '(_, _, json) := printMeter meter1 t5 in
                say [PrintAutoDriver (if String.eqb auto_driver "" then "not found!"%string
                                      else auto_driver);
                     PrintBestDriver best_driver2 (best_understood s1) (best_length s1);
                     PrintUsingDriver using_driver using_understood using_length;
                     PrintText output;
                     PrintText json]))
    end.

(* ---------------- vocabulary of the statements ---------------- *)

(** The drivers that the search tests and that both match and handle the
    telegram, in registry order, each with the content length and the
    understood length that [analyzeParse] reports for it. *)
Fixpoint candidates (drivers : list DriverInfo) (about : AboutTelegram) (input_frame : Frame)
         (simulated : bool) (mi0 : MeterInfo) (t0 : Telegram) : list (DriverInfo * Z * Z) :=
  match drivers with
  | [] => []
  | ndr :: rest =>
      let driver_name := toString ndr in
      if negb (isMeterDriverReasonableForMedia driver_name (dll_type t0)) &&
         negb (isMeterDriverReasonableForMedia driver_name (tpl_type t0))
      then candidates rest about input_frame simulated mi0 t0
      else
        let mi1 := set_driver_name mi0 driver_name in
        let '(_, (h, _, match_), t1) :=
          handleTelegramAnalyzed (createMeter mi1) about input_frame simulated [] false t0 in
        if match_ && h
        then let '(t2, (_, l, u)) := analyzeParse t1 OutputFormat_NONE 0 0 in
             (ndr, l, u) :: candidates rest about input_frame simulated mi1 t2
        else candidates rest about input_frame simulated mi1 t1
  end.

Definition understood (c : DriverInfo * Z * Z) : Z := snd c.

(** The best so far after one more candidate: a candidate takes over only
    when it understands strictly more. *)
Definition better (best : string * Z * Z) (c : DriverInfo * Z * Z) : string * Z * Z :=
  let '(ndr, l, u) := c in
  if u >? snd best then (driverInfoName ndr, l, u) else best.

(** Whether the registry lists a driver whose [toString] is [only]. *)
Definition listed (only : string) : bool :=
  existsb (fun ndr => String.eqb (toString ndr) only) allDrivers.

(* ---------------- facts about the search ---------------- *)

Lemma driverLoop_only verbose drivers only about input_frame simulated s :
  only <> ""%string ->
  driverLoop verbose drivers only about input_frame simulated s
  = ([], (if existsb (fun ndr => String.eqb (toString ndr) only) drivers
          then only else best_driver s, s)).
Proof.
  intros Hne. apply String.eqb_neq in Hne.
  induction drivers as [|ndr rest IH]; cbn [driverLoop existsb]; [reflexivity|].
  rewrite Hne. cbn [negb].
  destruct (String.eqb_spec (toString ndr) only) as [->|Hd]; cbn [negb orb]; [reflexivity|].
  exact IH.
Qed.

Lemma driverLoop_best verbose drivers about input_frame simulated :
  forall s,
    let r := snd (driverLoop verbose drivers "" about input_frame simulated s) in
    fst r = best_driver (snd r) /\
    (best_driver (snd r), best_length (snd r), best_understood (snd r))
    = fold_left better (candidates drivers about input_frame simulated (mi s) (t s))
                (best_driver s, best_length s, best_understood s).
Proof.
  induction drivers as [|ndr rest IH]; intros s; cbn [driverLoop candidates].
  - cbn. split; reflexivity.
  - cbn [String.eqb negb]. unfold testDriver. cbn [String.eqb andb].
    destruct (negb (isMeterDriverReasonableForMedia (toString ndr) (dll_type (t s))) &&
              negb (isMeterDriverReasonableForMedia (toString ndr) (tpl_type (t s)))).
    + specialize (IH s). cbv zeta in IH.
      destruct (driverLoop verbose rest "" about input_frame simulated s) as [evs r].
      exact IH.
    + destruct (handleTelegramAnalyzed (createMeter (set_driver_name (mi s) (toString ndr)))
                                       about input_frame simulated [] false (t s))
        as [[meter' [[h addrs'] match_]] t1].
      destruct match_; cbn [negb andb].
      * destruct h; cbn [negb].
        -- destruct (analyzeParse t1 OutputFormat_NONE 0 0) as [t2 [[out l] u]].
           cbn [fold_left better snd].
           destruct (u >? best_understood s);
             match goal with
             | |- context [driverLoop verbose rest "" about input_frame simulated ?s1] =>
                 specialize (IH s1); cbv zeta in IH;
                 destruct (driverLoop verbose rest "" about input_frame simulated s1) as [evs r]
             end; exact IH.
        -- match goal with
           | |- context [driverLoop verbose rest "" about input_frame simulated ?s1] =>
               specialize (IH s1); cbv zeta in IH;
               destruct (driverLoop verbose rest "" about input_frame simulated s1) as [evs r]
           end. exact IH.
      * match goal with
        | |- context [driverLoop verbose rest "" about input_frame simulated ?s1] =>
            specialize (IH s1); cbv zeta in IH;
            destruct (driverLoop verbose rest "" about input_frame simulated s1) as [evs r]
        end. exact IH.
Qed.

(** The best of a run of candidates: nobody takes over unless it
    understands more than the start; the first of those that understand
    the most wins. *)
Lemma fold_better_none cands best :
  Forall (fun c => understood c <= snd best) cands ->
  fold_left better cands best = best.
Proof.
  revert best. induction cands as [|[[ndr l] u] rest IH]; intros best Hall; [reflexivity|].
  inversion Hall as [|c cs Hc Hrest]; subst. cbn [fold_left better].
  unfold understood in Hc. cbn [snd] in Hc.
  destruct (Z.gtb_spec u (snd best)) as [Hgt|Hle]; [lia|]. apply IH. exact Hrest.
Qed.

Lemma fold_better_first_max pre ndr l u post best :
  snd best < u ->
  Forall (fun c => understood c < u) pre ->
  Forall (fun c => understood c <= u) post ->
  fold_left better (pre ++ (ndr, l, u) :: post) best = (driverInfoName ndr, l, u).
Proof.
  revert best. induction pre as [|[[ndr' l'] u'] pre IH]; intros best Hlt Hpre Hpost.
  - cbn [app fold_left better].
    destruct (Z.gtb_spec u (snd best)) as [Hgt|Hle]; [|lia].
    apply fold_better_none. exact Hpost.
  - inversion Hpre as [|c cs Hc Hrest]; subst. cbn [app fold_left].
    apply IH; [|exact Hrest|exact Hpost].
    unfold understood in Hc. cbn [snd] in Hc. cbn [better].
    destruct (u' >? snd best); cbn [snd]; lia.
Qed.

Lemma findBestNewStyleDriver_search an mi0 best_length0 best_understood0 t0
      about input_frame simulated :
  findBestNewStyleDriver an mi0 best_length0 best_understood0 t0 about input_frame simulated ""
  = (fst (driverLoop (analyze_verbose_ an) allDrivers "" about input_frame simulated
                     (mkSearch mi0 best_length0 best_understood0 t0 "")),
     Done (snd (driverLoop (analyze_verbose_ an) allDrivers "" about input_frame simulated
                           (mkSearch mi0 best_length0 best_understood0 t0 "")))).
Proof.
  unfold findBestNewStyleDriver. cbn [String.eqb negb retR bindR].
  destruct (driverLoop _ _ _ _ _ _ _) as [evs r]. reflexivity.
Qed.

Lemma findBestNewStyleDriver_forced an mi0 best_length0 best_understood0 t0
      about input_frame simulated only di :
  only <> ""%string ->
  lookupDriverInfo only = Some di ->
  driverInfoName di <> ""%string ->
  findBestNewStyleDriver an mi0 best_length0 best_understood0 t0 about input_frame simulated only
  = ([], Done (if listed (driverInfoName di) then driverInfoName di else ""%string,
               mkSearch mi0 best_length0 best_understood0 t0 "")).
Proof.
  intros Hne Hlook Hname. unfold findBestNewStyleDriver, listed.
  apply String.eqb_neq in Hne. rewrite Hne, Hlook. cbn [negb retR bindR].
  rewrite driverLoop_only by exact Hname. reflexivity.
Qed.

(* ---------------- the properties of the analysis ---------------- *)

(** X11: a driver asked for by name is looked up, not tried.  With a
    non-empty [only] that the registry does not know,
    [findBestNewStyleDriver] calls [error] with "No such driver".  With
    one it knows under a non-empty name, the call returns that name if a
    listed driver prints as it, and the empty string otherwise; no meter
    is offered the telegram, nothing is logged, and the counters, the
    meter info and the telegram are returned as they were passed. *)
Theorem forced_driver_is_looked_up an mi0 best_length0 best_understood0 t0
        about input_frame simulated only :
  only <> ""%string ->
  match lookupDriverInfo only with
  | None =>
      findBestNewStyleDriver an mi0 best_length0 best_understood0 t0 about input_frame
                             simulated only
      = ([], Fatal (NoSuchDriver only))
  | Some di =>
      driverInfoName di <> ""%string ->
      findBestNewStyleDriver an mi0 best_length0 best_understood0 t0 about input_frame
                             simulated only
      = ([], Done (if listed (driverInfoName di) then driverInfoName di else ""%string,
                   mkSearch mi0 best_length0 best_understood0 t0 ""))
  end.
Proof.
  intros Hne. destruct (lookupDriverInfo only) as [di|] eqn:Hlook.
  - intros Hname. now apply findBestNewStyleDriver_forced.
  - unfold findBestNewStyleDriver. apply String.eqb_neq in Hne. rewrite Hne, Hlook. reflexivity.
Qed.

(** X12: the search over all drivers ([only] empty) always returns, and
    what it returns is the first of the candidates that understand the
    most: if no candidate understands more than [*best_understood] held at
    the call, the result is the empty string and both counters are
    untouched; otherwise the result is the name of the earliest candidate
    whose understood length is the largest, and the counters are that
    candidate's.  Ties go to the driver listed first. *)
Theorem best_driver_is_first_maximum an mi0 best_length0 best_understood0 t0
        about input_frame simulated :
  exists evs s,
    findBestNewStyleDriver an mi0 best_length0 best_understood0 t0 about input_frame
                           simulated ""
    = (evs, Done (best_driver s, s)) /\
    let cands := candidates allDrivers about input_frame simulated mi0 t0 in
    (Forall (fun c => understood c <= best_understood0) cands ->
     best_driver s = ""%string /\ best_length s = best_length0 /\
     best_understood s = best_understood0) /\
    (forall pre ndr l u post,
        cands = pre ++ (ndr, l, u) :: post ->
        best_understood0 < u ->
        Forall (fun c => understood c < u) pre ->
        Forall (fun c => understood c <= u) post ->
        best_driver s = driverInfoName ndr /\ best_length s = l /\ best_understood s = u).
Proof.
  rewrite findBestNewStyleDriver_search.
  pose proof (driverLoop_best (analyze_verbose_ an) allDrivers about input_frame simulated
                              (mkSearch mi0 best_length0 best_understood0 t0 "")) as Hbest.
  cbv zeta in Hbest. cbn [mi t best_driver best_length best_understood] in Hbest.
  destruct (driverLoop (analyze_verbose_ an) allDrivers "" about input_frame simulated
                       (mkSearch mi0 best_length0 best_understood0 t0 "")) as [evs [bd s]].
  cbn [fst snd] in *. destruct Hbest as [-> Hfold].
  exists evs, s. split; [reflexivity|]. cbv zeta. split.
  - intros Hall. rewrite fold_better_none in Hfold by exact Hall.
    injection Hfold as -> -> ->. repeat split.
  - intros pre ndr l u post Hc Hlt Hpre Hpost.
    rewrite Hc, fold_better_first_max in Hfold by assumption.
    injection Hfold as -> -> ->. repeat split.
Qed.

Lemma fold_better_grows cands :
  forall best,
    fold_left better cands best = best \/ snd best < snd (fold_left better cands best).
Proof.
  induction cands as [|[[ndr l] u] rest IH]; intros best; cbn [fold_left]; [left; reflexivity|].
  cbn [better]. destruct (Z.gtb_spec u (snd best)) as [Hgt|Hle]; [|apply IH].
  right. destruct (IH (driverInfoName ndr, l, u)) as [->|Hlt]; cbn [snd] in *; lia.
Qed.

(** X13: the checks of [analyzeTelegram] come in this order.  A telegram
    whose header does not parse is given up on with one printed line, also
    when meter templates are configured.  With a header that parses and
    at least one template, the call reaches [error] before any driver is
    tried and before anything is printed. *)
Theorem analyzeTelegram_checks mg an about input_frame simulated :
  (fst (parseHeader about input_frame) = false ->
   analyzeTelegram mg an about input_frame simulated = ([PrintGivingUp], Done tt)) /\
  (fst (parseHeader about input_frame) = true ->
   meter_templates_ mg <> [] ->
   analyzeTelegram mg an about input_frame simulated = ([], Fatal CannotSpecifyQuadruple)).
Proof.
  unfold analyzeTelegram. destruct (parseHeader about input_frame) as [ok t0]. cbn [fst].
  split.
  - intros ->. reflexivity.
  - intros -> Hne. cbn [negb]. destruct (meter_templates_ mg); [contradiction|]. reflexivity.
Qed.

(** X14: the report of a completed analysis outside profiling.  It ends
    with the five lines auto driver, best driver, using driver, output and
    json.  The best driver is never empty, and it is [unknown] with
    counters zero when no driver understood anything.  When no driver is
    forced and none is detected, the driver used is the best one with its
    counters.  When a driver is forced, or detected by [pickMeterDriver],
    it is one that the registry knows; if the name it is registered under
    is not empty, the search for it returns before any parse, and the
    counters printed on the using line are zero whatever the telegram
    holds. *)
Theorem analysis_report mg an about input_frame simulated evs :
  analyzeTelegram mg an about input_frame simulated = (evs, Done tt) ->
  fst (parseHeader about input_frame) = true ->
  should_profile_ an <= 0 ->
  exists search t' best bu bl using_driver uu ul output json,
    let auto_driver := pickMeterDriver t' in
    let force_driver :=
      if String.eqb (analyze_driver_ an) "" && negb (String.eqb auto_driver "")
      then auto_driver else analyze_driver_ an in
    evs = search ++ [PrintAutoDriver (if String.eqb auto_driver "" then "not found!"%string
                                      else auto_driver);
                     PrintBestDriver best bu bl;
                     PrintUsingDriver using_driver uu ul;
                     PrintText output;
                     PrintText json] /\
    best <> ""%string /\
    0 <= bu /\
    (bu = 0 -> best = "unknown"%string /\ bl = 0) /\
    (force_driver = ""%string -> using_driver = best /\ uu = bu /\ ul = bl) /\
    (force_driver <> ""%string ->
     exists di, lookupDriverInfo force_driver = Some di /\
                (driverInfoName di <> ""%string ->
                 using_driver = (if listed (driverInfoName di) then driverInfoName di
                                 else ""%string) /\
                 uu = 0 /\ ul = 0)).
Proof.
  intros Hrun Hok Hprof. unfold analyzeTelegram in Hrun.
  destruct (parseHeader about input_frame) as [ok t0]. cbn [fst] in Hok. subst ok.
  cbn [negb] in Hrun.
  destruct (0 <? List.length (meter_templates_ mg))%nat; [discriminate Hrun|].
  destruct (rev (addresses _)) as [|back others]; [discriminate Hrun|].
  rewrite findBestNewStyleDriver_search in Hrun.
  match type of Hrun with
  | context [driverLoop ?v ?ds ""%string ?a ?f ?sm ?s0] =>
      pose proof (driverLoop_best v ds a f sm s0) as Hbest;
      destruct (driverLoop v ds ""%string a f sm s0) as [evs1 [bd s1]]
  end.
  cbv zeta in Hbest. cbn [fst snd mi t best_driver best_length best_understood] in Hbest.
  destruct Hbest as [-> Hfold]. cbn [fst snd bindR] in Hrun.
  assert (Hgrow : (best_driver s1 = ""%string /\ best_length s1 = 0 /\ best_understood s1 = 0)
                  \/ 0 < best_understood s1).
  { match type of Hfold with
    | _ = fold_left better ?cands ?b0 =>
        destruct (fold_better_grows cands b0) as [Heq|Hlt]
    end.
    - left. rewrite Heq in Hfold. injection Hfold as -> -> ->. repeat split.
    - right. rewrite <- Hfold in Hlt. exact Hlt. }
  assert (Hprofile : (should_profile_ an >? 0) = false).
  { destruct (Z.gtb_spec (should_profile_ an) 0); [lia|reflexivity]. }
  set (best := if String.eqb (best_driver s1) "" then "unknown"%string else best_driver s1) in *.
  assert (Hbestne : best <> ""%string).
  { subst best. destruct (String.eqb_spec (best_driver s1) ""); [discriminate|assumption]. }
  assert (Hzero : best_understood s1 = 0 -> best = "unknown"%string /\ best_length s1 = 0).
  { intros Hz. destruct Hgrow as [(Hd & Hl & _)|Hpos]; [|lia].
    subst best. rewrite Hd. split; [reflexivity|exact Hl]. }
  assert (Hnonneg : 0 <= best_understood s1) by (destruct Hgrow as [(_ & _ & ->)|Hpos]; lia).
  set (auto_driver := pickMeterDriver (t s1)) in *.
  set (force_driver := if String.eqb (analyze_driver_ an) "" && negb (String.eqb auto_driver "")
                       then auto_driver else analyze_driver_ an) in *.
  destruct (String.eqb_spec force_driver "") as [Hforce|Hforce]; cbn [negb] in Hrun.
  - cbn [retR bindR] in Hrun. rewrite Hprofile in Hrun.
    destruct (handleTelegramAnalyzed _ _ _ _ _ _ _) as [[meter1 r1] t4].
    destruct (analyzeParse t4 (analyze_format_ an) 0 0) as [t5 [[output l5] u5]].
    destruct (printMeter meter1 t5) as [[meter6 t6] json].
    cbn [say app] in Hrun. injection Hrun as <-.
    exists evs1, (t s1), best, (best_understood s1), (best_length s1),
           best, (best_understood s1), (best_length s1), output, json.
    cbv zeta. fold auto_driver. fold force_driver.
    split; [reflexivity|]. split; [exact Hbestne|]. split; [exact Hnonneg|].
    split; [exact Hzero|]. split; [repeat split|]. intros Hne. contradiction.
  - destruct (lookupDriverInfo force_driver) as [di|] eqn:Hlook.
    + destruct (findBestNewStyleDriver an (set_driver_name (mi s1) best) 0 0 (t s1) about
                                       input_frame simulated force_driver)
        as [evs2 [[using_driver s2]|msg|]] eqn:Hforced;
        cbn [retR bindR] in Hrun; try discriminate Hrun.
      rewrite app_nil_r in Hrun. cbn [bindR] in Hrun. rewrite Hprofile in Hrun.
      destruct (handleTelegramAnalyzed _ _ _ _ _ _ _) as [[meter1 r1] t4].
      destruct (analyzeParse t4 (analyze_format_ an) 0 0) as [t5 [[output l5] u5]].
      destruct (printMeter meter1 t5) as [[meter6 t6] json].
      cbn [say app] in Hrun. injection Hrun as <-.
      exists (evs1 ++ evs2), (t s1), best, (best_understood s1), (best_length s1),
             using_driver, (best_understood s2), (best_length s2), output, json.
      cbv zeta. fold auto_driver. fold force_driver.
      split; [now rewrite <- app_assoc|]. split; [exact Hbestne|]. split; [exact Hnonneg|].
      split; [exact Hzero|]. split; [intros Hf; contradiction|].
      intros _. exists di. split; [exact Hlook|]. intros Hname.
      rewrite (findBestNewStyleDriver_forced an _ 0 0 (t s1) about input_frame simulated
                 force_driver di Hforce Hlook Hname) in Hforced.
      injection Hforced as _ <- <-. repeat split.
    + exfalso. unfold findBestNewStyleDriver in Hrun.
      apply String.eqb_neq in Hforce. rewrite Hforce, Hlook in Hrun.
      cbn [negb bindR] in Hrun. discriminate Hrun.
Qed.

(** The lines of the final report. *)
Definition isReportLine (e : Report) : bool :=
  match e with
  | PrintAutoDriver _ | PrintBestDriver _ _ _ | PrintUsingDriver _ _ _ | PrintText _ => true
  | _ => false
  end.

Lemma testDriver_no_report verbose only ndr about input_frame simulated s :
  Forall (fun e => isReportLine e = false)
         (fst (testDriver verbose only ndr about input_frame simulated s)).
Proof.
  unfold testDriver.
  destruct (_ && _ && _); [constructor|].
  destruct (handleTelegramAnalyzed _ _ _ _ _ _ _) as [[meter' [[h addrs'] match_]] t1].
  destruct match_; cbn [negb]; [|repeat constructor].
  destruct h; cbn [negb]; [|repeat constructor].
  destruct (analyzeParse t1 OutputFormat_NONE 0 0) as [t2 [[out l] u]].
  destruct (u >? best_understood s), (verbose && String.eqb only ""); repeat constructor.
Qed.

Lemma driverLoop_no_report verbose drivers only about input_frame simulated :
  forall s,
    Forall (fun e => isReportLine e = false)
           (fst (driverLoop verbose drivers only about input_frame simulated s)).
Proof.
  induction drivers as [|ndr rest IH]; intros s; cbn [driverLoop]; [constructor|].
  destruct (negb (String.eqb only "")).
  - destruct (negb (String.eqb (toString ndr) only)); [apply IH|constructor].
  - pose proof (testDriver_no_report verbose only ndr about input_frame simulated s) as H1.
    destruct (testDriver verbose only ndr about input_frame simulated s) as [evs s1].
    specialize (IH s1).
    destruct (driverLoop verbose rest only about input_frame simulated s1) as [evs' r].
    cbn [fst] in *. apply Forall_app. split; assumption.
Qed.

Lemma findBestNewStyleDriver_no_report an mi0 best_length0 best_understood0 t0
      about input_frame simulated only :
  Forall (fun e => isReportLine e = false)
         (fst (findBestNewStyleDriver an mi0 best_length0 best_understood0 t0
                                      about input_frame simulated only)).
Proof.
  unfold findBestNewStyleDriver.
  destruct (negb (String.eqb only "")).
  - destruct (lookupDriverInfo only) as [di|]; cbn [retR bindR fst]; [|constructor].
    pose proof (driverLoop_no_report (analyze_verbose_ an) allDrivers (driverInfoName di)
                  about input_frame simulated
                  (mkSearch mi0 best_length0 best_understood0 t0 "")) as H.
    destruct (driverLoop _ _ _ _ _ _ _) as [evs r]. exact H.
  - cbn [retR bindR fst].
    pose proof (driverLoop_no_report (analyze_verbose_ an) allDrivers only
                  about input_frame simulated
                  (mkSearch mi0 best_length0 best_understood0 t0 "")) as H.
    destruct (driverLoop _ _ _ _ _ _ _) as [evs r]. exact H.
Qed.

Lemma hundreds_step k :
  0 <= k ->
  (k + 1 + 99) / 100 = (k + 99) / 100 + (if Z.rem k 100 =? 0 then 1 else 0).
Proof.
  intros Hk. rewrite Z.rem_mod_nonneg by lia.
  pose proof (Z.div_mod k 100 ltac:(lia)) as Hdm.
  pose proof (Z.mod_pos_bound k 100 ltac:(lia)) as Hb.
  set (q := k / 100) in *. set (r := k mod 100) in *. clearbody q r.
  destruct (Z.eqb_spec r 0) as [Hr|Hr].
  - subst r k. replace (100 * q + 0 + 1 + 99) with ((q + 1) * 100) by lia.
    replace (100 * q + 0 + 99) with (q * 100 + 99) by lia.
    rewrite Z.div_mul by lia. rewrite Z.div_add_l by lia.
    replace (99 / 100) with 0 by reflexivity. lia.
  - subst k. replace (100 * q + r + 1 + 99) with ((q + 1) * 100 + r) by lia.
    replace (100 * q + r + 99) with ((q + 1) * 100 + (r - 1)) by lia.
    rewrite !Z.div_add_l by lia.
    rewrite (Z.div_small r 100) by lia. rewrite (Z.div_small (r - 1) 100) by lia. lia.
Qed.

Lemma profileRounds_dots n about input_frame simulated :
  forall k meter match_ t0,
    0 <= k ->
    fst (profileRounds n k meter about input_frame simulated match_ t0)
    = repeat PrintDot (Z.to_nat ((k + Z.of_nat n + 99) / 100 - (k + 99) / 100)).
Proof.
  induction n as [|n IH]; intros k meter match_ t0 Hk.
  - cbn [profileRounds fst]. replace (k + Z.of_nat 0 + 99) with (k + 99) by lia.
    now rewrite Z.sub_diag.
  - cbn [profileRounds].
    destruct (handleTelegramAnalyzed meter about input_frame simulated [] match_ t0)
      as [[meter1 [[h1 addrs1] match1]] t1].
    destruct (printMeter meter1 t1) as [[meter2 t2] json].
    specialize (IH (k + 1) meter2 match1 t2 ltac:(lia)).
    destruct (profileRounds n (k + 1) meter2 about input_frame simulated match1 t2) as [evs r].
    cbn [fst] in *. rewrite IH.
    replace (k + Z.of_nat (S n) + 99) with (k + 1 + Z.of_nat n + 99) by lia.
    pose proof (hundreds_step k Hk) as Hstep.
    assert (Hmono : (k + 1 + 99) / 100 <= (k + 1 + Z.of_nat n + 99) / 100)
      by (apply Z.div_le_mono; lia).
    set (a := (k + 1 + Z.of_nat n + 99) / 100) in *.
    set (b := (k + 99) / 100) in *. set (b' := (k + 1 + 99) / 100) in *.
    clearbody a b b'.
    destruct (Z.rem k 100 =? 0).
    + replace (Z.to_nat (a - b)) with (S (Z.to_nat (a - b'))) by lia. reflexivity.
    + replace b' with b by lia. reflexivity.
Qed.

(** X16: a completed analysis in profiling mode ([should_profile_]
    positive) prints none of the report lines.  Behind what the search for
    the driver logs, it gives the opening notice, one dot for every
    started hundred of rounds, and the closing notice. *)
Theorem profiling_report mg an about input_frame simulated evs :
  analyzeTelegram mg an about input_frame simulated = (evs, Done tt) ->
  fst (parseHeader about input_frame) = true ->
  0 < should_profile_ an ->
  Forall (fun e => isReportLine e = false) evs /\
  exists search,
    evs = search
          ++ [NoticeProfiling (should_profile_ an)]
          ++ repeat PrintDot (Z.to_nat ((should_profile_ an + 99) / 100))
          ++ [NoticeDoneProfiling (should_profile_ an)].
Proof.
  intros Hrun Hok Hprof. unfold analyzeTelegram in Hrun.
  destruct (parseHeader about input_frame) as [ok t0]. cbn [fst] in Hok. subst ok.
  cbn [negb] in Hrun.
  destruct (0 <? List.length (meter_templates_ mg))%nat; [discriminate Hrun|].
  destruct (rev (addresses _)) as [|back others]; [discriminate Hrun|].
  assert (Hprofile : (should_profile_ an >? 0) = true).
  { destruct (Z.gtb_spec (should_profile_ an) 0); [reflexivity|lia]. }
  match type of Hrun with
  | context [bindR (findBestNewStyleDriver ?a ?m ?l ?u ?t1 ?ab ?fr ?sm ?o) _] =>
      pose proof (findBestNewStyleDriver_no_report a m l u t1 ab fr sm o) as Hno1;
      destruct (findBestNewStyleDriver a m l u t1 ab fr sm o) as [evs1 [[bd s1]|msg|]]
  end; cbn [bindR fst] in Hrun, Hno1; try discriminate Hrun.
  assert (Hchosen : forall (c : R (string * Z * Z * MeterInfo * Telegram)),
             Forall (fun e => isReportLine e = false) (fst c) ->
             (let (evs', r) :=
                bindR c (fun chosen =>
                  let '(using_driver, using_length, using_understood, mi3, t3) := chosen in
                  let meter := createMeter (set_driver_name mi3 using_driver) in
                  let (evs0, _) :=
                    profileRounds (Z.to_nat (should_profile_ an)) 0 meter about input_frame
                                  simulated false t3 in
                  say ([NoticeProfiling (should_profile_ an)] ++ evs0
                       ++ [NoticeDoneProfiling (should_profile_ an)]))
              in (evs1 ++ evs', r)) = (evs, Done tt) ->
             Forall (fun e => isReportLine e = false) evs /\
             exists search,
               evs = search
                     ++ [NoticeProfiling (should_profile_ an)]
                     ++ repeat PrintDot (Z.to_nat ((should_profile_ an + 99) / 100))
                     ++ [NoticeDoneProfiling (should_profile_ an)]).
  { intros [evs2 [[[[[using_driver using_length] using_understood] mi3] t3]|msg|]] Hno2 Hc;
      cbn [bindR fst] in Hc, Hno2; try discriminate Hc.
    pose proof (profileRounds_dots (Z.to_nat (should_profile_ an)) about input_frame simulated
                  0 (createMeter (set_driver_name mi3 using_driver)) false t3 ltac:(lia))
      as Hdots.
    destruct (profileRounds _ _ _ _ _ _ _ _) as [evs0 r0]. cbn [fst say] in Hdots, Hc.
    injection Hc as <-. rewrite Hdots.
    rewrite Z2Nat.id by lia. replace (0 + should_profile_ an + 99) with (should_profile_ an + 99)
      by lia.
    replace ((0 + 99) / 100) with 0 by reflexivity. rewrite Z.sub_0_r.
    split.
    - assert (Hdot : forall n, Forall (fun e => isReportLine e = false) (repeat PrintDot n)).
      { intros n. apply Forall_forall. intros e He. apply repeat_spec in He. now subst e. }
      repeat first [ assumption
                   | apply Hdot
                   | apply Forall_nil
                   | apply Forall_cons; [reflexivity|]
                   | apply Forall_app; split ].
    - exists (evs1 ++ evs2). now rewrite <- !app_assoc. }
  rewrite Hprofile in Hrun.
  apply Hchosen with (2 := Hrun).
  destruct (negb _).
  - match goal with
    | |- context [findBestNewStyleDriver ?a ?m ?l ?u ?t1 ?ab ?fr ?sm ?o] =>
        pose proof (findBestNewStyleDriver_no_report a m l u t1 ab fr sm o) as Hno2;
        destruct (findBestNewStyleDriver a m l u t1 ab fr sm o) as [evs2 [[ud s2]|msg|]]
    end; cbn [bindR retR fst] in *; try assumption.
    now rewrite app_nil_r.
  - constructor.
Qed.

End Analyzer.

(* ---------------- a concrete registry ---------------- *)

(** The installation [simple] of the manager, with a telegram that also
    records the driver that parsed it last. *)
#[local] Instance lab : Collaborators := {|
  AboutTelegram := unit;
  Telegram := list Address.t * string;
  Meter := SimpleMeter;
  TelegramListener := nat;
  MeterAddedCallback := unit;
  MeterUpdatedCallback := unit;
  meter_handleTelegram := @meter_handleTelegram simple;
  numUpdates := sm_updates;
  setIndex := fun m i => mkSimpleMeter (sm_info m) i (sm_updates m);
  onUpdate := fun m _ => m;
  createMeter := fun mi => mkSimpleMeter mi 0 0;
  parseHeader := fun _ input_frame =>
    (match input_frame with [] => false | _ => true end,
     (simpleAddresses input_frame, ""%string));
  markAsSimulated := fun t => t;
  addresses := fst;
  isTelegramForMeter := fun t mi => simpleMatch (address_expressions mi) (fst t);
  pickMeterDriver := fun _ => ""%string;
  appendIdentity := fun _ addrs es => (simpleIdentity addrs, es ++ [simpleIdentity addrs]);
  isDebugEnabled := false;
  isVerboseEnabled := false
|}.

(** How many bytes each driver of the laboratory understands. *)
Definition labScore (driver : string) : Z :=
  if String.eqb driver "multical21" then 10
  else if String.eqb driver "iperl" then 25
  else if String.eqb driver "supercom587" then 25
  else 0.

Definition labDrivers : list string := ["multical21"; "iperl"; "supercom587"]%string.

(** Three drivers, all reasonable for every media; a telegram is 40 bytes
    long and a driver understands [labScore] of them. *)
#[local] Instance labRegistry : Registry lab :=
  @Build_Registry lab
    string                                   (* DriverInfo *)
    unit                                     (* OutputFormat *)
    tt                                       (* OutputFormat_NONE *)
    labDrivers                               (* allDrivers *)
    (fun d => d)                             (* toString *)
    (fun d => d)                             (* driverInfoName *)
    (fun s => if existsb (String.eqb s) labDrivers then Some s else None)
    (fun _ _ => true)                        (* isMeterDriverReasonableForMedia *)
    (fun _ => 0x16)                          (* dll_type *)
    (fun _ => 0x16)                          (* tpl_type *)
    (fun t0 => t0)                           (* markAsBeingAnalyzed *)
    (fun (m : SimpleMeter) (about : unit) input_frame simulated addrs id_match
         (t0 : list Address.t * string) =>
       (@meter_handleTelegram simple m about input_frame simulated addrs id_match,
        (fst t0, driver_name (sm_info m))))
    (fun (t0 : list Address.t * string) _ _ _ => (t0, (""%string, 40, labScore (snd t0))))
    (fun (m : SimpleMeter) (t0 : list Address.t * string) => (m, t0, "{}"%string))
    (mkMeterInfo "" "" [] "" ID "").

(** A manager in analysis mode without templates, and one with a
    template. *)
Definition labManager : Manager := mkManager false true [] [] [] None None.

Definition labManagerWithTemplate : Manager :=
  mkManager false true [waterTemplate] [] [] None None.

(** No driver forced; driver [iperl] forced; 250 rounds of profiling. *)
Definition labSettings : Settings := mkSettings 0 tt "" "" false.

Definition labForced : Settings := mkSettings 0 tt "iperl" "" false.

Definition labProfiling : Settings := mkSettings 250 tt "" "" false.

Definition labInfo : MeterInfo := mkMeterInfo "" "" [expr12345678] "" ID "".

Definition labTelegram : Telegram := (simpleAddresses someFrame, ""%string).

(** What the analysis of [someFrame] prints with [iperl] forced, and what
    it logs when profiling. *)
Definition labForcedReport : list Report :=
  fst (analyzeTelegram labManager labForced tt someFrame false).

Definition labProfilingReport : list Report :=
  fst (analyzeTelegram labManager labProfiling tt someFrame false).

(** X11 at the laboratory: [iperl] is returned without a test. *)
Lemma forced_driver_is_looked_up_witness :
  "iperl"%string <> ""%string /\
  findBestNewStyleDriver labSettings labInfo 0 0 labTelegram tt someFrame false "iperl"
  = ([], Done ("iperl"%string, mkSearch labInfo 0 0 labTelegram "")).
Proof.
  split; [discriminate|].
  apply (forced_driver_is_looked_up labSettings labInfo 0 0 labTelegram tt someFrame false
                                    "iperl"); discriminate.
Defined.

(** X12 at the laboratory: [iperl] and [supercom587] both understand 25
    bytes, the one listed first is returned; [multical21] understands 10. *)
Lemma best_driver_is_first_maximum_witness :
  candidates allDrivers tt someFrame false labInfo labTelegram
  = [("multical21", 40, 10); ("iperl", 40, 25); ("supercom587", 40, 25)]%string /\
  exists evs s,
    findBestNewStyleDriver labSettings labInfo 0 0 labTelegram tt someFrame false ""
    = (evs, Done (best_driver s, s)) /\
    best_driver s = "iperl"%string /\ best_length s = 40 /\ best_understood s = 25.
Proof.
  split; [reflexivity|].
  destruct (best_driver_is_first_maximum labSettings labInfo 0 0 labTelegram tt someFrame false)
    as (evs & s & Hrun & _ & Hmax).
  exists evs, s. split; [exact Hrun|].
  apply (Hmax [("multical21", 40, 10)]%string "iperl"%string 40 25
              [("supercom587", 40, 25)]%string).
  - reflexivity.
  - reflexivity.
  - repeat constructor.
  - repeat constructor. discriminate.
Defined.

(** X13 at the laboratory: an empty frame has no header; a template makes
    the analysis of a good frame fatal. *)
Lemma analyzeTelegram_checks_witness :
  analyzeTelegram labManagerWithTemplate labSettings tt [] false = ([PrintGivingUp], Done tt) /\
  analyzeTelegram labManagerWithTemplate labSettings tt someFrame false
  = ([], Fatal CannotSpecifyQuadruple).
Proof.
  split.
  - exact (proj1 (analyzeTelegram_checks labManagerWithTemplate labSettings tt [] false)
                 eq_refl).
  - apply (proj2 (analyzeTelegram_checks labManagerWithTemplate labSettings tt someFrame false));
      [reflexivity|discriminate].
Defined.

(** X14 at the laboratory, with [iperl] forced. *)
Lemma analysis_report_witness :
  analyzeTelegram labManager labForced tt someFrame false = (labForcedReport, Done tt) /\
  In (PrintBestDriver "iperl" 25 40) labForcedReport /\
  In (PrintUsingDriver "iperl" 0 0) labForcedReport /\
  exists search t' best bu bl using_driver uu ul output json,
    labForcedReport
    = search ++ [PrintAutoDriver (if String.eqb (pickMeterDriver t') "" then "not found!"%string
                                  else pickMeterDriver t');
                 PrintBestDriver best bu bl;
                 PrintUsingDriver using_driver uu ul;
                 PrintText output;
                 PrintText json] /\
    best <> ""%string /\
    0 <= bu /\
    (bu = 0 -> best = "unknown"%string /\ bl = 0) /\
    ((if String.eqb (analyze_driver_ labForced) "" && negb (String.eqb (pickMeterDriver t') "")
      then pickMeterDriver t' else analyze_driver_ labForced) = ""%string ->
     using_driver = best /\ uu = bu /\ ul = bl) /\
    ((if String.eqb (analyze_driver_ labForced) "" && negb (String.eqb (pickMeterDriver t') "")
      then pickMeterDriver t' else analyze_driver_ labForced) <> ""%string ->
     exists di,
       lookupDriverInfo
         (if String.eqb (analyze_driver_ labForced) "" && negb (String.eqb (pickMeterDriver t') "")
          then pickMeterDriver t' else analyze_driver_ labForced) = Some di /\
       (driverInfoName di <> ""%string ->
        using_driver = (if listed (driverInfoName di) then driverInfoName di else ""%string) /\
        uu = 0 /\ ul = 0)).
Proof.
  split; [reflexivity|].
  split; [vm_compute; tauto|]. split; [vm_compute; tauto|].
  apply (analysis_report labManager labForced tt someFrame false labForcedReport).
  - reflexivity.
  - reflexivity.
  - discriminate.
Defined.

(** X16 at the laboratory: 250 rounds give three dots. *)
Lemma profiling_report_witness :
  analyzeTelegram labManager labProfiling tt someFrame false = (labProfilingReport, Done tt) /\
  Forall (fun e => isReportLine e = false) labProfilingReport /\
  exists search,
    labProfilingReport
    = search
      ++ [NoticeProfiling (should_profile_ labProfiling)]
      ++ repeat PrintDot (Z.to_nat ((should_profile_ labProfiling + 99) / 100))
      ++ [NoticeDoneProfiling (should_profile_ labProfiling)].
Proof.
  split; [vm_compute; reflexivity|].
  apply (profiling_report labManager labProfiling tt someFrame false labProfilingReport).
  - vm_compute. reflexivity.
  - reflexivity.
  - reflexivity.
Defined.

End Analysis.

(* ------------------------------------------------------------------ *)
(** ** The internal test program, [testinternals.cc] *)

Module TestProgram.

Local Open Scope string_scope.
Local Open Scope list_scope.

(** [LIST_OF_TESTS], in the order of the macro. *)
Definition LIST_OF_TESTS : list string :=
  ["addresses";
   "dynamic_loading";
   "crc";
   "dvparser";
   "devices";
   "linkmodes";
   "ids";
   "kdf";
   "periods";
   "device_parsing";
   "meters";
   "months";
   "aes";
   "sbc";
   "hex";
   "translate";
   "slip";
   "dvs";
   "ascii_detection";
   "status_join";
   "status_sort";
   "field_matcher";
   "units_extraction";
   "si_units_siexp";
   "si_units_basic";
   "si_units_conversion";
   "formulas_building_consts";
   "formulas_building_meters";
   "formulas_datetimes";
   "formulas_parsing_1";
   "formulas_parsing_2";
   "formulas_multiply_constants";
   "formulas_divide_constants";
   "formulas_sqrt_constants";
   "formulas_errors";
   "formulas_dventries";
   "formulas_stringinterpolation"].

(** What the program does to the outside: the switches of the logger it
    turns on, the exit handler it installs, the lines it prints about the
    tests and the test functions it calls. *)
Inductive Output :=
| DebugEnabled (b : bool)
| TraceEnabled (b : bool)
| OnExit
| Printf (test_name : string)
| Info (test_name : string)
| Call (test_name : string).

(** [strstr(haystack, needle) != NULL]. *)
Fixpoint strstr (haystack needle : string) : bool :=
  if String.prefix needle haystack then true
  else match haystack with
       | EmptyString => false
       | String _ rest => strstr rest needle
       end.

(** [test]: [pattern] is [None] for the null pointer. *)
Definition test (verbose_ : bool) (test_name : string) (pattern : option string)
  : list Output * bool :=
  match pattern with
  | None => (if verbose_ then [Printf test_name] else [], true)
  | Some p =>
      let ok := strstr test_name p in
      (if ok then [Info test_name] else [], ok)
  end.

(** The loop of [main] over [argv[1]] and the following arguments; the
    state is [verbose_] and [pattern]. *)
Fixpoint arguments (args : list string) (verbose_ : bool) (pattern : option string)
  : list Output * (bool * option string) :=
  match args with
  | [] => ([], (verbose_, pattern))
  | a :: rest =>
      if String.eqb a "--verbose"
      then arguments rest true pattern
      else if String.eqb a "--debug"
      then let (out, r) := arguments rest true pattern in
           (DebugEnabled true :: out, r)
      else if String.eqb a "--trace"
      then let (out, r) := arguments rest true pattern in
           (DebugEnabled true :: TraceEnabled true :: out, r)
      else arguments rest verbose_ (Some a)
  end.

(** The expansion of [LIST_OF_TESTS] with
    [X(x) if (test(#x, pattern)) test_##x();]. *)
Fixpoint runTests (names : list string) (verbose_ : bool) (pattern : option string)
  : list Output :=
  match names with
  | [] => []
  | x :: rest =>
      let (out, ok) := test verbose_ x pattern in
      out ++ (if ok then [Call x] else []) ++ runTests rest verbose_ pattern
  end.

(** [main]: [argv[0]] is skipped; the result is the output and the exit
    code. *)
Definition main (argv : list string) : list Output * Z :=
  let '(out, (verbose_, pattern)) := arguments (tl argv) false None in
  (out ++ [OnExit] ++ runTests LIST_OF_TESTS verbose_ pattern, 0).

(* ---------------- vocabulary of the statements ---------------- *)

Definition isSwitch (a : string) : bool :=
  String.eqb a "--verbose" || String.eqb a "--debug" || String.eqb a "--trace".

(** The last argument that is not a switch. *)
Definition lastPattern (args : list string) : option string :=
  hd_error (rev (filter (fun a => negb (isSwitch a)) args)).

Definition selected (pattern : option string) (test_name : string) : bool :=
  match pattern with
  | None => true
  | Some p => strstr test_name p
  end.

Definition calls (out : list Output) : list string :=
  flat_map (fun o => match o with Call x => [x] | _ => [] end) out.

Lemma arguments_closed args :
  forall verbose_ pattern,
    snd (arguments args verbose_ pattern)
    = (verbose_ || existsb isSwitch args,
       match lastPattern args with Some a => Some a | None => pattern end) /\
    calls (fst (arguments args verbose_ pattern)) = [].
Proof.
  unfold lastPattern.
  induction args as [|a rest IH]; intros verbose_ pattern; cbn [arguments existsb filter].
  - cbn. now rewrite orb_false_r.
  - unfold isSwitch at 1 3.
    destruct (String.eqb a "--verbose") eqn:Hv; cbn [orb negb].
    + destruct (IH true pattern) as [-> Hc]. split; [|exact Hc].
      now rewrite orb_true_r.
    + destruct (String.eqb a "--debug") eqn:Hd; cbn [orb negb].
      * destruct (IH true pattern) as [Hs Hc].
        destruct (arguments rest true pattern) as [out r]. cbn [fst snd] in *.
        split; [|exact Hc]. now rewrite Hs, orb_true_r.
      * destruct (String.eqb a "--trace") eqn:Ht; cbn [orb negb].
        -- destruct (IH true pattern) as [Hs Hc].
           destruct (arguments rest true pattern) as [out r]. cbn [fst snd] in *.
           split; [|exact Hc]. now rewrite Hs, orb_true_r.
        -- destruct (IH verbose_ (Some a)) as [-> Hc]. split; [|exact Hc].
           cbn [rev]. f_equal.
           destruct (rev (filter (fun a0 => negb (isSwitch a0)) rest)); reflexivity.
Qed.

Lemma runTests_calls names verbose_ pattern :
  calls (runTests names verbose_ pattern) = filter (selected pattern) names.
Proof.
  induction names as [|x rest IH]; cbn [runTests filter]; [reflexivity|].
  unfold calls in *. unfold test, selected.
  destruct pattern as [p|].
  - destruct (strstr x p); cbn; now rewrite IH.
  - destruct verbose_; cbn; now rewrite IH.
Qed.

(** X17: which tests the program runs.  The pattern is the last argument
    behind [argv[0]] that is none of [--verbose], [--debug] and [--trace],
    wherever the switches stand.  The tests called are those of
    [LIST_OF_TESTS] whose name contains the pattern, in the order of the
    list and each once; without a pattern all of them are called.  The
    exit code is 0. *)
Theorem main_runs_selected_tests argv :
  calls (fst (main argv)) = filter (selected (lastPattern (tl argv))) LIST_OF_TESTS /\
  (lastPattern (tl argv) = None -> calls (fst (main argv)) = LIST_OF_TESTS) /\
  snd (main argv) = 0.
Proof.
  unfold main.
  destruct (arguments_closed (tl argv) false None) as [Hs Hc].
  destruct (arguments (tl argv) false None) as [out [verbose_ pattern]].
  cbn [fst snd] in *. injection Hs as Hv Hp.
  assert (Hcalls : calls (out ++ [OnExit] ++ runTests LIST_OF_TESTS verbose_ pattern)
                   = filter (selected (lastPattern (tl argv))) LIST_OF_TESTS).
  { unfold calls in *. rewrite !flat_map_app, Hc. cbn [flat_map app].
    pose proof (runTests_calls LIST_OF_TESTS verbose_ pattern) as Hr. unfold calls in Hr.
    rewrite Hr, Hp. now destruct (lastPattern (tl argv)). }
  split; [exact Hcalls|]. split; [|reflexivity].
  intros Hnone. rewrite Hcalls, Hnone. reflexivity.
Qed.

(** X17 at a command line: the switch may follow the pattern. *)
Lemma main_runs_selected_tests_witness :
  lastPattern (tl ["testinternals"; "si_units"; "--verbose"]) = Some "si_units" /\
  calls (fst (main ["testinternals"; "si_units"; "--verbose"]))
  = ["si_units_siexp"; "si_units_basic"; "si_units_conversion"] /\
  calls (fst (main ["testinternals"; "--verbose"])) = LIST_OF_TESTS.
Proof.
  split; [reflexivity|]. split.
  - rewrite (proj1 (main_runs_selected_tests ["testinternals"; "si_units"; "--verbose"])).
    reflexivity.
  - exact (proj1 (proj2 (main_runs_selected_tests ["testinternals"; "--verbose"])) eq_refl).
Defined.

End TestProgram.

(* ------------------------------------------------------------------ *)
(** ** SLIP framing *)

Module Slip.

Definition SLIP_END : byte := xc0.
Definition SLIP_ESC : byte := xdb.
Definition SLIP_ESC_END : byte := xdc.
Definition SLIP_ESC_ESC : byte := xdd.

(** Modelled from the spec: the bytes that stand for one payload byte inside
    a frame (section 6: 0xC0 -> 0xDB 0xDC, 0xDB -> 0xDB 0xDD). *)
Definition escapeByte (c : byte) : list byte :=
  if Byte.eqb c SLIP_END then [SLIP_ESC; SLIP_ESC_END]
  else if Byte.eqb c SLIP_ESC then [SLIP_ESC; SLIP_ESC_ESC]
  else [c].

(** Modelled from the spec: the payload, byte by byte. *)
Fixpoint escape (from : list byte) : list byte :=
  match from with
  | [] => []
  | c :: rest => escapeByte c ++ escape rest
  end.

(** Modelled from the spec: [addSlipFraming] is defined in a file that is
    not among the sources.  Section 6: end byte 0xC0, escape 0xDB,
    0xC0 -> 0xDB 0xDC, 0xDB -> 0xDB 0xDD.  The frame is appended to [to],
    as [test_slip] uses it (a second frame is added behind the first). *)
Definition addSlipFraming (from to : list byte) : list byte :=
  to ++ [SLIP_END] ++ escape from ++ [SLIP_END].

(** Modelled from the spec: the loop of [removeSlipFraming] (section 6; the
    function is not among the sources) over the rest of the input: [i] bytes
    are consumed, [esc] tells whether the previous byte was the escape, [to]
    is the payload so far.  A 0xC0 met before any payload byte is a stray
    one and is skipped; one met later ends the frame.  [None] when the input
    ends first. *)
Fixpoint removeLoop (from : list byte) (i : nat) (esc : bool) (to : list byte)
  : option (nat * list byte) :=
  match from with
  | [] => None
  | c :: rest =>
      if Byte.eqb c SLIP_END
      then match to with
           | [] => removeLoop rest (S i) esc to
           | _ => Some (S i, to)
           end
      else if Byte.eqb c SLIP_ESC
      then removeLoop rest (S i) true to
      else if esc
      then removeLoop rest (S i) false
                      (to ++ [if Byte.eqb c SLIP_ESC_END then SLIP_END
                              else if Byte.eqb c SLIP_ESC_ESC then SLIP_ESC
                              else c])
      else removeLoop rest (S i) false (to ++ [c])
  end.

(** Modelled from the spec: [removeSlipFraming] is defined in a file that is
    not among the sources.  Section 6: frames are prefix-stripped of stray
    0xC0 runs; an incomplete frame yields [frame_length = 0].  The result is
    ([*frame_length], [to]). *)
Definition removeSlipFraming (from : list byte) : nat * list byte :=
  match removeLoop from 0 false [] with
  | Some (frame_length, to) => (frame_length, to)
  | None => (0%nat, [])
  end.

(* ---------------- the vectors of test_slip ---------------- *)

Definition test_slip_from : list byte := [x01; xc0; x03; x04; x05; xdb].
Definition test_slip_more : list byte :=
  [xc0; xc0; xc0; x01; x02; x03; x04; x05; x06; x07; x08].

Example test_slip_1 :
  addSlipFraming test_slip_from [] = [xc0; x01; xdb; xdc; x03; x04; x05; xdb; xdd; xc0].
Proof. reflexivity. Qed.

Example test_slip_2_3 :
  removeSlipFraming (addSlipFraming test_slip_from [])
  = (List.length (addSlipFraming test_slip_from []), test_slip_from).
Proof. reflexivity. Qed.

Example test_slip_4_5 :
  let to := addSlipFraming test_slip_more (addSlipFraming test_slip_from []) in
  removeSlipFraming to = (10%nat, test_slip_from) /\
  snd (removeSlipFraming (skipn 10 to)) = test_slip_more.
Proof. split; reflexivity. Qed.

Example test_slip_6 : fst (removeSlipFraming [xc0]) = 0%nat.
Proof. reflexivity. Qed.

Example test_slip_7 : fst (removeSlipFraming [xc0; x01; x02; x03; x04; x05]) = 0%nat.
Proof. reflexivity. Qed.

(* ---------------- round trip ---------------- *)

(** One escaped payload byte is read back as itself. *)
Lemma removeLoop_escapeByte c rest i to :
  removeLoop (escapeByte c ++ rest) i false to
  = removeLoop rest (i + List.length (escapeByte c)) false (to ++ [c]).
Proof.
  unfold escapeByte.
  destruct (Byte.eqb c SLIP_END) eqn:Hend.
  - apply byte_dec_bl in Hend. subst c. simpl.
    f_equal. lia.
  - destruct (Byte.eqb c SLIP_ESC) eqn:Hesc.
    + apply byte_dec_bl in Hesc. subst c. simpl.
      f_equal. lia.
    + simpl. rewrite Hend, Hesc. f_equal. lia.
Qed.

(** A whole escaped payload followed by the end byte. *)
Lemma removeLoop_escape x :
  forall rest i to,
    to ++ x <> [] ->
    removeLoop (escape x ++ SLIP_END :: rest) i false to
    = Some (S (i + List.length (escape x)), to ++ x).
Proof.
  induction x as [|c x IH]; intros rest i to Hne.
  - simpl. rewrite app_nil_r in *. destruct to as [|b to]; [contradiction|].
    now rewrite Nat.add_0_r.
  - simpl. rewrite <- app_assoc, removeLoop_escapeByte.
    rewrite IH.
    + rewrite length_app, <- app_assoc. simpl. do 2 f_equal. lia.
    + rewrite <- app_assoc. simpl. exact Hne.
Qed.

(** A non-empty payload is read back, with the whole frame consumed, also
    when more input follows the frame. *)
Lemma removeSlipFraming_frame x rest :
  x <> [] ->
  removeSlipFraming (addSlipFraming x [] ++ rest)
  = (List.length (addSlipFraming x []), x).
Proof.
  intros Hne. unfold removeSlipFraming, addSlipFraming.
  cbn [app]. unfold removeLoop at 1; fold removeLoop.
  replace (Byte.eqb SLIP_END SLIP_END) with true by reflexivity.
  rewrite <- app_assoc. cbn [app].
  rewrite removeLoop_escape by (simpl; exact Hne).
  simpl. rewrite length_app. simpl. do 2 f_equal. lia.
Qed.

(** C8, as amended: unframing a framed payload returns the payload; the
    reported frame length is the whole framed length when the payload is not
    empty, and 0 for the empty payload, whose frame 0xC0 0xC0 reads as a run
    of stray end bytes. *)
Theorem removeSlipFraming_addSlipFraming x :
  removeSlipFraming (addSlipFraming x [])
  = (match x with
     | [] => 0%nat
     | _ => List.length (addSlipFraming x [])
     end, x).
Proof.
  destruct x as [|c x]; [reflexivity|].
  rewrite <- (app_nil_r (addSlipFraming (c :: x) [])) at 1.
  apply removeSlipFraming_frame. discriminate.
Qed.

(** C8 as stated fails for the empty payload: the frame has two bytes and
    [frame_length] is 0. *)
Lemma empty_frame_length :
  addSlipFraming [] [] = [xc0; xc0] /\
  removeSlipFraming (addSlipFraming [] []) = (0%nat, []) /\
  fst (removeSlipFraming (addSlipFraming [] [])) <> List.length (addSlipFraming [] []).
Proof.
  split; [reflexivity|]. split; [reflexivity|]. simpl. discriminate.
Qed.

End Slip.

(* ------------------------------------------------------------------ *)
(** ** Month arithmetic *)

Module Months.

(** The members of [struct tm] that the month arithmetic uses: years since
    1900, month 0..11, day of the month 1..31.  C [int] is carried as [Z];
    the years of a calendar are far from its bounds. *)
Record tm := mktm {
  tm_year : Z;
  tm_mon : Z;
  tm_mday : Z
}.

(** Modelled from the spec: leap years with the century rule (section 9,
    [test_months]: 2000 is a leap year, 2100 is not), on the calendar year;
    [%] of C is [Z.rem]. *)
Definition is_leap_year (year : Z) : bool :=
  if negb (Z.rem year 4 =? 0) then false
  else if Z.rem year 400 =? 0 then true
  else if Z.rem year 100 =? 0 then false
  else true.

Definition days_in_months : list Z := [31; 28; 31; 30; 31; 30; 31; 31; 30; 31; 30; 31].

(** Modelled from the spec: the last valid day of month [month] (0..11) of
    the year [1900 + tm_year]. *)
Definition get_days_in_month (tm_year month : Z) : Z :=
  let days := nth (Z.to_nat month) days_in_months 31 in
  if (month =? 1) && is_leap_year (1900 + tm_year) then days + 1 else days.

(** Modelled from the spec: [addMonths] is defined in a file that is not
    among the sources.  Section 4.4: the month field is advanced, then the
    day is clamped to the last valid day of the target month.  [test_months]
    adds what the section leaves out: a date on the last day of its month
    goes to the last day of the target month (2021-02-28 minus 12 months is
    2020-02-29).  [/] and [%] of C are [Z.quot] and [Z.rem]. *)
Definition addMonths (date : tm) (months : Z) : tm :=
  let is_last_day_in_month :=
    tm_mday date =? get_days_in_month (tm_year date) (tm_mon date) in
  let year := tm_year date + Z.quot months 12 in
  let month := tm_mon date + Z.rem months 12 in
  let '(year, month) := if 11 <? month then (year + 1, month - 12) else (year, month) in
  let '(year, month) := if month <? 0 then (year - 1, month + 12) else (year, month) in
  let day :=
    if is_last_day_in_month
    then get_days_in_month year month
    else Z.min (tm_mday date) (get_days_in_month year month) in
  mktm year month day.

(** The rule as section 4.4 words it, for comparison: advance the month,
    then clamp the day, and nothing more. *)
Definition advanceThenClamp (date : tm) (months : Z) : tm :=
  let year := tm_year date + Z.quot months 12 in
  let month := tm_mon date + Z.rem months 12 in
  let '(year, month) := if 11 <? month then (year + 1, month - 12) else (year, month) in
  let '(year, month) := if month <? 0 then (year - 1, month + 12) else (year, month) in
  mktm year month (Z.min (tm_mday date) (get_days_in_month year month)).

(** [test_month] fills a [struct tm] from year, month, day ... *)
Definition dateOf (y m day : Z) : tm := mktm (y - 1900) (m - 1) day.

(** ... and reads it back with [strdate], as year-month-day. *)
Definition strdate (date : tm) : Z * Z * Z :=
  (1900 + tm_year date, tm_mon date + 1, tm_mday date).

(** The calls of [test_month] in [test_months]: date, months, expected. *)
Definition test_months_vectors : list (Z * Z * Z * Z * (Z * Z * Z)) :=
  [ (2020, 12, 31, 2, (2021, 2, 28));
    (2020, 12, 31, -10, (2020, 2, 29));
    (2021, 1, 31, -1, (2020, 12, 31));
    (2021, 1, 31, -2, (2020, 11, 30));
    (2021, 1, 31, -24, (2019, 1, 31));
    (2021, 1, 31, 24, (2023, 1, 31));
    (2021, 1, 31, 22, (2022, 11, 30));
    (2021, 2, 28, -12, (2020, 2, 29));
    (2001, 2, 28, -12, (2000, 2, 29));
    (2000, 2, 29, 12 * 100, (2100, 2, 28)) ].

Definition monthVectorHolds (v : Z * Z * Z * Z * (Z * Z * Z)) : bool :=
  let '(y, m, day, mdiff, (ey, em, ed)) := v in
  let '(ry, rm, rd) := strdate (addMonths (dateOf y m day) mdiff) in
  (ry =? ey) && (rm =? em) && (rd =? ed).

Example test_months_replayed : forallb monthVectorHolds test_months_vectors = true.
Proof. vm_compute. reflexivity. Qed.

(* ---------------- facts ---------------- *)

Lemma is_leap_year_iff year :
  is_leap_year year = true <->
  Z.rem year 4 = 0 /\ (Z.rem year 100 <> 0 \/ Z.rem year 400 = 0).
Proof.
  unfold is_leap_year.
  destruct (Z.eqb_spec (Z.rem year 4) 0) as [H4|H4]; simpl.
  - destruct (Z.eqb_spec (Z.rem year 400) 0) as [H400|H400].
    + split; auto.
    + destruct (Z.eqb_spec (Z.rem year 100) 0) as [H100|H100].
      * split; [discriminate|]. intros [_ [H|H]]; contradiction.
      * split; auto.
  - split; [discriminate|]. intros [H _]; contradiction.
Qed.

(** The month field after [addMonths]: the months are added to the running
    month count, and the month stays in 0..11. *)
Lemma addMonths_month date months :
  0 <= tm_mon date < 12 ->
  12 * tm_year (addMonths date months) + tm_mon (addMonths date months)
  = 12 * tm_year date + tm_mon date + months /\
  0 <= tm_mon (addMonths date months) < 12.
Proof.
  intros Hmon. unfold addMonths.
  pose proof (Z.quot_rem' months 12) as Hqr.
  assert (Hrem : -12 < Z.rem months 12 < 12).
  { pose proof (Z.rem_bound_abs months 12) as Habs.
    assert (H12 : Z.abs 12 = 12) by reflexivity. rewrite H12 in Habs.
    apply (proj1 (Z.abs_lt (Z.rem months 12) 12)). apply Habs. discriminate. }
  set (q := Z.quot months 12) in *. set (r := Z.rem months 12) in *.
  clearbody q r.
  destruct (Z.ltb_spec 11 (tm_mon date + r)) as [Hhi|Hhi].
  - destruct (Z.ltb_spec (tm_mon date + r - 12) 0); cbn [tm_year tm_mon]; lia.
  - destruct (Z.ltb_spec (tm_mon date + r) 0); cbn [tm_year tm_mon]; lia.
Qed.

(** The day after [addMonths]. *)
Lemma addMonths_day date months :
  tm_mday (addMonths date months)
  = let target := addMonths date months in
    if tm_mday date =? get_days_in_month (tm_year date) (tm_mon date)
    then get_days_in_month (tm_year target) (tm_mon target)
    else Z.min (tm_mday date) (get_days_in_month (tm_year target) (tm_mon target)).
Proof.
  unfold addMonths.
  destruct (11 <? tm_mon date + Z.rem months 12);
    match goal with |- context [?m <? 0] => destruct (m <? 0) end; reflexivity.
Qed.

(** Modelled from the spec: the leap years in the words of the claim: a
    year divisible by 4, but one divisible by 100 only when it is divisible
    by 400. *)
Definition leapYear (y : Z) : Prop := (4 | y) /\ (~ (100 | y) \/ (400 | y)).

(** Modelled from the spec: the last valid day of month [m] (1 is January)
    of the year [y], month by month. *)
Inductive lastDayOfMonth (y : Z) : Z -> Z -> Prop :=
| January : lastDayOfMonth y 1 31
| FebruaryLeap : leapYear y -> lastDayOfMonth y 2 29
| FebruaryCommon : ~ leapYear y -> lastDayOfMonth y 2 28
| March : lastDayOfMonth y 3 31
| April : lastDayOfMonth y 4 30
| May : lastDayOfMonth y 5 31
| June : lastDayOfMonth y 6 30
| July : lastDayOfMonth y 7 31
| August : lastDayOfMonth y 8 31
| September : lastDayOfMonth y 9 30
| October : lastDayOfMonth y 10 31
| November : lastDayOfMonth y 11 30
| December : lastDayOfMonth y 12 31.

Lemma is_leap_year_leapYear year : is_leap_year year = true <-> leapYear year.
Proof.
  rewrite is_leap_year_iff. unfold leapYear.
  rewrite <- !Z.rem_divide by discriminate. reflexivity.
Qed.

(** The table of the model against the calendar. *)
Lemma get_days_in_month_calendar tm_year tm_mon L :
  lastDayOfMonth (1900 + tm_year) (tm_mon + 1) L -> get_days_in_month tm_year tm_mon = L.
Proof.
  intros H. remember (tm_mon + 1) as month eqn:Hmonth.
  destruct H;
    match type of Hmonth with
    | ?k = tm_mon + 1 =>
        let n := eval cbv in (k - 1) in
        assert (Hm : tm_mon = n) by lia
    end;
    subst tm_mon; clear Hmonth; unfold get_days_in_month; cbn [Z.eqb andb];
    try reflexivity.
  - replace (is_leap_year (1900 + tm_year)) with true
      by (symmetry; now apply is_leap_year_leapYear).
    reflexivity.
  - replace (is_leap_year (1900 + tm_year)) with false; [reflexivity|].
    symmetry. destruct (is_leap_year (1900 + tm_year)) eqn:Hl; [|reflexivity].
    apply is_leap_year_leapYear in Hl. contradiction.
Qed.

(** C6, as amended: adding N months to a date of the calendar moves the
    month by N, the year following; a date on the last day of its month
    goes to the last day of the target month, any other date keeps its day,
    clamped to the last valid day of the target month.  The last valid day
    is the one of the calendar, with the leap years of the century rule.
    The four dates of the claim come out as stated. *)
Theorem addMonths_calendar :
  (forall y m d n y' m' d',
      1 <= m <= 12 ->
      strdate (addMonths (dateOf y m d) n) = (y', m', d') ->
      12 * y' + m' = 12 * y + m + n /\
      1 <= m' <= 12 /\
      forall L L',
        lastDayOfMonth y m L -> lastDayOfMonth y' m' L' ->
        d' = if d =? L then L' else Z.min d L') /\
  (forall year,
      is_leap_year year = true <->
      Z.rem year 4 = 0 /\ (Z.rem year 100 <> 0 \/ Z.rem year 400 = 0)) /\
  strdate (addMonths (dateOf 2020 12 31) 2) = (2021, 2, 28) /\
  strdate (addMonths (dateOf 2020 12 31) (-10)) = (2020, 2, 29) /\
  strdate (addMonths (dateOf 2021 2 28) (-12)) = (2020, 2, 29) /\
  strdate (addMonths (dateOf 2000 2 29) 1200) = (2100, 2, 28).
Proof.
  split.
  { intros y m d n y' m' d' Hm Hs. unfold strdate in Hs.
    pose proof (f_equal (fun p => fst (fst p)) Hs) as Hy.
    pose proof (f_equal (fun p => snd (fst p)) Hs) as Hm'.
    pose proof (f_equal snd Hs) as Hd.
    cbn [fst snd] in Hy, Hm', Hd. subst y' m' d'. clear Hs.
    assert (Hmon : 0 <= tm_mon (dateOf y m d) < 12) by (cbn [dateOf tm_mon]; lia).
    destruct (addMonths_month (dateOf y m d) n Hmon) as [Hcount Hrange].
    pose proof (addMonths_day (dateOf y m d) n) as Hday. cbv zeta in Hday.
    set (target := addMonths (dateOf y m d) n) in *.
    cbn [dateOf tm_year tm_mon tm_mday] in Hcount, Hday.
    split; [lia|]. split; [lia|].
    intros L L' HL HL'.
    rewrite (get_days_in_month_calendar (y - 1900) (m - 1) L) in Hday
      by (replace (1900 + (y - 1900)) with y by lia;
          replace (m - 1 + 1) with m by lia; exact HL).
    rewrite (get_days_in_month_calendar (tm_year target) (tm_mon target) L' HL') in Hday.
    exact Hday. }
  split; [exact is_leap_year_iff|].
  repeat split; reflexivity.
Qed.

(** C6 at 2021-01-31 minus 2 months: January has 31 days, November 30. *)
Lemma addMonths_calendar_witness :
  1 <= 1 <= 12 /\
  strdate (addMonths (dateOf 2021 1 31) (-2)) = (2020, 11, 30) /\
  30 = (if 31 =? 31 then 30 else Z.min 31 30).
Proof.
  assert (H : 1 <= 1 <= 12) by lia.
  split; [exact H|]. split; [reflexivity|].
  exact (proj2 (proj2 (proj1 addMonths_calendar 2021 1 31 (-2) 2020 11 30 H eq_refl))
               31 30 (January 2021) (November 2020)).
Defined.

(** C6 as stated fails on a vector of [test_months]: 2021-02-28 minus 12
    months is 2020-02-29, where advancing the month and clamping the day
    gives 2020-02-28. *)
Lemma last_day_goes_to_last_day :
  strdate (addMonths (dateOf 2021 2 28) (-12)) = (2020, 2, 29) /\
  strdate (advanceThenClamp (dateOf 2021 2 28) (-12)) = (2020, 2, 28) /\
  addMonths (dateOf 2021 2 28) (-12) <> advanceThenClamp (dateOf 2021 2 28) (-12).
Proof.
  split; [reflexivity|]. split; [reflexivity|]. vm_compute. discriminate.
Qed.

End Months.

(* ------------------------------------------------------------------ *)
(** ** SI exponents and units *)

Module SIUnits.

Local Open Scope Z_scope.

(** Modelled from the spec: [SIExp] is declared in units.h, which is not
    among the sources.  Section 4.4: a fixed-width vector of signed-byte
    exponents (s, m, kg, A, K, mol, cd, °C, currency) and an Invalid mark.
    [Unit::F] of the tests needs a dimension of its own beside K and °C,
    [f_].  An [int8_t] exponent is carried as [Z]. *)
Record SIExp := mkSIExp {
  s_ : Z;
  m_ : Z;
  kg_ : Z;
  a_ : Z;
  k_ : Z;
  mol_ : Z;
  cd_ : Z;
  c_ : Z;
  f_ : Z;
  currency_ : Z;
  invalid_ : bool
}.

(** The exponents in the order of the record. *)
Definition exponents (e : SIExp) : list Z :=
  [s_ e; m_ e; kg_ e; a_ e; k_ e; mol_ e; cd_ e; c_ e; f_ e; currency_ e].

(** Modelled from the spec: [SIExp::build()], all exponents zero. *)
Definition build : SIExp := mkSIExp 0 0 0 0 0 0 0 0 0 0 false.

(** Modelled from the spec: an [int] leaves the signed 8-bit range. *)
Definition overflows (x : Z) : bool := (127 <? x) || (x <? -128).

(** Modelled from the spec: what an [int8_t] keeps of an [int], by
    wrap-around ([test_si_units_siexp]: 127 + 1 is stored as -128). *)
Definition to_int8 (x : Z) : Z := (x + 128) mod 256 - 128.

(** Modelled from the spec: addition and subtraction of two exponents with
    overflow detection (section 4.4; units.cc is not among the sources): the
    sum is computed in [int], stored as [int8_t], and an overflow sets the
    Invalid mark that is passed along. *)
Definition safe_add (a b : Z) (invalid : bool) : Z * bool :=
  let sum := a + b in
  (to_int8 sum, if overflows sum then true else invalid).

Definition safe_sub (a b : Z) (invalid : bool) : Z * bool :=
  let diff := a - b in
  (to_int8 diff, if overflows diff then true else invalid).

(** Modelled from the spec: K, °C and °F are scales of one quantity; a
    vector that carries more than one of them is Invalid
    ([test_si_units_siexp]: k(1).c(1) prints as !kc-Invalid!). *)
Definition mixes_temperatures (k c f : Z) : bool :=
  (negb (k =? 0) && negb (c =? 0)) ||
  (negb (k =? 0) && negb (f =? 0)) ||
  (negb (c =? 0) && negb (f =? 0)).

(** Modelled from the spec: one exponent-wise pass of [SIExp::mul] and
    [SIExp::div] (units.cc, not among the sources), section 4.4: the
    exponents are added or subtracted componentwise with overflow detection;
    any overflow marks the vector Invalid, and an Invalid operand makes the
    result Invalid. *)
Definition combine_exponents (op : Z -> Z -> bool -> Z * bool) (x y : SIExp) : SIExp :=
  let invalid := invalid_ x || invalid_ y in
  let '(s, invalid) := op (s_ x) (s_ y) invalid in
  let '(m, invalid) := op (m_ x) (m_ y) invalid in
  let '(kg, invalid) := op (kg_ x) (kg_ y) invalid in
  let '(a, invalid) := op (a_ x) (a_ y) invalid in
  let '(k, invalid) := op (k_ x) (k_ y) invalid in
  let '(mol, invalid) := op (mol_ x) (mol_ y) invalid in
  let '(cd, invalid) := op (cd_ x) (cd_ y) invalid in
  let '(c, invalid) := op (c_ x) (c_ y) invalid in
  let '(f, invalid) := op (f_ x) (f_ y) invalid in
  let '(currency, invalid) := op (currency_ x) (currency_ y) invalid in
  mkSIExp s m kg a k mol cd c f currency
          (if mixes_temperatures k c f then true else invalid).

Definition mul (x y : SIExp) : SIExp := combine_exponents safe_add x y.

Definition div (x y : SIExp) : SIExp := combine_exponents safe_sub x y.

(** Modelled from the spec: the setters of the builder,
    [SIExp::build().s(-1).m(3)]; a temperature setter re-checks the mix. *)
Definition recheck (e : SIExp) : SIExp :=
  mkSIExp (s_ e) (m_ e) (kg_ e) (a_ e) (k_ e) (mol_ e) (cd_ e) (c_ e) (f_ e) (currency_ e)
          (if mixes_temperatures (k_ e) (c_ e) (f_ e) then true else invalid_ e).

Definition s (i : Z) (e : SIExp) : SIExp :=
  mkSIExp i (m_ e) (kg_ e) (a_ e) (k_ e) (mol_ e) (cd_ e) (c_ e) (f_ e) (currency_ e) (invalid_ e).
Definition m (i : Z) (e : SIExp) : SIExp :=
  mkSIExp (s_ e) i (kg_ e) (a_ e) (k_ e) (mol_ e) (cd_ e) (c_ e) (f_ e) (currency_ e) (invalid_ e).
Definition kg (i : Z) (e : SIExp) : SIExp :=
  mkSIExp (s_ e) (m_ e) i (a_ e) (k_ e) (mol_ e) (cd_ e) (c_ e) (f_ e) (currency_ e) (invalid_ e).
Definition k (i : Z) (e : SIExp) : SIExp :=
  recheck (mkSIExp (s_ e) (m_ e) (kg_ e) (a_ e) i (mol_ e) (cd_ e) (c_ e) (f_ e) (currency_ e)
                   (invalid_ e)).
Definition c (i : Z) (e : SIExp) : SIExp :=
  recheck (mkSIExp (s_ e) (m_ e) (kg_ e) (a_ e) (k_ e) (mol_ e) (cd_ e) i (f_ e) (currency_ e)
                   (invalid_ e)).
Definition f (i : Z) (e : SIExp) : SIExp :=
  recheck (mkSIExp (s_ e) (m_ e) (kg_ e) (a_ e) (k_ e) (mol_ e) (cd_ e) (c_ e) i (currency_ e)
                   (invalid_ e)).

(* ---------------- the vectors of test_si_units_siexp ---------------- *)

Example test_siexp_mul :
  mul (m 3 (s (-1) build)) (s 1 build) = m 3 build.
Proof. reflexivity. Qed.

Example test_siexp_overflow :
  mul (s 127 build) (s 1 build) = mkSIExp (-128) 0 0 0 0 0 0 0 0 0 true.
Proof. reflexivity. Qed.

Example test_siexp_div :
  div (m 3 (s (-1) build)) (m 3 (s (-1) build)) = build.
Proof. reflexivity. Qed.

Example test_siexp_bad : invalid_ (c 1 (k 1 build)) = true.
Proof. reflexivity. Qed.

(* ---------------- facts ---------------- *)

(** The Invalid mark after [mul] and [div], in closed form. *)
Lemma mul_invalid x y :
  invalid_ (mul x y)
  = invalid_ x || invalid_ y
    || existsb (fun p => overflows (fst p + snd p)) (List.combine (exponents x) (exponents y))
    || mixes_temperatures (to_int8 (k_ x + k_ y)) (to_int8 (c_ x + c_ y))
                          (to_int8 (f_ x + f_ y)).
Proof.
  unfold mul, combine_exponents, safe_add, exponents.
  cbn [invalid_ List.combine existsb fst snd].
  generalize (mixes_temperatures (to_int8 (k_ x + k_ y)) (to_int8 (c_ x + c_ y))
                                 (to_int8 (f_ x + f_ y))).
  generalize (overflows (s_ x + s_ y)), (overflows (m_ x + m_ y)), (overflows (kg_ x + kg_ y)),
    (overflows (a_ x + a_ y)), (overflows (k_ x + k_ y)), (overflows (mol_ x + mol_ y)),
    (overflows (cd_ x + cd_ y)), (overflows (c_ x + c_ y)), (overflows (f_ x + f_ y)),
    (overflows (currency_ x + currency_ y)), (invalid_ x), (invalid_ y).
  intros. btauto.
Qed.

Lemma div_invalid x y :
  invalid_ (div x y)
  = invalid_ x || invalid_ y
    || existsb (fun p => overflows (fst p - snd p)) (List.combine (exponents x) (exponents y))
    || mixes_temperatures (to_int8 (k_ x - k_ y)) (to_int8 (c_ x - c_ y))
                          (to_int8 (f_ x - f_ y)).
Proof.
  unfold div, combine_exponents, safe_sub, exponents.
  cbn [invalid_ List.combine existsb fst snd].
  generalize (mixes_temperatures (to_int8 (k_ x - k_ y)) (to_int8 (c_ x - c_ y))
                                 (to_int8 (f_ x - f_ y))).
  generalize (overflows (s_ x - s_ y)), (overflows (m_ x - m_ y)), (overflows (kg_ x - kg_ y)),
    (overflows (a_ x - a_ y)), (overflows (k_ x - k_ y)), (overflows (mol_ x - mol_ y)),
    (overflows (cd_ x - cd_ y)), (overflows (c_ x - c_ y)), (overflows (f_ x - f_ y)),
    (overflows (currency_ x - currency_ y)), (invalid_ x), (invalid_ y).
  intros. btauto.
Qed.

Lemma overflows_iff x : overflows x = true <-> x < -128 \/ 127 < x.
Proof.
  unfold overflows. rewrite orb_true_iff, !Z.ltb_lt. tauto.
Qed.

Lemma to_int8_in_range x : overflows x = false -> to_int8 x = x.
Proof.
  unfold overflows, to_int8. intros H. apply orb_false_elim in H.
  destruct H as [H1 H2]. apply Z.ltb_ge in H1, H2.
  rewrite Z.mod_small by lia. lia.
Qed.

Lemma existsb_Exists {A} (p : A -> bool) xs :
  existsb p xs = true <-> Exists (fun x => p x = true) xs.
Proof.
  rewrite existsb_exists, Exists_exists. reflexivity.
Qed.

(** From a closed form that says no component overflowed: every stored
    exponent is the exact sum or difference. *)
Ltac exact_exponents H :=
  repeat (apply orb_false_elim in H; destruct H as [H ?]);
  unfold exponents, combine_exponents, safe_add, safe_sub in *;
  cbn [s_ m_ kg_ a_ k_ mol_ cd_ c_ f_ currency_ List.combine map existsb fst snd] in *;
  repeat match goal with
         | Ho : _ || _ = false |- _ =>
             apply orb_false_elim in Ho; let H1 := fresh in destruct Ho as [H1 Ho]
         end;
  repeat match goal with
         | Ho : overflows _ = false |- _ => rewrite (to_int8_in_range _ Ho); clear Ho
         end.

Lemma overflows_false x : -128 <= x <= 127 -> overflows x = false.
Proof.
  intros H. unfold overflows. apply orb_false_intro; apply Z.ltb_ge; lia.
Qed.

Lemma mixes_temperatures_false k c f :
  (k = 0 /\ c = 0) \/ (k = 0 /\ f = 0) \/ (c = 0 /\ f = 0) ->
  mixes_temperatures k c f = false.
Proof.
  unfold mixes_temperatures.
  intros [[-> ->]|[[-> ->]|[-> ->]]]; cbn [Z.eqb negb andb orb];
    rewrite ?andb_false_r; reflexivity.
Qed.

(** When the operands are valid, every component stays in range and at most
    one temperature scale is left, nothing marks the result. *)
Lemma combine_valid (op : Z -> Z -> Z) x y :
  invalid_ x = false -> invalid_ y = false ->
  Forall (fun p => -128 <= op (fst p) (snd p) <= 127)
         (List.combine (exponents x) (exponents y)) ->
  (op (k_ x) (k_ y) = 0 /\ op (c_ x) (c_ y) = 0) \/
  (op (k_ x) (k_ y) = 0 /\ op (f_ x) (f_ y) = 0) \/
  (op (c_ x) (c_ y) = 0 /\ op (f_ x) (f_ y) = 0) ->
  invalid_ x || invalid_ y
  || existsb (fun p => overflows (op (fst p) (snd p)))
             (List.combine (exponents x) (exponents y))
  || mixes_temperatures (to_int8 (op (k_ x) (k_ y))) (to_int8 (op (c_ x) (c_ y)))
                        (to_int8 (op (f_ x) (f_ y))) = false.
Proof.
  intros Hx Hy Hrange Hmix. rewrite Hx, Hy. cbn [orb].
  unfold exponents in *. cbn [List.combine] in *.
  repeat match goal with
         | H : Forall _ (_ :: _) |- _ => inversion H; clear H; subst
         end.
  cbn [fst snd existsb] in *.
  repeat match goal with
         | H : -128 <= ?v <= 127 |- _ =>
             rewrite (overflows_false v H); try rewrite (to_int8_in_range v (overflows_false v H));
             clear H
         end.
  cbn [orb]. apply mixes_temperatures_false. exact Hmix.
Qed.

(** C7: [mul] adds and [div] subtracts the exponents componentwise; when a
    component leaves the signed 8-bit range the result is Invalid; an Invalid
    operand gives an Invalid result of [mul] and of [div]; a result that is
    not Invalid holds the exact sums or differences.  Valid operands whose
    sums (differences) all stay in range, with at most one of K, °C and °F
    left, give a valid result with exactly those exponents, as m^3 s^-1
    times s and m^3 s^-1 by itself do; and s=127 times s=1 is Invalid. *)
Theorem siexp_overflow_marks_invalid :
  (forall x y,
      Exists (fun p => fst p + snd p < -128 \/ 127 < fst p + snd p)
             (List.combine (exponents x) (exponents y)) ->
      invalid_ (mul x y) = true) /\
  (forall x y,
      Exists (fun p => fst p - snd p < -128 \/ 127 < fst p - snd p)
             (List.combine (exponents x) (exponents y)) ->
      invalid_ (div x y) = true) /\
  (forall x y,
      invalid_ x = true \/ invalid_ y = true ->
      invalid_ (mul x y) = true /\ invalid_ (div x y) = true) /\
  (forall x y,
      invalid_ (mul x y) = false ->
      exponents (mul x y) = map (fun p => fst p + snd p) (List.combine (exponents x) (exponents y))) /\
  (forall x y,
      invalid_ (div x y) = false ->
      exponents (div x y) = map (fun p => fst p - snd p) (List.combine (exponents x) (exponents y))) /\
  (forall x y,
      invalid_ x = false -> invalid_ y = false ->
      Forall (fun p => -128 <= fst p + snd p <= 127)
             (List.combine (exponents x) (exponents y)) ->
      (k_ x + k_ y = 0 /\ c_ x + c_ y = 0) \/
      (k_ x + k_ y = 0 /\ f_ x + f_ y = 0) \/
      (c_ x + c_ y = 0 /\ f_ x + f_ y = 0) ->
      invalid_ (mul x y) = false /\
      exponents (mul x y) = map (fun p => fst p + snd p) (List.combine (exponents x) (exponents y))) /\
  (forall x y,
      invalid_ x = false -> invalid_ y = false ->
      Forall (fun p => -128 <= fst p - snd p <= 127)
             (List.combine (exponents x) (exponents y)) ->
      (k_ x - k_ y = 0 /\ c_ x - c_ y = 0) \/
      (k_ x - k_ y = 0 /\ f_ x - f_ y = 0) \/
      (c_ x - c_ y = 0 /\ f_ x - f_ y = 0) ->
      invalid_ (div x y) = false /\
      exponents (div x y) = map (fun p => fst p - snd p) (List.combine (exponents x) (exponents y))) /\
  mul (m 3 (s (-1) build)) (s 1 build) = m 3 build /\
  div (m 3 (s (-1) build)) (m 3 (s (-1) build)) = build /\
  invalid_ (mul (s 127 build) (s 1 build)) = true.
Proof.
  split.
  { intros x y H. rewrite mul_invalid.
    assert (Hex : existsb (fun p => overflows (fst p + snd p))
                          (List.combine (exponents x) (exponents y)) = true).
    { apply existsb_Exists. eapply Exists_impl; [|exact H].
      intros p Hp. now apply overflows_iff. }
    rewrite Hex. now rewrite orb_true_r. }
  split.
  { intros x y H. rewrite div_invalid.
    assert (Hex : existsb (fun p => overflows (fst p - snd p))
                          (List.combine (exponents x) (exponents y)) = true).
    { apply existsb_Exists. eapply Exists_impl; [|exact H].
      intros p Hp. now apply overflows_iff. }
    rewrite Hex. now rewrite orb_true_r. }
  split.
  { intros x y H. rewrite mul_invalid, div_invalid.
    destruct H as [-> | ->]; rewrite ?orb_true_r; split; reflexivity. }
  split.
  { intros x y H. rewrite mul_invalid in H.
    unfold mul. now exact_exponents H. }
  split.
  { intros x y H. rewrite div_invalid in H.
    unfold div. now exact_exponents H. }
  split.
  { intros x y Hx Hy Hrange Hmix.
    assert (H : invalid_ (mul x y) = false).
    { rewrite mul_invalid. exact (combine_valid Z.add x y Hx Hy Hrange Hmix). }
    split; [exact H|]. rewrite mul_invalid in H. unfold mul. now exact_exponents H. }
  split.
  { intros x y Hx Hy Hrange Hmix.
    assert (H : invalid_ (div x y) = false).
    { rewrite div_invalid. exact (combine_valid Z.sub x y Hx Hy Hrange Hmix). }
    split; [exact H|]. rewrite div_invalid in H. unfold div. now exact_exponents H. }
  repeat split; reflexivity.
Qed.

(** C7 at s=127 times s=1: the first component leaves the range. *)
Lemma siexp_overflow_marks_invalid_witness :
  Exists (fun p => fst p + snd p < -128 \/ 127 < fst p + snd p)
         (List.combine (exponents (s 127 build)) (exponents (s 1 build))) /\
  invalid_ (mul (s 127 build) (s 1 build)) = true.
Proof.
  assert (H : Exists (fun p => fst p + snd p < -128 \/ 127 < fst p + snd p)
                     (List.combine (exponents (s 127 build)) (exponents (s 1 build)))).
  { left. right. reflexivity. }
  split; [exact H|].
  exact (proj1 siexp_overflow_marks_invalid (s 127 build) (s 1 build) H).
Defined.

(* ---------------- units and conversion ---------------- *)

(** Modelled from the spec: the quantities of section 3 ([enum Quantity] of
    units.h, not among the sources). *)
Inductive Quantity :=
| Energy | Power | Volume | Flow | Temperature | Time | Length | Mass
| Amperage | Voltage | Pressure | Frequency | Angle | Dimensionless
| AmountOfSubstance | LuminousIntensity | RelativeHumidity | HCA
| Apparent_Energy | Reactive_Energy | PointInTime | Text.

Definition Quantity_eq_dec (p q : Quantity) : {p = q} + {p <> q}.
Proof. decide equality. Defined.

Definition Quantity_eqb (p q : Quantity) : bool :=
  if Quantity_eq_dec p q then true else false.

(** Modelled from the spec: [SIUnit] is declared in units.h, which is not
    among the sources.  Section 3: a quantity tag, a scalar magnitude and the
    exponents.  The scalar, a [double] in the program, is a rational here. *)
Record SIUnit := mkSIUnit {
  quantity : Quantity;
  scalar : Q;
  exp : SIExp
}.

(** Equality of two exponent vectors, the Invalid mark included. *)
Definition SIExp_eqb (x y : SIExp) : bool :=
  forallb (fun p => fst p =? snd p) (List.combine (exponents x) (exponents y))
  && Bool.eqb (invalid_ x) (invalid_ y).

(** Modelled from the spec: the explicit cross-quantity rule of section
    4.4: active, reactive and apparent energy convert into each other.
    (COUNTER, FACTOR, NUMBER and PERCENTAGE share the quantity
    Dimensionless.) *)
Definition isEnergyKind (q : Quantity) : bool :=
  match q with
  | Energy | Reactive_Energy | Apparent_Energy => true
  | _ => false
  end.

Definition crossQuantity (p q : Quantity) : bool := isEnergyKind p && isEnergyKind q.

Inductive TemperatureScale := Kelvin | Celsius | Fahrenheit.

(** Modelled from the spec: the exponents of a pure temperature, exactly
    one of K, °C, °F to the power one; these take the affine path of
    section 4.4. *)
Definition temperatureScale (e : SIExp) : option TemperatureScale :=
  if SIExp_eqb e (k 1 build) then Some Kelvin
  else if SIExp_eqb e (c 1 build) then Some Celsius
  else if SIExp_eqb e (f 1 build) then Some Fahrenheit
  else None.

Local Open Scope Q_scope.

(** Modelled from the spec: the affine transforms between the scales, by way
    of kelvin ([test_si_units_conversion]: 0 °C is 273.15 K, 100 K is
    -279.67 °F). *)
Definition toKelvin (scale : TemperatureScale) (v : Q) : Q :=
  match scale with
  | Kelvin => v
  | Celsius => v + (27315 # 100)
  | Fahrenheit => (v - 32) * (5 # 9) + (27315 # 100)
  end.

Definition fromKelvin (scale : TemperatureScale) (v : Q) : Q :=
  match scale with
  | Kelvin => v
  | Celsius => v - (27315 # 100)
  | Fahrenheit => (v - (27315 # 100)) * (9 # 5) + 32
  end.

(** Modelled from the spec: [SIUnit::convertTo] is defined in units.cc, which
    is not among the sources.  Section 4.4: the conversion succeeds when the
    exponents are equal and the quantities are the same or fall under the
    cross-quantity rule, and is then a multiplication by the ratio of the
    scalars; K, °C and °F convert through a dedicated affine path (the
    vectors of [test_si_units_conversion] convert between them); otherwise
    it fails without mutating the output.  The result is the return value
    and the contents of [*out], which held [out] before the call. *)
Definition convertTo (from : SIUnit) (value : Q) (to : SIUnit) (out : Q) : bool * Q :=
  if SIExp_eqb (exp from) (exp to)
  then
    if Quantity_eqb (quantity from) (quantity to)
       || crossQuantity (quantity from) (quantity to)
    then (true, value * scalar from / scalar to)
    else (false, out)
  else
    match temperatureScale (exp from), temperatureScale (exp to) with
    | Some scale_from, Some scale_to =>
        (true, fromKelvin scale_to (toKelvin scale_from (value * scalar from)) / scalar to)
    | _, _ => (false, out)
    end.

(** The units that the replayed vectors use. *)
Inductive Unit :=
| KWH | MJ | GJ | KVARH | KVAH | M3C | KW | M3CH | C | K | F
| COUNTER | FACTOR | NUMBER | PERCENTAGE.

(** Modelled from the spec: the expansion of a unit (units.h, not among the
    sources).  [test_si_units_basic] prints kWh as 3.6x10^6 kg m^2 s^-2 and
    °C as 1c, [test_formulas_errors] prints kW as 1000 kg m^2 s^-3; the
    others are the multiples that the conversion vectors need. *)
Definition siunit (u : Unit) : SIUnit :=
  let joule := s (-2) (m 2 (kg 1 build)) in
  let watt := s (-3) (m 2 (kg 1 build)) in
  match u with
  | KWH => mkSIUnit Energy 3600000 joule
  | MJ => mkSIUnit Energy 1000000 joule
  | GJ => mkSIUnit Energy 1000000000 joule
  | KVARH => mkSIUnit Reactive_Energy 3600000 joule
  | KVAH => mkSIUnit Apparent_Energy 3600000 joule
  | M3C => mkSIUnit Energy 1 (c 1 (m 3 build))
  | KW => mkSIUnit Power 1000 watt
  | M3CH => mkSIUnit Power (1 # 3600) (s (-1) (c 1 (m 3 build)))
  | C => mkSIUnit Temperature 1 (c 1 build)
  | K => mkSIUnit Temperature 1 (k 1 build)
  | F => mkSIUnit Temperature 1 (f 1 build)
  | COUNTER | FACTOR | NUMBER | PERCENTAGE => mkSIUnit Dimensionless 1 build
  end.

(** [test_si_convert]: the converted value; the output starts as 0. *)
Definition converts (from_value expected : Q) (from to : Unit) : bool :=
  let (ok, e) := convertTo (siunit from) from_value (siunit to) 0 in
  ok && Qeq_bool e expected.

(** [test_expected_failed_si_convert]. *)
Definition failsToConvert (from to : Unit) : bool :=
  negb (fst (convertTo (siunit from) 0 (siunit to) 0)).

(** Vectors of [test_si_units_conversion] whose values are rationals. *)
Example test_si_units_conversion_replayed :
  forallb (fun b => b)
    [ converts 0 (27315 # 100) C K;
      converts (1085 # 100) 284 C K;
      converts 100 (-17315 # 100) K C;
      converts 100 (-27967 # 100) K F;
      converts 100 (340 # 9) F C;
      converts 0 (-160 # 9) F C;
      converts 1 (36 # 10) KWH MJ;
      converts 1 (36 # 10000) KWH GJ;
      converts 1 1000 GJ MJ;
      converts 10 (25 # 9) MJ KWH;
      converts (1 # 3600000) (1 # 1000000) KWH MJ;
      converts 99 99 M3C M3C;
      failsToConvert M3C KWH;
      converts 1 1 KVARH KWH;
      converts 1 1 KWH KVARH;
      converts 1 1 KVAH KWH;
      converts 1 1 KWH KVAH;
      converts 1 1 KW KW;
      converts 99 99 M3CH M3CH;
      failsToConvert M3CH KW;
      converts 2211717 2211717 COUNTER FACTOR;
      converts 2211717 2211717 FACTOR COUNTER;
      converts 2211717 2211717 NUMBER COUNTER;
      converts 2211717 2211717 FACTOR NUMBER;
      converts 2211717 2211717 PERCENTAGE NUMBER;
      converts 2211717 2211717 NUMBER PERCENTAGE ] = true.
Proof. vm_compute. reflexivity. Qed.

Local Open Scope Z_scope.








End SIUnits.
